(** * Balatan weather portal: caching, classification and hourly aggregation

    A shallow embedding of the Python services of the portal:
    - [services/weather_service.py]  (WeatherCache, WeatherService),
    - [services/metrics_service.py]  (MetricsService),
    - [services/precipitation_service.py] and
      [services/water_level_service.py] (the two hourly aggregators),
    - the thresholds of [config.py].

    Python values are an inductive type, exceptions are a sum type, floats are
    IEEE-754 binary64 numbers ([spec_float] at precision 53), naive datetimes
    and timedeltas are integer microsecond counts.

    The hourly aggregators are embedded twice.  [IntervalAggregator] takes
    the readings as the annotations of the source type them (text fields are
    strings) and instants without bound; it serves the properties of what a
    chart holds.  [PayloadAggregator] takes the readings as
    [fetch_weather_data()] returns them, arbitrary JSON values, and instants
    within the range of Python's [datetime], with every exception that the
    source lets escape; it serves the properties of when a chart is
    returned.  On the payloads of typed readings the two agree (lemma
    [typed_services_refine]).

    Code that reads the system clock takes the instants from a function of
    the call number, and the upstream's answers come from a function of the
    request number, so that a property holds for every clock and every
    upstream.  Functions of the Python library that the services call
    (float() on strings, strptime, fromisoformat, round, str, strip, upper)
    are the fields of the class [PyRuntime]; the properties hold for every
    instance, and [SampleRuntime] is one instance to run the model on. *)

From Stdlib Require Import ZArith List String Ascii Bool Lia.
From Stdlib Require Import SpecFloat DecimalString.
From stdpp Require Import gmap strings list.
Import ListNotations.

Local Open Scope string_scope.
Local Open Scope Z_scope.

(** ** Floats *)

Definition prec : Z := 53.
Definition emax : Z := 1024.

Definition float := spec_float.

(** [float(z)] for an integer within range, rounded to nearest even. *)
Definition float_of_Z (z : Z) : float := binary_normalize prec emax z 0 false.

Definition fadd : float -> float -> float := SFadd prec emax.
Definition fdiv : float -> float -> float := SFdiv prec emax.
Definition fleb : float -> float -> bool := SFleb.
Definition fltb : float -> float -> bool := SFltb.

(** Python's [a >= b] on floats. *)
Definition fgeb (a b : float) : bool := fleb b a.

(** The double nearest to [n / 10], the value of a literal such as [699.9]. *)
Definition tenths (n : Z) : float := fdiv (float_of_Z n) (float_of_Z 10).

(** ** Exceptions and results *)

Inductive exn :=
| ValueError
| TypeError
| OverflowError
| KeyError
| AttributeError
| IndexError
| Timeout
| RequestException.

Inductive result (A : Type) :=
| Ok (a : A)
| Raise (e : exn).
Arguments Ok {A} a.
Arguments Raise {A} e.

Definition rbind {A B} (r : result A) (k : A -> result B) : result B :=
  match r with
  | Ok a => k a
  | Raise e => Raise e
  end.

Notation "x <- r ;; k" := (rbind r (fun x => k))
  (at level 100, r at next level, right associativity).

(** ** Instants *)

Definition datetime := Z.
Definition timedelta := Z.

Definition microsecond : timedelta := 1.
Definition seconds (n : Z) : timedelta := n * 1000000.
Definition minutes (n : Z) : timedelta := seconds (60 * n).
Definition hours (n : Z) : timedelta := minutes (60 * n).
Definition one_day : timedelta := hours 24.

(** ** Python values *)

Unset Elimination Schemes.
Inductive pyval :=
| PyNone
| PyBool (b : bool)
| PyInt (z : Z)
| PyFloat (f : float)
| PyStr (s : string)
| PyList (l : list pyval)
| PyDict (d : list (string * pyval))
| PyDatetime (t : datetime).
Set Elimination Schemes.

(** A dict is an association list with distinct keys, in insertion order. *)
Definition dict := list (string * pyval).

Fixpoint dict_get (k : string) (d : dict) : option pyval :=
  match d with
  | [] => None
  | (k', v) :: d' => if String.eqb k k' then Some v else dict_get k d'
  end.

(** [d[k] = v] for a key that is present keeps the position of the key. *)
Fixpoint dict_set (k : string) (v : pyval) (d : dict) : dict :=
  match d with
  | [] => [(k, v)]
  | (k', v') :: d' =>
      if String.eqb k k' then (k', v) :: d' else (k', v') :: dict_set k v d'
  end.

(** [d.get(k)]: a missing key reads as [None]. *)
Definition get (k : string) (d : dict) : pyval :=
  match dict_get k d with
  | Some v => v
  | None => PyNone
  end.

Definition is_zero (f : float) : bool :=
  match f with
  | S754_zero _ => true
  | _ => false
  end.

(** Truth value of a Python object. *)
Definition truthy (v : pyval) : bool :=
  match v with
  | PyNone => false
  | PyBool b => b
  | PyInt z => negb (Z.eqb z 0)
  | PyFloat f => negb (is_zero f)
  | PyStr s => negb (String.eqb s "")
  | PyList l => match l with [] => false | _ => true end
  | PyDict d => match d with [] => false | _ => true end
  | PyDatetime _ => true
  end.

(** [v is None]. *)
Definition is_none (v : pyval) : bool :=
  match v with
  | PyNone => true
  | _ => false
  end.

(** [a or b]. *)
Definition py_or (a b : pyval) : pyval := if truthy a then a else b.

(** ** The Python runtime

    Library functions the services call and that are not part of the
    repository.  [None] stands for the [ValueError] the function raises. *)

Class PyRuntime := {
  float_of_str : string -> option float;
  str_of : pyval -> string;
  str_strip : string -> string;
  str_upper : string -> string;
  strptime : string -> string -> option datetime;
  fromisoformat : string -> option datetime;
  round_float : float -> Z -> float
}.

(** [str(v)]: a string is its own rendering. *)
Definition py_str `{PyRuntime} (v : pyval) : string :=
  match v with
  | PyStr s => s
  | _ => str_of v
  end.

(** [float(v)].  An integer that rounds beyond the largest double raises
    [OverflowError]; [None] and containers raise [TypeError]. *)
Definition py_float `{PyRuntime} (v : pyval) : result float :=
  match v with
  | PyNone => Raise TypeError
  | PyBool b => Ok (float_of_Z (if b then 1 else 0))
  | PyInt z =>
      match float_of_Z z with
      | S754_infinity _ => Raise OverflowError
      | f => Ok f
      end
  | PyFloat f => Ok f
  | PyStr s =>
      match float_of_str s with
      | Some f => Ok f
      | None => Raise ValueError
      end
  | PyList _ | PyDict _ | PyDatetime _ => Raise TypeError
  end.

(** ** config.py: WeatherThresholds *)

Module WeatherThresholds.
Definition RAINFALL_HEAVY : float := float_of_Z 30.
Definition RAINFALL_MODERATE : float := float_of_Z 15.
Definition RAINFALL_LIGHT : float := float_of_Z 5.

Definition WATER_CRITICAL : float := float_of_Z 1000.
Definition WATER_WARNING : float := float_of_Z 900.
Definition WATER_ALERT : float := float_of_Z 800.
Definition WATER_ADVISORY : float := float_of_Z 700.
End WeatherThresholds.

(** ** services/metrics_service.py: classification *)

Inductive alert_level := normal | advisory | alert | warning | critical.

Inductive rainfall_level := no_data | none | light | moderate | heavy.

Definition alert_level_name (a : alert_level) : string :=
  match a with
  | normal => "normal"
  | advisory => "advisory"
  | alert => "alert"
  | warning => "warning"
  | critical => "critical"
  end.

Definition rainfall_level_name (r : rainfall_level) : string :=
  match r with
  | no_data => "no_data"
  | none => "none"
  | light => "light"
  | moderate => "moderate"
  | heavy => "heavy"
  end.

(** Position of a level in the order normal < advisory < alert < warning <
    critical. *)
Definition severity (a : alert_level) : nat :=
  match a with
  | normal => 0
  | advisory => 1
  | alert => 2
  | warning => 3
  | critical => 4
  end%nat.

Definition STATION_OFFLINE_THRESHOLD_MINUTES : Z := 60.
Definition TOTAL_STATIONS : Z := 5.

Section Classification.
Context `{PyRuntime}.

Definition _to_float (value : pyval) : result (option float) :=
  match value with
  | PyNone => Ok None
  | _ =>
      match py_float value with
      | Ok f => Ok (Some f)
      | Raise TypeError | Raise ValueError => Ok None
      | Raise e => Raise e
      end
  end.

Definition get_alert_level (water_level : pyval) : result alert_level :=
  level <- _to_float water_level ;;
  match level with
  | None => Ok normal
  | Some level =>
      if fgeb level WeatherThresholds.WATER_CRITICAL then Ok critical
      else if fgeb level WeatherThresholds.WATER_WARNING then Ok warning
      else if fgeb level WeatherThresholds.WATER_ALERT then Ok alert
      else if fgeb level WeatherThresholds.WATER_ADVISORY then Ok advisory
      else Ok normal
  end.

Definition get_rainfall_level (rainfall : pyval) : result rainfall_level :=
  level <- _to_float rainfall ;;
  match level with
  | None => Ok no_data
  | Some level =>
      if fgeb level WeatherThresholds.RAINFALL_HEAVY then Ok heavy
      else if fgeb level WeatherThresholds.RAINFALL_MODERATE then Ok moderate
      else if fgeb level WeatherThresholds.RAINFALL_LIGHT then Ok light
      else Ok none
  end.
End Classification.

(** [l.append(x)]. *)
Definition py_append {A} (l : list A) (x : A) : list A := (l ++ [x])%list.

(** ** String helpers used by the timestamp parsers *)

(** [s.replace(c, by)] for a one-character pattern. *)
Fixpoint replace_char (c : ascii) (by_ : string) (s : string) : string :=
  match s with
  | EmptyString => EmptyString
  | String a s' =>
      if Ascii.eqb a c then by_ ++ replace_char c by_ s'
      else String a (replace_char c by_ s')
  end.

(** [s.split(c)[0]]. *)
Fixpoint before_char (c : ascii) (s : string) : string :=
  match s with
  | EmptyString => EmptyString
  | String a s' => if Ascii.eqb a c then EmptyString else String a (before_char c s')
  end.

(** ** services/metrics_service.py: dashboard metrics *)

Record Site := { site_id : string; site_name : string }.

Record StationAlert := {
  sa_station_id : string;
  sa_station_name : string;
  sa_alert_level : alert_level;
  sa_water_level : float;
  sa_is_online : bool;
  sa_last_update : option datetime
}.

(** The [alert_counts] dict, one counter per level. *)
Record AlertCounts := {
  n_critical : nat;
  n_warning : nat;
  n_alert : nat;
  n_advisory : nat;
  n_normal : nat
}.

Definition count_of (a : alert_level) (c : AlertCounts) : nat :=
  match a with
  | critical => n_critical c
  | warning => n_warning c
  | alert => n_alert c
  | advisory => n_advisory c
  | normal => n_normal c
  end.

(** [alert_counts[a] += 1]. *)
Definition bump (a : alert_level) (c : AlertCounts) : AlertCounts :=
  match a with
  | critical => {| n_critical := S (n_critical c); n_warning := n_warning c;
                   n_alert := n_alert c; n_advisory := n_advisory c; n_normal := n_normal c |}
  | warning => {| n_critical := n_critical c; n_warning := S (n_warning c);
                  n_alert := n_alert c; n_advisory := n_advisory c; n_normal := n_normal c |}
  | alert => {| n_critical := n_critical c; n_warning := n_warning c;
                n_alert := S (n_alert c); n_advisory := n_advisory c; n_normal := n_normal c |}
  | advisory => {| n_critical := n_critical c; n_warning := n_warning c;
                   n_alert := n_alert c; n_advisory := S (n_advisory c); n_normal := n_normal c |}
  | normal => {| n_critical := n_critical c; n_warning := n_warning c;
                 n_alert := n_alert c; n_advisory := n_advisory c; n_normal := S (n_normal c) |}
  end.

(** config.py: the display name [RainfallForecastConfig.get_config(l)['level']]
    and [AlertLevelConfig.get_config(a)['level']]; icons and colours are
    presentation constants and are left out. *)
Definition RainfallForecastConfig_level (l : rainfall_level) : string :=
  match l with
  | heavy => "Heavy Rain"
  | moderate => "Moderate Rain"
  | light => "Light Rain"
  | none => "Clear"
  | no_data => "No Data"
  end.

Definition AlertLevelConfig_level (a : alert_level) : string :=
  match a with
  | critical => "Critical"
  | warning => "Warning"
  | alert => "Alert"
  | advisory => "Advisory"
  | normal => "Normal"
  end.

Record DashboardMetrics := {
  highest_alert_level : alert_level;
  highest_alert_count : nat;
  critical_count : nat;
  warning_count : nat;
  alert_count : nat;
  advisory_count : nat;
  attention_stations : list string;
  online_sensors : nat;
  total_sensors : Z;
  offline_stations : list string;
  rainfall_forecast : string;
  alert_level_info : string;
  station_alerts : list StationAlert
}.

(** Loop state of [calculate_dashboard_metrics]; [da_tick] counts the calls
    of [datetime.now()] made so far. *)
Record DashAcc := {
  da_counts : AlertCounts;
  da_attention : list string;
  da_offline : list string;
  da_alerts : list StationAlert;
  da_online : nat;
  da_total_rainfall : float;
  da_rainfall_readings : Z;
  da_tick : nat
}.

Module MetricsService.
Section MetricsService.
Context `{PyRuntime}.

(** [self.sites], and the instant each successive call of
    [datetime.now()] returns. *)
Variable sites : list Site.
Variable clock : nat -> datetime.

(** A timestamp read through [fromisoformat] keeps its wall-clock fields;
    the zone, if any, is dropped by [_is_station_online]. *)
Definition _parse_timestamp (data : dict) : option datetime :=
  let timestamp_str :=
    py_or (py_or (get "DateTime" data) (get "DateTimeStamp" data)) (get "Timestamp" data) in
  if negb (truthy timestamp_str) then None
  else
    match timestamp_str with
    | PyDatetime t => Some t
    | _ =>
        let ts := replace_char "Z" "+00:00" (py_str timestamp_str) in
        let clean_ts := before_char "." (before_char "+" ts) in
        match strptime clean_ts "%Y-%m-%dT%H:%M:%S" with
        | Some t => Some t
        | None =>
            match strptime clean_ts "%Y-%m-%d %H:%M:%S" with
            | Some t => Some t
            | None => fromisoformat (replace_char "Z" "" ts)
            end
        end
    end.

(** Returns the answer and the number of clock reads after the call. *)
Definition _is_station_online (tick : nat) (data : dict) : bool * nat :=
  match data with
  | [] => (false, tick)
  | _ =>
      match _parse_timestamp data with
      | None => (false, tick)
      | Some timestamp =>
          let now := clock tick in
          let age := now - timestamp in
          (age <=? minutes STATION_OFFLINE_THRESHOLD_MINUTES, S tick)
      end
  end.

Fixpoint _get_station_name_in (l : list Site) (station_id : string) : string :=
  match l with
  | [] => station_id
  | site :: l' =>
      if String.eqb (site_id site) station_id then site_name site
      else _get_station_name_in l' station_id
  end.

Definition _get_station_name (station_id : string) : string :=
  _get_station_name_in sites station_id.

Definition dash_init : DashAcc :=
  {| da_counts := {| n_critical := 0; n_warning := 0; n_alert := 0;
                     n_advisory := 0; n_normal := 0 |};
     da_attention := []; da_offline := []; da_alerts := [];
     da_online := 0; da_total_rainfall := float_of_Z 0;
     da_rainfall_readings := 0; da_tick := 0 |}.

(** [x or 0.0] for an optional float. *)
Definition or_zero (x : option float) : float :=
  match x with
  | Some f => if is_zero f then float_of_Z 0 else f
  | None => float_of_Z 0
  end.

Definition opt_float (x : option float) : pyval :=
  match x with
  | Some f => PyFloat f
  | None => PyNone
  end.

Definition needs_attention (a : alert_level) : bool :=
  match a with
  | critical | warning | alert => true
  | _ => false
  end.

(** One iteration of [for station_id, data in station_data.items()]. *)
Definition dash_step (acc : DashAcc) (item : string * option dict) : result DashAcc :=
  let '(station_id, data) := item in
  let station_name := _get_station_name station_id in
  match data with
  | None | Some [] =>
      Ok {| da_counts := da_counts acc; da_attention := da_attention acc;
            da_offline := py_append (da_offline acc) station_name;
            da_alerts := da_alerts acc; da_online := da_online acc;
            da_total_rainfall := da_total_rainfall acc;
            da_rainfall_readings := da_rainfall_readings acc;
            da_tick := da_tick acc |}
  | Some data =>
      let '(is_online, tick) := _is_station_online (da_tick acc) data in
      let online_count := if is_online then S (da_online acc) else da_online acc in
      let offline := if is_online then da_offline acc
                     else py_append (da_offline acc) station_name in
      water_level <- _to_float (get "WaterLevel" data) ;;
      alert_level <- get_alert_level (opt_float water_level) ;;
      let station_alert :=
        {| sa_station_id := station_id; sa_station_name := station_name;
           sa_alert_level := alert_level; sa_water_level := or_zero water_level;
           sa_is_online := is_online; sa_last_update := _parse_timestamp data |} in
      let attention := if needs_attention alert_level
                       then py_append (da_attention acc) station_name
                       else da_attention acc in
      rainfall <- _to_float (get "HourlyRain" data) ;;
      Ok {| da_counts := bump alert_level (da_counts acc);
            da_attention := attention; da_offline := offline;
            da_alerts := py_append (da_alerts acc) station_alert;
            da_online := online_count;
            da_total_rainfall :=
              match rainfall with
              | Some r => fadd (da_total_rainfall acc) r
              | None => da_total_rainfall acc
              end;
            da_rainfall_readings :=
              match rainfall with
              | Some _ => da_rainfall_readings acc + 1
              | None => da_rainfall_readings acc
              end;
            da_tick := tick |}
  end.

Fixpoint dash_loop (acc : DashAcc) (items : list (string * option dict)) : result DashAcc :=
  match items with
  | [] => Ok acc
  | item :: items' => acc' <- dash_step acc item ;; dash_loop acc' items'
  end.

(** [for level in ['critical', 'warning', 'alert', 'advisory']: ... break]. *)
Fixpoint highest_of (levels : list alert_level) (c : AlertCounts) : alert_level * nat :=
  match levels with
  | [] => (normal, 0%nat)
  | level :: levels' =>
      if (0 <? count_of level c)%nat then (level, count_of level c)
      else highest_of levels' c
  end.

Definition _get_rainfall_forecast (avg_rainfall : pyval) : result string :=
  rainfall_level <- get_rainfall_level avg_rainfall ;;
  Ok (RainfallForecastConfig_level rainfall_level).

Definition _get_alert_level_info (a : alert_level) : string := AlertLevelConfig_level a.

Definition calculate_dashboard_metrics (station_data : list (string * option dict))
  : result DashboardMetrics :=
  acc <- dash_loop dash_init station_data ;;
  let '(highest_alert_level, highest_alert_count) :=
    highest_of [critical; warning; alert; advisory] (da_counts acc) in
  let avg_rainfall :=
    if 0 <? da_rainfall_readings acc
    then PyFloat (fdiv (da_total_rainfall acc) (float_of_Z (da_rainfall_readings acc)))
    else PyInt 0 in
  rainfall_forecast <- _get_rainfall_forecast avg_rainfall ;;
  Ok {| highest_alert_level := highest_alert_level;
        highest_alert_count := highest_alert_count;
        critical_count := n_critical (da_counts acc);
        warning_count := n_warning (da_counts acc);
        alert_count := n_alert (da_counts acc);
        advisory_count := n_advisory (da_counts acc);
        attention_stations := da_attention acc;
        online_sensors := da_online acc;
        total_sensors := TOTAL_STATIONS;
        offline_stations := da_offline acc;
        rainfall_forecast := rainfall_forecast;
        alert_level_info := _get_alert_level_info highest_alert_level;
        station_alerts := da_alerts acc |}.
End MetricsService.
End MetricsService.

(** ** services/weather_service.py: WeatherCache *)

Record WeatherCache := {
  _data : option (list pyval);
  _last_fetch : option datetime;
  _last_success : option datetime;
  _ttl : timedelta;
  _stale_ttl : timedelta;
  _fetch_errors : Z;
  _max_errors_before_backoff : Z;
  _backoff_until : option datetime
}.

Module WeatherCache.
(** [WeatherCache(ttl_seconds, stale_ttl_seconds)]. *)
Definition __init__ (ttl_seconds stale_ttl_seconds : Z) : WeatherCache :=
  {| _data := None; _last_fetch := None; _last_success := None;
     _ttl := seconds ttl_seconds; _stale_ttl := seconds stale_ttl_seconds;
     _fetch_errors := 0; _max_errors_before_backoff := 3;
     _backoff_until := None |}.

(** Each method takes the instant [now] its call of [datetime.now()]
    returns. *)
Definition get (now : datetime) (self : WeatherCache)
  : option (list pyval) * bool * option datetime :=
  match _data self with
  | None => (None, false, None)
  | Some data =>
      let is_fresh :=
        match _last_fetch self with
        | Some last_fetch => now - last_fetch <? _ttl self
        | None => false
        end in
      (Some data, is_fresh, _last_success self)
  end.

Definition nonempty {A} (l : list A) : bool :=
  match l with
  | [] => false
  | _ => true
  end.

Definition set (now : datetime) (data : list pyval) (success : bool)
           (self : WeatherCache) : WeatherCache :=
  if success && nonempty data
  then {| _data := Some data; _last_fetch := Some now; _last_success := Some now;
          _ttl := _ttl self; _stale_ttl := _stale_ttl self;
          _fetch_errors := 0;
          _max_errors_before_backoff := _max_errors_before_backoff self;
          _backoff_until := None |}
  else {| _data := Some data; _last_fetch := Some now;
          _last_success := _last_success self;
          _ttl := _ttl self; _stale_ttl := _stale_ttl self;
          _fetch_errors := _fetch_errors self;
          _max_errors_before_backoff := _max_errors_before_backoff self;
          _backoff_until := _backoff_until self |}.

Definition backoff_seconds (fetch_errors max_errors : Z) : Z :=
  Z.min (60 * 2 ^ (fetch_errors - max_errors)) 300.

Definition record_error (now : datetime) (self : WeatherCache) : WeatherCache :=
  let fetch_errors := _fetch_errors self + 1 in
  {| _data := _data self; _last_fetch := _last_fetch self;
     _last_success := _last_success self;
     _ttl := _ttl self; _stale_ttl := _stale_ttl self;
     _fetch_errors := fetch_errors;
     _max_errors_before_backoff := _max_errors_before_backoff self;
     _backoff_until :=
       if _max_errors_before_backoff self <=? fetch_errors
       then Some (now + seconds (backoff_seconds fetch_errors
                                   (_max_errors_before_backoff self)))
       else _backoff_until self |}.

Definition in_backoff (now : datetime) (self : WeatherCache) : bool :=
  match _backoff_until self with
  | Some backoff_until => now <? backoff_until
  | None => false
  end.

Definition should_fetch (now : datetime) (self : WeatherCache) : bool :=
  if in_backoff now self then false
  else
    match _last_fetch self with
    | None => true
    | Some last_fetch => _ttl self <=? now - last_fetch
    end.

Definition get_stale_data (now : datetime) (self : WeatherCache)
  : option (list pyval) :=
  match _data self with
  | None => None
  | Some data =>
      let within_stale_ttl :=
        match _last_success self with
        | Some last_success => now - last_success <? _stale_ttl self
        | None => false
        end in
      if within_stale_ttl then Some data else Some data
  end.
End WeatherCache.

(** ** services/weather_service.py: WeatherService *)

(** What one [requests.get] observes. *)
Inductive response :=
| ConnectTimeout
| TransportError
| HttpResponse (status_code : Z) (json : option pyval).

(** The shared cache, the number of [datetime.now()] calls and the number of
    upstream requests made so far. *)
Record world := {
  cache : WeatherCache;
  ticks : nat;
  requests : nat
}.

(** [needle in haystack] on strings. *)
Fixpoint contains (needle haystack : string) : bool :=
  String.prefix needle haystack ||
  match haystack with
  | EmptyString => false
  | String _ rest => contains needle rest
  end.

Definition is_str (k : string) (v : pyval) : bool :=
  match v with
  | PyStr s => String.eqb k s
  | _ => false
  end.

Module WeatherService.
Section WeatherService.
Context `{PyRuntime}.

(** The instants read from the clock and the upstream's answers, by call
    number. *)
Variable clock : nat -> datetime.
Variable upstream : nat -> response.

Definition float_fields : list string :=
  ["WaterLevel"; "HourlyRain"; "WindSpeed"; "Temperature";
   "Humidity"; "Pressure"; "HeatIndex"; "DailyRain"].

Definition critical_fields : list string := ["WaterLevel"; "HourlyRain"].

Definition is_critical (field : string) : bool :=
  existsb (String.eqb field) critical_fields.

(** Body of [for field in float_fields] on a dict. *)
Definition sanitize_field (reading : dict) (field : string) : result dict :=
  match dict_get field reading with
  | None => Ok reading
  | Some v =>
      if is_none v then Ok reading
      else
        match py_float v with
        | Ok f => Ok (dict_set field (PyFloat f) reading)
        | Raise ValueError | Raise TypeError =>
            if is_critical field
            then Ok (dict_set field PyNone reading)
            else Ok (dict_set field (PyFloat (float_of_Z 0)) reading)
        | Raise e => Raise e
        end
  end.

Fixpoint sanitize_fields (reading : dict) (fields : list string) : result dict :=
  match fields with
  | [] => Ok reading
  | field :: fields' =>
      reading' <- sanitize_field reading field ;;
      sanitize_fields reading' fields'
  end.

Definition sanitize_wind (reading : dict) : dict :=
  match dict_get "WindDirection" reading with
  | None => reading
  | Some wind_dir =>
      if is_none wind_dir then reading
      else dict_set "WindDirection" (PyStr (str_upper (str_strip (py_str wind_dir)))) reading
  end.

Definition sanitize_dict (reading : dict) : result dict :=
  reading' <- sanitize_fields reading float_fields ;;
  Ok (sanitize_wind reading').

(** [_sanitize_reading] on whatever the payload holds.  On a string or a
    list, [field in reading] is a substring or membership test and
    [reading[field]] raises; on other objects the test itself raises. *)
Definition _sanitize_reading (reading : pyval) : result pyval :=
  match reading with
  | PyDict d => d' <- sanitize_dict d ;; Ok (PyDict d')
  | PyStr s =>
      if existsb (fun field => contains field s) (float_fields ++ ["WindDirection"])
      then Raise TypeError else Ok reading
  | PyList l =>
      if existsb (fun field => existsb (is_str field) l) (float_fields ++ ["WindDirection"])
      then Raise TypeError else Ok reading
  | _ => Raise TypeError
  end.

Fixpoint sanitize_all (data : list pyval) : result (list pyval) :=
  match data with
  | [] => Ok []
  | reading :: data' =>
      r <- _sanitize_reading reading ;;
      rs <- sanitize_all data' ;;
      Ok (r :: rs)
  end.

(** [response.raise_for_status()] raises for 4xx and 5xx. *)
Definition raise_for_status (status_code : Z) : result unit :=
  if (400 <=? status_code) && (status_code <? 600)
  then Raise RequestException else Ok tt.

(** The [try] block of [_fetch_from_api] on one upstream answer. *)
Definition fetch_body (r : response) : result (option (list pyval)) :=
  match r with
  | ConnectTimeout => Raise Timeout
  | TransportError => Raise RequestException
  | HttpResponse status_code json =>
      _ <- raise_for_status status_code ;;
      match json with
      | None => Raise ValueError
      | Some data =>
          let data :=
            match data with
            | PyDict d =>
                match dict_get "data" d with
                | Some inner => inner
                | None => data
                end
            | _ => data
            end in
          match data with
          | PyList l => sanitized_data <- sanitize_all l ;; Ok (Some sanitized_data)
          | _ => Ok None
          end
      end
  end.

(** The [except] clauses: every exception class ends in [return None]. *)
Definition _fetch_from_api (w : world) : result (option (list pyval)) * world :=
  let w' := {| cache := cache w; ticks := ticks w; requests := S (requests w) |} in
  match fetch_body (upstream (requests w)) with
  | Ok r => (Ok r, w')
  | Raise Timeout => (Ok None, w')
  | Raise RequestException => (Ok None, w')
  | Raise ValueError => (Ok None, w')
  | Raise _ => (Ok None, w')
  end.

(** The cache methods as the service calls them: each reads the clock when
    the Python method reaches its [datetime.now()]. *)
Definition tick (w : world) : world :=
  {| cache := cache w; ticks := S (ticks w); requests := requests w |}.

Definition with_cache (c : WeatherCache) (w : world) : world :=
  {| cache := c; ticks := ticks w; requests := requests w |}.

Definition cache_get (w : world)
  : (option (list pyval) * bool * option datetime) * world :=
  match _data (cache w) with
  | None => ((None, false, None), w)
  | Some _ => (WeatherCache.get (clock (ticks w)) (cache w), tick w)
  end.

Definition cache_should_fetch (w : world) : bool * world :=
  (WeatherCache.should_fetch (clock (ticks w)) (cache w), tick w).

Definition cache_set (data : list pyval) (success : bool) (w : world) : world :=
  tick (with_cache (WeatherCache.set (clock (ticks w)) data success (cache w)) w).

Definition cache_record_error (w : world) : world :=
  let c := WeatherCache.record_error (clock (ticks w)) (cache w) in
  if _max_errors_before_backoff (cache w) <=? _fetch_errors (cache w) + 1
  then tick (with_cache c w)
  else with_cache c w.

Definition cache_get_stale_data (w : world) : option (list pyval) * world :=
  match _data (cache w) with
  | None => (None, w)
  | Some _ => (WeatherCache.get_stale_data (clock (ticks w)) (cache w), tick w)
  end.

(** Truth value of an optional list: [None] and [[]] are false. *)
Definition some_nonempty (x : option (list pyval)) : bool :=
  match x with
  | Some (_ :: _) => true
  | _ => false
  end.

(** Lines 187-201: the upstream call and what follows it. *)
Definition fetch_and_store (w : world) : result (option (list pyval)) * world :=
  let '(fetched, w3) := _fetch_from_api w in
  match fetched with
  | Raise e => (Raise e, w3)
  | Ok fresh_data =>
      if some_nonempty fresh_data
      then
        match fresh_data with
        | Some l => (Ok fresh_data, cache_set l true w3)
        | None => (Ok fresh_data, w3)
        end
      else
        let w4 := cache_record_error w3 in
        let '(stale_data, w5) := cache_get_stale_data w4 in
        if some_nonempty stale_data then (Ok stale_data, w5)
        else (Ok (Some []), w5)
  end.

(** The value returned is [None] or a list, as [cached_data] is. *)
Definition fetch_weather_data (force_refresh : bool) (w : world)
  : result (option (list pyval)) * world :=
  let '((cached_data, is_fresh, last_success), w1) := cache_get w in
  if is_fresh && negb force_refresh then (Ok cached_data, w1)
  else
    let '(should_fetch, w2) := cache_should_fetch w1 in
    if negb should_fetch && negb force_refresh
    then
      if some_nonempty cached_data then (Ok cached_data, w2)
      else fetch_and_store w2
    else fetch_and_store w2.
End WeatherService.
End WeatherService.

(** ** services/precipitation_service.py and services/water_level_service.py

    The two services are the same algorithm over a different reading field,
    validity test, classifier and rounding; the section below is that
    algorithm and the two modules after it are the two services. *)

(** A reading as the aggregators use it.  The timestamp fields are strings
    ([_parse_timestamp(timestamp_str: str)]) and the station id is a string
    like the site ids; [None] is a missing key or a null.  The two measured
    values are arbitrary Python values, which the services coerce. *)
Record Reading := {
  DateTime : option string;
  DateTimeStamp : option string;
  StationID : option string;
  HourlyRain : pyval;
  WaterLevel : pyval
}.

Definition START_HOUR : Z := 0.
Definition END_HOUR : Z := 23.
Definition DATA_INTERVAL_HOURS : Z := 1.
Definition LABEL_INTERVAL_HOURS : Z := 2.

Definition MIN_VALID_WATER_LEVEL : float := float_of_Z 0.
Definition MAX_VALID_WATER_LEVEL : float := float_of_Z 15.

(** [dt.date()] as a day number, [dt.hour], and
    [dt.replace(hour=h, minute=0, second=0, microsecond=0)]. *)
Definition date (dt : datetime) : Z := dt / one_day.
Definition hour (dt : datetime) : Z := (dt mod one_day) / hours 1.
Definition replace_hour (dt : datetime) (h : Z) : datetime := date dt * one_day + hours h.

(** [f"{n}"] for an integer that is not negative. *)
Definition show_int (n : Z) : string := NilZero.string_of_uint (N.to_uint (Z.to_N n)).

(** One point of a chart; [category] is the field [intensity] of
    PrecipitationDataPoint and [alert_level] of WaterLevelDataPoint, and
    [timestamp] is the instant that [isoformat()] renders. *)
Record DataPoint (C : Type) := {
  label : string;
  y : pyval;
  category : C;
  day : string;
  timestamp : datetime;
  count : nat;
  show_label : bool
}.
Arguments label {C} _.
Arguments y {C} _.
Arguments category {C} _.
Arguments day {C} _.
Arguments timestamp {C} _.
Arguments count {C} _.
Arguments show_label {C} _.

(** [station_data[station_id][interval_time]], both levels a defaultdict. *)
Definition bucket (station_data : gmap string (gmap Z (list float)))
           (station_id : string) (interval_time : datetime) : list float :=
  default [] (default ∅ (station_data !! station_id) !! interval_time).

(** [station_data[station_id][interval_time].append(v)]. *)
Definition bucket_append (station_data : gmap string (gmap Z (list float)))
           (station_id : string) (interval_time : datetime) (v : float)
  : gmap string (gmap Z (list float)) :=
  let inner := default ∅ (station_data !! station_id) in
  <[station_id := <[interval_time := py_append (default [] (inner !! interval_time)) v]> inner]>
    station_data.

Module IntervalAggregator.
Section IntervalAggregator.
Context `{PyRuntime}.

(** What differs between the two services. *)
Variable C : Type.
Variable metric : Reading -> pyval.
Variable valid : float -> bool.
Variable classify : pyval -> result C.
Variable ndigits : Z.

Definition _parse_timestamp (timestamp_str : string) : option datetime :=
  if String.eqb timestamp_str "" then None
  else
    match strptime timestamp_str "%Y-%m-%d %H:%M:%S" with
    | Some t => Some t
    | None =>
        match strptime timestamp_str "%Y-%m-%d %H:%M:%S.%f" with
        | Some t => Some t
        | None => fromisoformat (replace_char "Z" "+00:00" timestamp_str)
        end
    end.

(** [reading.get('DateTime') or reading.get('DateTimeStamp', '')]; the
    empty string stands for every false value. *)
Definition timestamp_str (reading : Reading) : string :=
  match DateTime reading with
  | Some (String a s) => String a s
  | _ => default "" (DateTimeStamp reading)
  end.

(** The [while current <= end_time] loop; [fuel] bounds its length. *)
Fixpoint intervals_loop (fuel : nat) (current end_time : datetime) : list datetime :=
  match fuel with
  | O => []
  | S fuel' =>
      if current <=? end_time
      then current :: intervals_loop fuel' (current + hours DATA_INTERVAL_HOURS) end_time
      else []
  end.

Definition _create_hourly_intervals (start_time end_time : datetime) : list datetime :=
  intervals_loop (Z.to_nat ((end_time - start_time) / hours DATA_INTERVAL_HOURS + 1))
                 start_time end_time.

(** The [for interval_time in intervals: ... break] search. *)
Fixpoint find_interval (parsed_time : datetime) (intervals : list datetime)
  : option datetime :=
  match intervals with
  | [] => None
  | interval_time :: intervals' =>
      let next_interval := interval_time + hours 1 in
      if (interval_time <=? parsed_time) && (parsed_time <? next_interval)
      then Some interval_time
      else find_interval parsed_time intervals'
  end.

(** One iteration of the loop of [_group_readings_by_station_and_interval].
    [ValueError] and [TypeError] of the coercion skip the reading; the outer
    handler takes [KeyError] and [AttributeError] only. *)
Definition group_step (intervals : list datetime) (start_time end_time : datetime)
           (station_data : gmap string (gmap Z (list float))) (reading : Reading)
  : result (gmap string (gmap Z (list float))) :=
  match _parse_timestamp (timestamp_str reading) with
  | None => Ok station_data
  | Some parsed_time =>
      if negb ((start_time <=? parsed_time) && (parsed_time <=? end_time + hours 1))
      then Ok station_data
      else
        match StationID reading with
        | None => Ok station_data
        | Some station_id =>
            if String.eqb station_id "" || is_none (metric reading) then Ok station_data
            else
              match py_float (metric reading) with
              | Raise ValueError | Raise TypeError => Ok station_data
              | Raise KeyError | Raise AttributeError => Ok station_data
              | Raise e => Raise e
              | Ok value_float =>
                  if negb (valid value_float) then Ok station_data
                  else
                    match find_interval parsed_time intervals with
                    | Some interval_time =>
                        Ok (bucket_append station_data station_id interval_time value_float)
                    | None => Ok station_data
                    end
              end
        end
  end.

Fixpoint group_loop (intervals : list datetime) (start_time end_time : datetime)
         (station_data : gmap string (gmap Z (list float))) (weather_data : list Reading)
  : result (gmap string (gmap Z (list float))) :=
  match weather_data with
  | [] => Ok station_data
  | reading :: weather_data' =>
      station_data' <- group_step intervals start_time end_time station_data reading ;;
      group_loop intervals start_time end_time station_data' weather_data'
  end.

Definition _group_readings_by_station_and_interval (weather_data : list Reading)
           (intervals : list datetime) (start_time end_time : datetime)
  : result (gmap string (gmap Z (list float))) :=
  group_loop intervals start_time end_time ∅ weather_data.

Definition _format_time_label (dt : datetime) : string :=
  let hour := hour dt in
  if hour =? 0 then "12 AM"
  else if hour <? 12 then show_int hour ++ " AM"
  else if hour =? 12 then "12 PM"
  else show_int (hour - 12) ++ " PM".

Definition _get_day_label (dt display_date : datetime) : string :=
  if date dt =? date display_date then "Today"
  else if date dt <? date display_date then "Yesterday"
  else "Tomorrow".

(** [sum(values)], from the integer 0, left to right. *)
Definition sum (values : list float) : float := fold_left fadd values (float_of_Z 0).

(** [sum(values) / len(values) if values else 0]. *)
Definition average (values : list float) : pyval :=
  match values with
  | [] => PyInt 0
  | _ => PyFloat (fdiv (sum values) (float_of_Z (Z.of_nat (length values))))
  end.

(** [round(x, ndigits)]: an integer is returned as it is. *)
Definition py_round (x : pyval) : pyval :=
  match x with
  | PyFloat f => PyFloat (round_float f ndigits)
  | _ => x
  end.

Fixpoint _format_interval_data_with_labels (intervals : list datetime)
         (interval_data : gmap Z (list float)) (display_date : datetime)
  : result (list (DataPoint C)) :=
  match intervals with
  | [] => Ok []
  | interval_time :: intervals' =>
      let values := default [] (interval_data !! interval_time) in
      let avg := average values in
      category <- classify avg ;;
      let point :=
        {| label := _format_time_label interval_time;
           y := py_round avg;
           category := category;
           day := _get_day_label interval_time display_date;
           timestamp := interval_time;
           count := length values;
           show_label := hour interval_time mod LABEL_INTERVAL_HOURS =? 0 |} in
      rest <- _format_interval_data_with_labels intervals' interval_data display_date ;;
      Ok (point :: rest)
  end.

(** The search for the latest parsed timestamp of the readings. *)
Definition later (latest_timestamp : option datetime) (reading : Reading)
  : option datetime :=
  match _parse_timestamp (timestamp_str reading) with
  | Some parsed =>
      match latest_timestamp with
      | None => Some parsed
      | Some latest => if latest <? parsed then Some parsed else latest_timestamp
      end
  | None => latest_timestamp
  end.

Definition display_date_of (weather_data : list Reading) (target_date : option datetime)
           (now : datetime) : datetime :=
  match target_date with
  | Some target_date => target_date
  | None =>
      match weather_data with
      | [] => now
      | _ =>
          match fold_left later weather_data None with
          | Some latest_timestamp => latest_timestamp
          | None => now
          end
      end
  end.

(** The [for site in sites] loop filling [result]. *)
Fixpoint format_sites (sites : list Site) (intervals : list datetime)
         (station_interval_data : gmap string (gmap Z (list float)))
         (display_date : datetime) (result_ : gmap string (list (DataPoint C)))
  : result (gmap string (list (DataPoint C))) :=
  match sites with
  | [] => Ok result_
  | site :: sites' =>
      let station_id := site_id site in
      let station_data := default ∅ (station_interval_data !! station_id) in
      formatted_data <-
        _format_interval_data_with_labels intervals station_data display_date ;;
      format_sites sites' intervals station_interval_data display_date
                   (<[station_id := formatted_data]> result_)
  end.

(** [now] is what [datetime.now()] returns if the display date falls back
    to the system date. *)
Definition get_24hour_intervals_per_station (weather_data : list Reading)
           (sites : list Site) (target_date : option datetime) (now : datetime)
  : result (gmap string (list (DataPoint C))) :=
  let display_date := display_date_of weather_data target_date now in
  let start_time := replace_hour display_date START_HOUR in
  let end_time := replace_hour display_date END_HOUR in
  let intervals := _create_hourly_intervals start_time end_time in
  station_interval_data <-
    _group_readings_by_station_and_interval weather_data intervals start_time end_time ;;
  format_sites sites intervals station_interval_data display_date ∅.
End IntervalAggregator.
End IntervalAggregator.

Module PrecipitationService.
Section PrecipitationService.
Context `{PyRuntime}.

(** [if rainfall_float < 0: continue]. *)
Definition valid (rainfall_float : float) : bool :=
  negb (fltb rainfall_float (float_of_Z 0)).

Definition _group_readings_by_station_and_interval :=
  IntervalAggregator._group_readings_by_station_and_interval HourlyRain valid.

Definition _format_interval_data_with_labels :=
  IntervalAggregator._format_interval_data_with_labels rainfall_level get_rainfall_level 1.

Definition get_24hour_intervals_per_station :=
  IntervalAggregator.get_24hour_intervals_per_station
    rainfall_level HourlyRain valid get_rainfall_level 1.
End PrecipitationService.
End PrecipitationService.

Module WaterLevelService.
Section WaterLevelService.
Context `{PyRuntime}.

(** [MIN_VALID_WATER_LEVEL <= water_level_float <= MAX_VALID_WATER_LEVEL]. *)
Definition valid (water_level_float : float) : bool :=
  fleb MIN_VALID_WATER_LEVEL water_level_float && fleb water_level_float MAX_VALID_WATER_LEVEL.

Definition _group_readings_by_station_and_interval :=
  IntervalAggregator._group_readings_by_station_and_interval WaterLevel valid.

Definition _format_interval_data_with_labels :=
  IntervalAggregator._format_interval_data_with_labels alert_level get_alert_level 2.

Definition get_24hour_intervals_per_station :=
  IntervalAggregator.get_24hour_intervals_per_station
    alert_level WaterLevel valid get_alert_level 2.
End WaterLevelService.
End WaterLevelService.

(** ** A small runtime to run the model on

    Decimal literals without exponent, stripping of spaces, ASCII
    upper-casing and the fixed-width timestamp layouts; [round_float] returns
    its argument. *)

Module SampleRuntime.
Definition digit (c : ascii) : option Z :=
  let n := Z.of_nat (nat_of_ascii c) - 48 in
  if (0 <=? n) && (n <=? 9) then Some n else None.

Fixpoint digits_from (acc : Z) (s : string) : option Z :=
  match s with
  | EmptyString => Some acc
  | String c s' =>
      match digit c with
      | Some d => digits_from (10 * acc + d) s'
      | None => None
      end
  end.

Definition digits (s : string) : option Z :=
  match s with
  | EmptyString => None
  | _ => digits_from 0 s
  end.

Fixpoint after_char (c : ascii) (s : string) : option string :=
  match s with
  | EmptyString => None
  | String a s' => if Ascii.eqb a c then Some s' else after_char c s'
  end.

Definition unsigned_decimal (s : string) : option float :=
  match digits (before_char "." s), after_char "." s with
  | Some i, None => Some (float_of_Z i)
  | Some i, Some frac =>
      match digits frac with
      | Some f =>
          let scale := 10 ^ Z.of_nat (String.length frac) in
          Some (fdiv (float_of_Z (i * scale + f)) (float_of_Z scale))
      | None => None
      end
  | None, _ => None
  end.

Definition parse_float (s : string) : option float :=
  match s with
  | String "-" s' => option_map SFopp (unsigned_decimal s')
  | _ => unsigned_decimal s
  end.

Fixpoint lstrip (s : string) : string :=
  match s with
  | String " " s' => lstrip s'
  | _ => s
  end.

Fixpoint rstrip (s : string) : string :=
  match s with
  | EmptyString => EmptyString
  | String c s' =>
      match rstrip s', c with
      | EmptyString, " "%char => EmptyString
      | r, _ => String c r
      end
  end.

Definition upper_char (c : ascii) : ascii :=
  let n := nat_of_ascii c in
  if (97 <=? n)%nat && (n <=? 122)%nat then ascii_of_nat (n - 32) else c.

Fixpoint upper (s : string) : string :=
  match s with
  | EmptyString => EmptyString
  | String c s' => String (upper_char c) (upper s')
  end.

(** Days from 1970-01-01 to the civil date [y-m-d]. *)
Definition days_from_civil (y m d : Z) : Z :=
  let y' := if m <=? 2 then y - 1 else y in
  let era := y' / 400 in
  let yoe := y' - era * 400 in
  let doy := (153 * (if 2 <? m then m - 3 else m + 9) + 2) / 5 + d - 1 in
  let doe := yoe * 365 + yoe / 4 - yoe / 100 + doy in
  era * 146097 + doe - 719468.

Definition field (s : string) (pos len : nat) : option Z :=
  digits (String.substring pos len s).

Definition sep_at (s : string) (pos : nat) (c : ascii) : bool :=
  match String.get pos s with
  | Some a => Ascii.eqb a c
  | None => false
  end.

(** [YYYY-MM-DD?HH:MM:SS] with the separator [sep] between date and time. *)
Definition fixed_layout (sep : ascii) (s : string) : option datetime :=
  if (String.length s =? 19)%nat && sep_at s 4 "-" && sep_at s 7 "-"
     && sep_at s 10 sep && sep_at s 13 ":" && sep_at s 16 ":"
  then
    match field s 0 4, field s 5 2, field s 8 2, field s 11 2, field s 14 2, field s 17 2 with
    | Some y, Some m, Some d, Some hh, Some mm, Some ss =>
        if (1 <=? m) && (m <=? 12) && (1 <=? d) && (d <=? 31)
           && (hh <? 24) && (mm <? 60) && (ss <? 60)
        then Some (days_from_civil y m d * one_day + hours hh + minutes mm + seconds ss)
        else None
    | _, _, _, _, _, _ => None
    end
  else None.

Definition parse_time (s fmt : string) : option datetime :=
  if String.eqb fmt "%Y-%m-%d %H:%M:%S" then fixed_layout " " s
  else if String.eqb fmt "%Y-%m-%dT%H:%M:%S" then fixed_layout "T" s
  else None.

Definition parse_iso (s : string) : option datetime :=
  match fixed_layout "T" s with
  | Some t => Some t
  | None => fixed_layout " " s
  end.

#[export] Instance sample_runtime : PyRuntime := {|
  float_of_str := parse_float;
  str_of := fun _ => "<object>";
  str_strip := fun s => rstrip (lstrip s);
  str_upper := upper;
  strptime := parse_time;
  fromisoformat := parse_iso;
  round_float := fun f _ => f
|}.
End SampleRuntime.


(** ** config.py: SiteConfig *)

Module SiteConfig.
Definition SITES : list Site :=
  [ {| site_id := "St1"; site_name := "Binudegahan Station" |};
    {| site_id := "St2"; site_name := "Mangit Station" |};
    {| site_id := "St3"; site_name := "Laganac Station" |};
    {| site_id := "St4"; site_name := "MDRRMO Station" |};
    {| site_id := "St5"; site_name := "Luluasan Station" |} ].
End SiteConfig.

(** ** Sample inputs, after tests/test_metrics_service.py *)

Module Samples.
(** 2024-01-15 05:00:00, in microseconds since 1970-01-01. *)
Definition at_0500 : datetime := 1705294800000000.

(** A clock that reads 05:10:00 of that day at every call. *)
Definition clock_0510 (_ : nat) : datetime := at_0500 + minutes 10.

(** A station reading in the format of the test suite. *)
Definition station_reading (water_level : string) : dict :=
  [("WaterLevel", PyStr water_level); ("HourlyRain", PyStr "0");
   ("DateTime", PyStr "2024-01-15 05:00:00")].
End Samples.

(** ** Call sequences on the cache *)

(** [record_error()] called once at each of the instants [times], in order. *)
Definition record_errors (times : list datetime) (self : WeatherCache) : WeatherCache :=
  fold_left (fun c now => WeatherCache.record_error now c) times self.

(** ** Upstream answers as [fetch_weather_data] sees them *)

(** What [_fetch_from_api] returns on an answer. *)
Definition api_result `{PyRuntime} (r : response) : option (list pyval) :=
  match WeatherService.fetch_body r with
  | Ok fresh_data => fresh_data
  | Raise _ => None
  end.

(** The answer fails the test [if fresh_data:]. *)
Definition api_failed `{PyRuntime} (r : response) : bool :=
  negb (WeatherService.some_nonempty (api_result r)).

(** The payload is neither a list nor an object with a list under [data]. *)
Definition wrong_shape (payload : pyval) : Prop :=
  match payload with
  | PyList _ => False
  | PyDict d =>
      match dict_get "data" d with
      | Some (PyList _) => False
      | _ => True
      end
  | _ => True
  end.

(** ** Sample cache states and upstreams *)

Module CacheSamples.
(** A clock that reads [s] seconds after 05:00:00 at every call. *)
Definition clock_plus (s : Z) (_ : nat) : datetime := Samples.at_0500 + seconds s.

Definition upstream_down (_ : nat) : response := ConnectTimeout.

Definition payload : pyval :=
  PyList [PyDict [("StationID", PyStr "St1"); ("WaterLevel", PyStr "1.5")]].

Definition upstream_up (_ : nat) : response := HttpResponse 200 (Some payload).

Definition reading : pyval :=
  PyDict [("StationID", PyStr "St1"); ("WaterLevel", PyFloat (tenths 15))].

(** Data fetched at 05:00:00 and nothing since. *)
Definition fetched_at_0500 : world :=
  {| cache := WeatherCache.set Samples.at_0500 [reading] true (WeatherCache.__init__ 60 300);
     ticks := 0; requests := 0 |}.

(** Nothing ever fetched, and three errors recorded at 05:00:00. *)
Definition cold_in_backoff : world :=
  {| cache := record_errors [Samples.at_0500; Samples.at_0500; Samples.at_0500]
                            (WeatherCache.__init__ 60 300);
     ticks := 0; requests := 0 |}.

(** Data fetched at 05:00:00, then three errors recorded at 05:02:00. *)
Definition stale_in_backoff : world :=
  {| cache := record_errors [Samples.at_0500 + seconds 120; Samples.at_0500 + seconds 120;
                             Samples.at_0500 + seconds 120] (cache fetched_at_0500);
     ticks := 0; requests := 0 |}.
End CacheSamples.

(** ** What a chart point says of its slot *)



(** ** Sample readings for the aggregators *)

Module ReadingSamples.
(** Station St1 at the given timestamp: 2.5 mm of rain, water level 1.2. *)
Definition reading_at (timestamp_str : string) : Reading :=
  {| DateTime := Some timestamp_str; DateTimeStamp := None; StationID := Some "St1";
     HourlyRain := PyFloat (tenths 25); WaterLevel := PyFloat (tenths 12) |}.

Definition on_the_hour : Reading := reading_at "2024-01-15 05:00:00".
Definition next_midnight : Reading := reading_at "2024-01-16 00:00:00".
End ReadingSamples.

(** ** services/metrics_service.py: station status *)

(** Position of a rainfall level in the order no_data < none < light <
    moderate < heavy. *)
Definition intensity (r : rainfall_level) : nat :=
  match r with
  | no_data => 0
  | none => 1
  | light => 2
  | moderate => 3
  | heavy => 4
  end%nat.

Record StationStatus := {
  ss_alert_level : alert_level;
  ss_rainfall_level : rainfall_level;
  ss_water_level : option float;
  ss_rainfall : option float;
  ss_is_online : bool;
  ss_needs_attention : bool
}.

Module StationStatusService.
Section StationStatusService.
Context `{PyRuntime}.
Variable clock : nat -> datetime.

(** [get_station_status]; the second component counts the clock reads. *)
Definition get_station_status (tick : nat) (station_data : option dict)
  : result StationStatus * nat :=
  match station_data with
  | None | Some [] =>
      (Ok {| ss_alert_level := normal; ss_rainfall_level := no_data;
             ss_water_level := None; ss_rainfall := None;
             ss_is_online := false; ss_needs_attention := false |}, tick)
  | Some data =>
      match _to_float (get "WaterLevel" data) with
      | Raise e => (Raise e, tick)
      | Ok water_level =>
          match _to_float (get "HourlyRain" data) with
          | Raise e => (Raise e, tick)
          | Ok rainfall =>
              match get_alert_level (MetricsService.opt_float water_level) with
              | Raise e => (Raise e, tick)
              | Ok alert_level =>
                  match get_rainfall_level (MetricsService.opt_float rainfall) with
                  | Raise e => (Raise e, tick)
                  | Ok rainfall_level =>
                      let '(is_online, tick') :=
                        MetricsService._is_station_online clock tick data in
                      (Ok {| ss_alert_level := alert_level;
                             ss_rainfall_level := rainfall_level;
                             ss_water_level := water_level;
                             ss_rainfall := rainfall;
                             ss_is_online := is_online;
                             ss_needs_attention :=
                               MetricsService.needs_attention alert_level |}, tick')
                  end
              end
          end
      end
  end.
End StationStatusService.
End StationStatusService.

(** ** services/weather_service.py: generate_weather_alert *)

(** config.py: [AlertLevelConfig.get_config(a)['color']]. *)
Module UIColorSystem.
Definition PRIMARY : string := "#409ac7".
Definition ALERT_NORMAL : string := PRIMARY.
Definition ALERT_ADVISORY : string := PRIMARY.
Definition ALERT_ALERT : string := "#ffbe0b".
Definition ALERT_WARNING : string := "#fb8500".
Definition ALERT_CRITICAL : string := "#ff006e".
End UIColorSystem.

Definition AlertLevelConfig_color (a : alert_level) : string :=
  match a with
  | critical => UIColorSystem.ALERT_CRITICAL
  | warning => UIColorSystem.ALERT_WARNING
  | alert => UIColorSystem.ALERT_ALERT
  | advisory => UIColorSystem.ALERT_ADVISORY
  | normal => UIColorSystem.ALERT_NORMAL
  end.

(** [f"{x:.1f}"], the float formatting of the Python library. *)
Class PyFormat := {
  format_1f : float -> string
}.

Record WeatherAlert := {
  wa_level : string;
  wa_message : string;
  wa_color : string
}.

Module AlertService.
Section AlertService.
Context `{PyRuntime} `{PyFormat}.

(** The [try] block: both coercions, or (0.0, 0.0) when one of them raises
    ValueError or TypeError. *)
Definition rainfall_and_water_level (latest_reading : dict) : result (float * float) :=
  match py_float (py_or (get "HourlyRain" latest_reading) (PyInt 0)) with
  | Ok rainfall =>
      match py_float (py_or (get "WaterLevel" latest_reading) (PyInt 0)) with
      | Ok water_level => Ok (rainfall, water_level)
      | Raise ValueError | Raise TypeError => Ok (float_of_Z 0, float_of_Z 0)
      | Raise e => Raise e
      end
  | Raise ValueError | Raise TypeError => Ok (float_of_Z 0, float_of_Z 0)
  | Raise e => Raise e
  end.

Definition water_alert (a : alert_level) (text : string) (water_level : float)
           (advice : string) : WeatherAlert :=
  {| wa_level := alert_level_name a;
     wa_message := text ++ ": Water level at " ++ format_1f water_level ++ "cm - " ++ advice;
     wa_color := AlertLevelConfig_color a |}.

Definition generate_weather_alert (latest_reading : option dict) : result WeatherAlert :=
  match latest_reading with
  | None | Some [] =>
      Ok {| wa_level := "no-data";
            wa_message := "Connecting to weather sensors...";
            wa_color := UIColorSystem.ALERT_NORMAL |}
  | Some latest_reading =>
      values <- rainfall_and_water_level latest_reading ;;
      let '(rainfall, water_level) := values in
      if fgeb water_level WeatherThresholds.WATER_CRITICAL
      then Ok (water_alert critical "CRITICAL" water_level "Immediate evacuation required")
      else if fgeb water_level WeatherThresholds.WATER_WARNING
      then Ok (water_alert warning "WARNING" water_level "Prepare for evacuation")
      else if fgeb water_level WeatherThresholds.WATER_ALERT
      then Ok (water_alert alert "ALERT" water_level "Monitor closely")
      else if fgeb water_level WeatherThresholds.WATER_ADVISORY
      then Ok (water_alert advisory "ADVISORY" water_level "Stay informed")
      else if fgeb rainfall WeatherThresholds.RAINFALL_HEAVY
      then Ok {| wa_level := "warning";
                 wa_message := "Heavy rainfall detected: " ++ format_1f rainfall
                               ++ "mm/hr - Monitor water levels";
                 wa_color := AlertLevelConfig_color warning |}
      else if fgeb rainfall WeatherThresholds.RAINFALL_MODERATE
      then Ok {| wa_level := "advisory";
                 wa_message := "Moderate rainfall: " ++ format_1f rainfall
                               ++ "mm/hr - Stay alert";
                 wa_color := AlertLevelConfig_color advisory |}
      else Ok {| wa_level := "normal";
                 wa_message := "Weather conditions normal - All systems operational";
                 wa_color := AlertLevelConfig_color normal |}
  end.
End AlertService.
End AlertService.

(** ** Shape of a sanitized field *)

(** The field is absent, null or a float. *)
Definition clean (x : option pyval) : Prop :=
  x = None \/ x = Some PyNone \/ exists f, x = Some (PyFloat f).

(** ** Counting station alerts *)

Definition alert_level_eqb (a b : alert_level) : bool :=
  Nat.eqb (severity a) (severity b).

(** Number of station alerts of level [a]. *)
Definition level_count (a : alert_level) (alerts : list StationAlert) : nat :=
  length (List.filter (fun sa => alert_level_eqb (sa_alert_level sa) a) alerts).

Definition attention_names (alerts : list StationAlert) : list string :=
  map sa_station_name
      (List.filter (fun sa => MetricsService.needs_attention (sa_alert_level sa)) alerts).

(** What the loop of [calculate_dashboard_metrics] keeps true after
    [processed] stations. *)
Definition dash_invariant (acc : DashAcc) (processed : nat) : Prop :=
  (da_online acc + length (da_offline acc) = processed)%nat /\
  da_online acc = length (List.filter sa_is_online (da_alerts acc)) /\
  (forall a, count_of a (da_counts acc) = level_count a (da_alerts acc)) /\
  da_attention acc = attention_names (da_alerts acc) /\
  (length (da_alerts acc) <= processed)%nat.

(** ** A float formatter to run the model on *)

Module SampleFormat.
(** Renders every float as the same placeholder. *)
#[export] Instance sample_format : PyFormat := {|
  format_1f := fun _ => "#.#"
|}.
End SampleFormat.

(** ** Sample dashboard inputs *)

Module DashboardSamples.
(** Two stations reporting, one without data. *)
Definition three_stations : list (string * option dict) :=
  [("St1", Some (Samples.station_reading "1050.0"));
   ("St2", None);
   ("St3", Some (Samples.station_reading "850.0"))].

(** A critical water level next to rainfall that is not a number. *)
Definition unreadable_rain : dict :=
  [("WaterLevel", PyStr "1050.0"); ("HourlyRain", PyStr "n/a")].
End DashboardSamples.

(** ** utils/formatters.py: format_hour_label *)

(** [f"{z}"] for any integer. *)
Definition show_Z (z : Z) : string :=
  if z <? 0 then "-" ++ show_int (- z) else show_int z.

Definition format_hour_label (hour : Z) : string :=
  if hour =? 0 then "12 AM"
  else if hour <? 12 then show_Z hour ++ " AM"
  else if hour =? 12 then "12 PM"
  else show_Z (hour - 12) ++ " PM".

(** The labels of the 24 slots of a day. *)
Definition hour_labels : list string :=
  ["12 AM"; "1 AM"; "2 AM"; "3 AM"; "4 AM"; "5 AM"; "6 AM"; "7 AM"; "8 AM"; "9 AM";
   "10 AM"; "11 AM"; "12 PM"; "1 PM"; "2 PM"; "3 PM"; "4 PM"; "5 PM"; "6 PM"; "7 PM";
   "8 PM"; "9 PM"; "10 PM"; "11 PM"].

(** ** The timestamps that parse *)

Module DateRange.
Section DateRange.
Context `{PyRuntime}.

(** The timestamps of the readings that parse, in order. *)
Fixpoint valid_dates (weather_data : list Reading) : list datetime :=
  match weather_data with
  | [] => []
  | reading :: weather_data' =>
      match IntervalAggregator._parse_timestamp (IntervalAggregator.timestamp_str reading) with
      | Some parsed_time => parsed_time :: valid_dates weather_data'
      | None => valid_dates weather_data'
      end
  end.
End DateRange.
End DateRange.

(** ** Sums over the slots of a station *)

(** Number of values held by the buckets of [station_id] over [intervals]. *)
Definition station_total (station_data : gmap string (gmap Z (list float)))
           (station_id : string) (intervals : list datetime) : nat :=
  list_sum (map (fun it => length (bucket station_data station_id it)) intervals).

(** Whether [reading] names the station [station_id]. *)
Definition names_station (station_id : string) (reading : Reading) : bool :=
  match StationID reading with
  | Some sid => String.eqb sid station_id
  | None => false
  end.

(** ** Sample readings for the charts *)

Module ChartSamples.
(** A reading carrying [value] in both measured fields. *)
Definition reading_of (station_id timestamp_str : string) (value : pyval) : Reading :=
  {| DateTime := Some timestamp_str; DateTimeStamp := None; StationID := Some station_id;
     HourlyRain := value; WaterLevel := value |}.

(** Readings of 2024-01-15: two of St1 in the 5 AM slot, one of St2 and one
    of a station that is not configured. *)
Definition morning : list Reading :=
  [ reading_of "St1" "2024-01-15 05:00:00" (PyFloat (tenths 25));
    reading_of "St1" "2024-01-15 05:30:00" (PyFloat (tenths 5));
    reading_of "St2" "2024-01-15 07:15:00" (PyStr "1.5");
    reading_of "St9" "2024-01-15 07:20:00" (PyFloat (tenths 10)) ].
End ChartSamples.

(** ** The chart services on the readings as they are fetched

    [fetch_weather_data()] hands the services a list of JSON values, and
    the annotations [List[Dict]] and [timestamp_str: str] check nothing.
    This section is the same source as [IntervalAggregator] with a reading
    an arbitrary Python value, a datetime within the range of the [datetime]
    type, and every exception that the source lets escape:
    - [reading.get] raises [AttributeError] on a value that is no dict;
    - [datetime.strptime] raises [TypeError] on a value that is true in a
      condition and is no string, and [_parse_timestamp] handles
      [ValueError] only;
    - a datetime plus a timedelta raises [OverflowError] beyond
      [datetime.max];
    - comparing a datetime that carries a time zone with one that does not
      raises [TypeError]; [_parse_timestamp] returns datetimes without time
      zone, so this happens when the target date carries one;
    - a list or a dict as a key of a dict raises [TypeError]. *)

(** [datetime.min] and [datetime.max], in microseconds since 1970-01-01:
    0001-01-01 00:00:00 and 9999-12-31 23:59:59.999999. *)
Definition datetime_min : datetime := -62135596800000000.
Definition datetime_max : datetime := 253402300799999999.

(** [dt + td]. *)
Definition dt_add (dt : datetime) (td : timedelta) : result datetime :=
  if (datetime_min <=? dt + td) && (dt + td <=? datetime_max) then Ok (dt + td)
  else Raise OverflowError.

(** A datetime passed by a caller: its wall-clock reading and whether it
    carries a time zone. *)
Record moment := { dt_wall : datetime; dt_aware : bool }.

(** A datetime without time zone. *)
Definition naive (t : datetime) : moment := {| dt_wall := t; dt_aware := false |}.

(** The buckets filled by [_group_readings_by_station_and_interval].  The
    keys that are strings are kept in a map; an append under a key of
    another hashable type (a JSON number or true) is kept in [other_keys],
    in order: no lookup of the services reaches it, the lookups being by the
    strings [site['id']]. *)
Record Buckets := {
  by_station : gmap string (gmap Z (list float));
  other_keys : list (pyval * datetime * float)
}.

Definition no_buckets : Buckets := {| by_station := ∅; other_keys := [] |}.

Module PayloadAggregator.
Section PayloadAggregator.
Context `{PyRuntime}.

(** What differs between the two services: the key of the measured value,
    the validity test, the classifier and the rounding. *)
Variable C : Type.
Variable metric : string.
Variable valid : float -> bool.
Variable classify : pyval -> result C.
Variable ndigits : Z.

(** [reading.get(key, default)]. *)
Definition reading_get (reading : pyval) (key : string) (default_ : pyval) : result pyval :=
  match reading with
  | PyDict d => Ok (default default_ (dict_get key d))
  | _ => Raise AttributeError
  end.

(** [reading.get('DateTime') or reading.get('DateTimeStamp', '')]. *)
Definition timestamp_str (reading : pyval) : result pyval :=
  date_time <- reading_get reading "DateTime" PyNone ;;
  if truthy date_time then Ok date_time
  else reading_get reading "DateTimeStamp" (PyStr "").

(** [_parse_timestamp]: on a string, the parser of [IntervalAggregator]. *)
Definition _parse_timestamp (timestamp_str : pyval) : result (option datetime) :=
  if negb (truthy timestamp_str) then Ok None
  else
    match timestamp_str with
    | PyStr s => Ok (IntervalAggregator._parse_timestamp s)
    | _ => Raise TypeError
    end.

(** The two lines that open each loop over the readings. *)
Definition parsed_time_of (reading : pyval) : result (option datetime) :=
  timestamp_str <- timestamp_str reading ;;
  _parse_timestamp timestamp_str.

(** The search for the latest timestamp, lines 51-57. *)
Definition later (latest_timestamp : option datetime) (reading : pyval)
  : result (option datetime) :=
  parsed <- parsed_time_of reading ;;
  match parsed with
  | Some parsed =>
      match latest_timestamp with
      | None => Ok (Some parsed)
      | Some latest => Ok (if latest <? parsed then Some parsed else latest_timestamp)
      end
  | None => Ok latest_timestamp
  end.

Fixpoint latest_loop (latest_timestamp : option datetime) (weather_data : list pyval)
  : result (option datetime) :=
  match weather_data with
  | [] => Ok latest_timestamp
  | reading :: weather_data' =>
      latest_timestamp' <- later latest_timestamp reading ;;
      latest_loop latest_timestamp' weather_data'
  end.

Definition display_date_of (weather_data : list pyval) (target_date : option moment)
           (now : datetime) : result moment :=
  match target_date with
  | Some target_date => Ok target_date
  | None =>
      match weather_data with
      | [] => Ok (naive now)
      | _ =>
          latest_timestamp <- latest_loop None weather_data ;;
          match latest_timestamp with
          | Some latest_timestamp => Ok (naive latest_timestamp)
          | None => Ok (naive now)
          end
      end
  end.

(** The [while current <= end_time] loop; [fuel] bounds its length. *)
Fixpoint intervals_loop (fuel : nat) (current end_time : datetime)
  : result (list datetime) :=
  match fuel with
  | O => Ok []
  | S fuel' =>
      if current <=? end_time
      then
        next <- dt_add current (hours DATA_INTERVAL_HOURS) ;;
        intervals <- intervals_loop fuel' next end_time ;;
        Ok (current :: intervals)
      else Ok []
  end.

(** [intervals[0]] in the logging call raises on an empty list. *)
Definition _create_hourly_intervals (start_time end_time : datetime)
  : result (list datetime) :=
  intervals <-
    intervals_loop (Z.to_nat ((end_time - start_time) / hours DATA_INTERVAL_HOURS + 1))
                   start_time end_time ;;
  match intervals with
  | [] => Raise IndexError
  | _ => Ok intervals
  end.

(** The [for interval_time in intervals: ... break] search. *)
Fixpoint find_interval (parsed_time : datetime) (intervals : list datetime)
  : result (option datetime) :=
  match intervals with
  | [] => Ok None
  | interval_time :: intervals' =>
      next_interval <- dt_add interval_time (hours 1) ;;
      if (interval_time <=? parsed_time) && (parsed_time <? next_interval)
      then Ok (Some interval_time)
      else find_interval parsed_time intervals'
  end.

(** [station_data[station_id][interval_time].append(v)]. *)
Definition append_value (station_data : Buckets) (station_id : pyval)
           (interval_time : datetime) (v : float) : result Buckets :=
  match station_id with
  | PyStr s =>
      Ok {| by_station := bucket_append (by_station station_data) s interval_time v;
            other_keys := other_keys station_data |}
  | PyList _ | PyDict _ => Raise TypeError
  | _ =>
      Ok {| by_station := by_station station_data;
            other_keys := py_append (other_keys station_data)
                                    (station_id, interval_time, v) |}
  end.

(** The body of the [try] of the grouping loop.  [aware] says whether
    [start_time] and [end_time] carry a time zone.  In
    [start_time <= parsed_time <= end_time + timedelta(hours=1)] the sum is
    evaluated only when the first comparison holds. *)
Definition group_body (intervals : list datetime) (start_time end_time : datetime)
           (aware : bool) (station_data : Buckets) (reading : pyval) : result Buckets :=
  parsed_time <- parsed_time_of reading ;;
  match parsed_time with
  | None => Ok station_data
  | Some parsed_time =>
      if aware then Raise TypeError
      else if negb (start_time <=? parsed_time) then Ok station_data
      else
        limit <- dt_add end_time (hours 1) ;;
        if negb (parsed_time <=? limit) then Ok station_data
        else
          station_id <- reading_get reading "StationID" PyNone ;;
          value <- reading_get reading metric PyNone ;;
          if negb (truthy station_id) || is_none value then Ok station_data
          else
            match py_float value with
            | Raise ValueError | Raise TypeError => Ok station_data
            | Raise e => Raise e
            | Ok value_float =>
                if negb (valid value_float) then Ok station_data
                else
                  slot <- find_interval parsed_time intervals ;;
                  match slot with
                  | Some interval_time =>
                      append_value station_data station_id interval_time value_float
                  | None => Ok station_data
                  end
            end
  end.

(** One iteration: [except (KeyError, AttributeError): continue]. *)
Definition group_step (intervals : list datetime) (start_time end_time : datetime)
           (aware : bool) (station_data : Buckets) (reading : pyval) : result Buckets :=
  match group_body intervals start_time end_time aware station_data reading with
  | Raise KeyError | Raise AttributeError => Ok station_data
  | r => r
  end.

Fixpoint group_loop (intervals : list datetime) (start_time end_time : datetime)
         (aware : bool) (station_data : Buckets) (weather_data : list pyval)
  : result Buckets :=
  match weather_data with
  | [] => Ok station_data
  | reading :: weather_data' =>
      station_data' <- group_step intervals start_time end_time aware station_data reading ;;
      group_loop intervals start_time end_time aware station_data' weather_data'
  end.

Definition _group_readings_by_station_and_interval (weather_data : list pyval)
           (intervals : list datetime) (start_time end_time : datetime) (aware : bool)
  : result Buckets :=
  group_loop intervals start_time end_time aware no_buckets weather_data.

(** The points are those of [IntervalAggregator]; [timestamp] is the
    wall-clock instant of the slot, which [isoformat()] renders with the
    time zone of the display date if it has one. *)
Definition get_24hour_intervals_per_station (weather_data : list pyval)
           (sites : list Site) (target_date : option moment) (now : datetime)
  : result (gmap string (list (DataPoint C))) :=
  display_date <- display_date_of weather_data target_date now ;;
  let start_time := replace_hour (dt_wall display_date) START_HOUR in
  let end_time := replace_hour (dt_wall display_date) END_HOUR in
  intervals <- _create_hourly_intervals start_time end_time ;;
  station_interval_data <-
    _group_readings_by_station_and_interval weather_data intervals start_time end_time
                                            (dt_aware display_date) ;;
  IntervalAggregator.format_sites C classify ndigits sites intervals
    (by_station station_interval_data) (dt_wall display_date) ∅.

(** The loop of [get_available_date_range]. *)
Fixpoint valid_dates (weather_data : list pyval) : result (list datetime) :=
  match weather_data with
  | [] => Ok []
  | reading :: weather_data' =>
      parsed_time <- parsed_time_of reading ;;
      valid_dates' <- valid_dates weather_data' ;;
      match parsed_time with
      | Some parsed_time => Ok (parsed_time :: valid_dates')
      | None => Ok valid_dates'
      end
  end.

(** The pair (earliest, latest) of the returned dict; [min] and [max] keep
    the first of equal elements. *)
Definition get_available_date_range (weather_data : list pyval)
  : result (option (datetime * datetime)) :=
  match weather_data with
  | [] => Ok None
  | _ =>
      valid_dates <- valid_dates weather_data ;;
      match valid_dates with
      | [] => Ok None
      | t :: ts => Ok (Some (fold_left Z.min ts t, fold_left Z.max ts t))
      end
  end.
End PayloadAggregator.
End PayloadAggregator.

Module PrecipitationPayload.
Section PrecipitationPayload.
Context `{PyRuntime}.

Definition _group_readings_by_station_and_interval :=
  PayloadAggregator._group_readings_by_station_and_interval
    "HourlyRain" PrecipitationService.valid.

Definition get_24hour_intervals_per_station :=
  PayloadAggregator.get_24hour_intervals_per_station
    rainfall_level "HourlyRain" PrecipitationService.valid get_rainfall_level 1.
End PrecipitationPayload.
End PrecipitationPayload.

Module WaterLevelPayload.
Section WaterLevelPayload.
Context `{PyRuntime}.

Definition _group_readings_by_station_and_interval :=
  PayloadAggregator._group_readings_by_station_and_interval
    "WaterLevel" WaterLevelService.valid.

Definition get_24hour_intervals_per_station :=
  PayloadAggregator.get_24hour_intervals_per_station
    alert_level "WaterLevel" WaterLevelService.valid get_alert_level 2.
End WaterLevelPayload.
End WaterLevelPayload.

(** ** Readings that make no exception escape *)

(** The instant is within the range of [datetime] and not on its last day,
    9999-12-31: the 24 slots of its day and the end of the last one exist. *)
Definition within_calendar (t : datetime) : bool :=
  (datetime_min <=? t) && (replace_hour t END_HOUR + hours 1 <=? datetime_max).

(** A string, or a value that is false in a condition. *)
Definition text_or_false (v : pyval) : bool :=
  match v with
  | PyStr _ => true
  | _ => negb (truthy v)
  end.


(** The value that the services take for the timestamp of a dict. *)
Definition timestamp_value (reading : dict) : pyval :=
  py_or (get "DateTime" reading) (default (PyStr "") (dict_get "DateTimeStamp" reading)).

(** What a timestamp value that is text or false parses to. *)
Definition parsed_text `{PyRuntime} (v : pyval) : option datetime :=
  match v with
  | PyStr s => IntervalAggregator._parse_timestamp s
  | _ => None
  end.


(** The reading is a dict whose timestamp is text, or false in a condition,
    and parses to [parsed] ([None]: no layout takes it, or it is false). *)
Definition reads_as `{PyRuntime} (reading : pyval) (parsed : option datetime) : Prop :=
  exists d, reading = PyDict d /\
            text_or_false (timestamp_value d) = true /\
            parsed_text (timestamp_value d) = parsed.

(** ** Typed readings as payloads *)

(** The dict that a reading of [IntervalAggregator] stands for: a text field
    that is [None] is a missing key. *)
Definition text_field (key : string) (value : option string) : dict :=
  match value with
  | Some s => [(key, PyStr s)]
  | None => []
  end.

Definition payload_of (reading : Reading) : dict :=
  (text_field "DateTime" (DateTime reading)
   ++ text_field "DateTimeStamp" (DateTimeStamp reading)
   ++ text_field "StationID" (StationID reading)
   ++ [("HourlyRain", HourlyRain reading); ("WaterLevel", WaterLevel reading)])%list.

(** Buckets that hold string keys only. *)
Definition named_buckets (station_data : gmap string (gmap Z (list float))) : Buckets :=
  {| by_station := station_data; other_keys := [] |}.

(** ** Sample payloads for the charts *)

Module PayloadSamples.
(** A reading carrying [value] in both measured fields. *)
Definition reading_of (station_id timestamp_str : string) (value : pyval) : dict :=
  [("StationID", PyStr station_id); ("DateTime", PyStr timestamp_str);
   ("HourlyRain", value); ("WaterLevel", value)].

(** Readings of 2024-01-15: two of St1 in the 5 AM slot, one of St2 with the
    value as text, one of a station that is not configured, and one with
    neither station nor timestamp. *)
Definition morning : list pyval :=
  [ PyDict (reading_of "St1" "2024-01-15 05:00:00" (PyFloat (tenths 25)));
    PyDict (reading_of "St1" "2024-01-15 05:30:00" (PyFloat (tenths 5)));
    PyDict (reading_of "St2" "2024-01-15 07:15:00" (PyStr "1.5"));
    PyDict (reading_of "St9" "2024-01-15 07:20:00" (PyFloat (tenths 10)));
    PyDict [("Temperature", PyFloat (tenths 281))] ].

(** A timestamp that no layout parses, with an integer too large for a
    float as value. *)
Definition no_timestamp : dict := reading_of "St1" "soon" (PyInt (10 ^ 400)).

(** A timestamp sent as a JSON number. *)
Definition numeric_timestamp : pyval :=
  PyDict [("StationID", PyStr "St1"); ("DateTime", PyInt 1705294800);
          ("HourlyRain", PyFloat (tenths 25)); ("WaterLevel", PyFloat (tenths 12))].

(** A reading of -1, below what either service accepts. *)
Definition negative : dict :=
  reading_of "St1" "2024-01-15 06:00:00" (PyFloat (float_of_Z (-1))).
End PayloadSamples.

(** * Properties *)

(** ** Order of floats *)

Lemma fleb_trans (a b c : float) :
  fleb a b = true -> fleb b c = true -> fleb a c = true.
Proof.
  unfold fleb, SFleb, SFcompare.
  destruct a as [sa|sa| |sa ma ea], b as [sb|sb| |sb mb eb], c as [sc|sc| |sc mc ec];
    repeat match goal with s : bool |- _ => destruct s end;
    simpl; try discriminate; try reflexivity;
    rewrite ?Pos.compare_cont_spec; unfold Pos.switch_Eq;
    destruct (Z.compare_spec ea eb), (Z.compare_spec eb ec), (Z.compare_spec ea ec);
    try lia; try discriminate; try reflexivity;
    destruct (Pos.compare_spec ma mb), (Pos.compare_spec mb mc), (Pos.compare_spec ma mc);
    simpl; try lia; try discriminate; try reflexivity.
Qed.

Lemma fgeb_mono (t a b : float) :
  fleb a b = true -> fgeb a t = true -> fgeb b t = true.
Proof. unfold fgeb. intros Hab Hta. exact (fleb_trans t a b Hta Hab). Qed.

(** ** Coercion to float *)

Section CoercionFacts.
Context `{PyRuntime}.

(** [float()] raises nothing but the three classes below. *)
Lemma py_float_raises (v : pyval) (e : exn) :
  py_float v = Raise e -> e = ValueError \/ e = TypeError \/ e = OverflowError.
Proof.
  destruct v; simpl; try (intros [= <-]; auto); try discriminate.
  - destruct (float_of_Z z); intros [= <-] || discriminate; auto.
  - destruct (float_of_str s); intros [= <-] || discriminate; auto.
Qed.

Lemma to_float_float (f : float) : _to_float (PyFloat f) = Ok (Some f).
Proof. reflexivity. Qed.

Lemma to_float_opt (x : option float) :
  _to_float (MetricsService.opt_float x) = Ok x.
Proof. destruct x; reflexivity. Qed.

Lemma to_float_unparseable (v : pyval) :
  py_float v = Raise ValueError \/ py_float v = Raise TypeError ->
  _to_float v = Ok None.
Proof.
  intros [E|E]; destruct v; simpl in *; try reflexivity; try discriminate;
    unfold _to_float; simpl; rewrite E; reflexivity.
Qed.

(** A value that float() converts is not null: _to_float returns the
    float. *)
Lemma to_float_coerced (v : pyval) (f : float) :
  py_float v = Ok f -> _to_float v = Ok (Some f).
Proof.
  intros E. destruct v; try discriminate; unfold _to_float; rewrite E; reflexivity.
Qed.
End CoercionFacts.

(** ** Alert classification *)

Section ClassificationFacts.
Context `{PyRuntime}.

(** The level of a float, by the chain of comparisons. *)
Lemma get_alert_level_float (v : pyval) (f : float) :
  _to_float v = Ok (Some f) ->
  get_alert_level v =
    Ok (if fgeb f WeatherThresholds.WATER_CRITICAL then critical
        else if fgeb f WeatherThresholds.WATER_WARNING then warning
        else if fgeb f WeatherThresholds.WATER_ALERT then alert
        else if fgeb f WeatherThresholds.WATER_ADVISORY then advisory
        else normal).
Proof.
  intros E. unfold get_alert_level. rewrite E. simpl.
  repeat match goal with |- context [if ?b then _ else _] => destruct b end; reflexivity.
Qed.

(** C5, at an integer water level beyond the float range: float() raises
    OverflowError, which the handler of _to_float does not take, so
    get_alert_level raises where the claim has it return normal. *)
Theorem get_alert_level_overflow :
  get_alert_level (PyInt (2 ^ 1024)) = Raise OverflowError.
Proof. reflexivity. Qed.

(** X27.  Over the inputs that float() converts (floats, integers, numeric
    strings, booleans) the alert level never decreases as the water level
    increases, and the level of an input is the level of the float that
    float() gives for it; the levels at the eight boundary values are
    normal, advisory, advisory, alert, alert, warning, warning and critical;
    a null input, and an input on which float() raises ValueError or
    TypeError, are normal. *)
Theorem get_alert_level_monotone :
  (forall (v1 v2 : pyval) (f1 f2 : float),
      py_float v1 = Ok f1 -> py_float v2 = Ok f2 ->
      fleb f1 f2 = true ->
      exists a1 a2 : alert_level,
        get_alert_level v1 = Ok a1 /\ get_alert_level v2 = Ok a2 /\
        (severity a1 <= severity a2)%nat)
  /\ (forall (v : pyval) (f : float),
        py_float v = Ok f -> get_alert_level v = get_alert_level (PyFloat f))
  /\ get_alert_level (PyFloat (tenths 6999)) = Ok normal
  /\ get_alert_level (PyFloat (float_of_Z 700)) = Ok advisory
  /\ get_alert_level (PyFloat (tenths 7999)) = Ok advisory
  /\ get_alert_level (PyFloat (float_of_Z 800)) = Ok alert
  /\ get_alert_level (PyFloat (tenths 8999)) = Ok alert
  /\ get_alert_level (PyFloat (float_of_Z 900)) = Ok warning
  /\ get_alert_level (PyFloat (tenths 9999)) = Ok warning
  /\ get_alert_level (PyFloat (float_of_Z 1000)) = Ok critical
  /\ get_alert_level PyNone = Ok normal
  /\ (forall v : pyval,
        py_float v = Raise ValueError \/ py_float v = Raise TypeError ->
        get_alert_level v = Ok normal).
Proof.
  split; [|split; [|repeat split; try reflexivity]].
  - intros v1 v2 f1 f2 E1 E2 Hle.
    apply to_float_coerced in E1, E2.
    rewrite (get_alert_level_float v1 f1 E1), (get_alert_level_float v2 f2 E2).
    eexists _, _. split; [reflexivity|]. split; [reflexivity|].
    pose proof (fgeb_mono WeatherThresholds.WATER_CRITICAL f1 f2 Hle) as Hc.
    pose proof (fgeb_mono WeatherThresholds.WATER_WARNING f1 f2 Hle) as Hw.
    pose proof (fgeb_mono WeatherThresholds.WATER_ALERT f1 f2 Hle) as Ha.
    pose proof (fgeb_mono WeatherThresholds.WATER_ADVISORY f1 f2 Hle) as Hd.
    destruct (fgeb f1 WeatherThresholds.WATER_CRITICAL);
      [rewrite Hc by reflexivity; simpl; lia|].
    destruct (fgeb f1 WeatherThresholds.WATER_WARNING);
      [rewrite Hw by reflexivity; destruct (fgeb f2 _); simpl; lia|].
    destruct (fgeb f1 WeatherThresholds.WATER_ALERT);
      [rewrite Ha by reflexivity; repeat destruct (fgeb f2 _); simpl; lia|].
    destruct (fgeb f1 WeatherThresholds.WATER_ADVISORY);
      [rewrite Hd by reflexivity; repeat destruct (fgeb f2 _); simpl; lia|].
    simpl. lia.
  - intros v f E.
    rewrite (get_alert_level_float v f (to_float_coerced v f E)),
      (get_alert_level_float (PyFloat f) f eq_refl).
    reflexivity.
  - intros v E. unfold get_alert_level. rewrite (to_float_unparseable v E). reflexivity.
Qed.
End ClassificationFacts.

Section ClassificationRuns.
#[local] Existing Instance SampleRuntime.sample_runtime.

(** The level of the string "699.9" is at most the level of the float
    700.0. *)
Lemma get_alert_level_monotone_witness :
exists a1 a2 : alert_level,
  get_alert_level (PyStr "699.9") = Ok a1 /\
  get_alert_level (PyFloat (float_of_Z 700)) = Ok a2 /\
  (severity a1 <= severity a2)%nat.
Proof.
apply (proj1 (@get_alert_level_monotone SampleRuntime.sample_runtime))
  with (f1 := tenths 6999) (f2 := float_of_Z 700); reflexivity.
Defined.
End ClassificationRuns.

(** ** Dashboard metrics *)

Section MetricsFacts.
Context `{PyRuntime}.
Variable sites : list Site.
Variable clock : nat -> datetime.

Lemma parse_timestamp_empty : MetricsService._parse_timestamp [] = None.
Proof. reflexivity. Qed.

(** A station whose timestamp parses and is at most 60 minutes behind every
    clock read is online. *)
Lemma is_station_online_fresh (tick : nat) (data : dict) (ts : datetime) :
  MetricsService._parse_timestamp data = Some ts ->
  (forall k, clock k - ts <= minutes STATION_OFFLINE_THRESHOLD_MINUTES) ->
  MetricsService._is_station_online clock tick data = (true, S tick).
Proof.
  intros Hts Hfresh. unfold MetricsService._is_station_online.
  destruct data as [|kv data]; [discriminate|].
  rewrite Hts. f_equal. apply Z.leb_le, Hfresh.
Qed.

(** The classifier never raises on the averages the services give it. *)
Lemma get_rainfall_level_total (v : pyval) :
  (exists f, v = PyFloat f) \/ v = PyInt 0 ->
  exists l, get_rainfall_level v = Ok l.
Proof.
  intros [[f ->]| ->]; unfold get_rainfall_level; simpl;
    repeat match goal with |- context [if ?b then _ else _] => destruct b end; eauto.
Qed.

(** One loop iteration on an online station with a readable water level. *)
Lemma dash_step_online (acc : DashAcc) (station_id : string) (data : dict)
      (ts : datetime) (f : float) (a : alert_level) (r : option float) :
  MetricsService._parse_timestamp data = Some ts ->
  (forall k, clock k - ts <= minutes STATION_OFFLINE_THRESHOLD_MINUTES) ->
  _to_float (get "WaterLevel" data) = Ok (Some f) ->
  get_alert_level (PyFloat f) = Ok a ->
  _to_float (get "HourlyRain" data) = Ok r ->
  exists acc',
    MetricsService.dash_step sites clock acc (station_id, Some data) = Ok acc' /\
    da_counts acc' = bump a (da_counts acc) /\
    da_online acc' = S (da_online acc).
Proof.
  intros Hts Hfresh Hw Ha Hr. unfold MetricsService.dash_step.
  rewrite (is_station_online_fresh (da_tick acc) data ts Hts Hfresh).
  destruct data as [|kv data]; [discriminate|].
  rewrite Hw. cbn [rbind MetricsService.opt_float]. rewrite Ha. cbn [rbind].
  rewrite Hr. cbn [rbind]. eexists. split; [reflexivity|]. split; reflexivity.
Qed.

(** C8.  Five stations with water levels 1050, 950, 850, 750 and 650, each
    with a timestamp at most 60 minutes old: one station per level from
    critical to advisory, five sensors online, and the highest level is
    critical. *)
Theorem dashboard_five_stations
        (idA idB idC idD idE : string) (dA dB dC dD dE : dict)
        (tsA tsB tsC tsD tsE : datetime) (rA rB rC rD rE : option float) :
  MetricsService._parse_timestamp dA = Some tsA ->
  MetricsService._parse_timestamp dB = Some tsB ->
  MetricsService._parse_timestamp dC = Some tsC ->
  MetricsService._parse_timestamp dD = Some tsD ->
  MetricsService._parse_timestamp dE = Some tsE ->
  (forall k, clock k - tsA <= minutes STATION_OFFLINE_THRESHOLD_MINUTES) ->
  (forall k, clock k - tsB <= minutes STATION_OFFLINE_THRESHOLD_MINUTES) ->
  (forall k, clock k - tsC <= minutes STATION_OFFLINE_THRESHOLD_MINUTES) ->
  (forall k, clock k - tsD <= minutes STATION_OFFLINE_THRESHOLD_MINUTES) ->
  (forall k, clock k - tsE <= minutes STATION_OFFLINE_THRESHOLD_MINUTES) ->
  _to_float (get "WaterLevel" dA) = Ok (Some (float_of_Z 1050)) ->
  _to_float (get "WaterLevel" dB) = Ok (Some (float_of_Z 950)) ->
  _to_float (get "WaterLevel" dC) = Ok (Some (float_of_Z 850)) ->
  _to_float (get "WaterLevel" dD) = Ok (Some (float_of_Z 750)) ->
  _to_float (get "WaterLevel" dE) = Ok (Some (float_of_Z 650)) ->
  _to_float (get "HourlyRain" dA) = Ok rA ->
  _to_float (get "HourlyRain" dB) = Ok rB ->
  _to_float (get "HourlyRain" dC) = Ok rC ->
  _to_float (get "HourlyRain" dD) = Ok rD ->
  _to_float (get "HourlyRain" dE) = Ok rE ->
  exists m : DashboardMetrics,
    MetricsService.calculate_dashboard_metrics sites clock
      [(idA, Some dA); (idB, Some dB); (idC, Some dC); (idD, Some dD); (idE, Some dE)]
    = Ok m /\
    critical_count m = 1%nat /\ warning_count m = 1%nat /\
    alert_count m = 1%nat /\ advisory_count m = 1%nat /\
    online_sensors m = 5%nat /\
    highest_alert_level m = critical /\
    alert_level_name (highest_alert_level m) = "critical".
Proof.
  intros PA PB PC PD PE FA FB FC FD FE WA WB WC WD WE RA RB RC RD RE.
  unfold MetricsService.calculate_dashboard_metrics.
  cbn [MetricsService.dash_loop].
  destruct (dash_step_online MetricsService.dash_init idA dA tsA _ critical rA PA FA WA
              eq_refl RA) as (acc1 & -> & C1 & O1).
  cbn [rbind].
  destruct (dash_step_online acc1 idB dB tsB _ warning rB PB FB WB eq_refl RB)
    as (acc2 & -> & C2 & O2).
  cbn [rbind].
  destruct (dash_step_online acc2 idC dC tsC _ alert rC PC FC WC eq_refl RC)
    as (acc3 & -> & C3 & O3).
  cbn [rbind].
  destruct (dash_step_online acc3 idD dD tsD _ advisory rD PD FD WD eq_refl RD)
    as (acc4 & -> & C4 & O4).
  cbn [rbind].
  destruct (dash_step_online acc4 idE dE tsE _ normal rE PE FE WE eq_refl RE)
    as (acc5 & -> & C5 & O5).
  cbn [rbind].
  assert (Hc : da_counts acc5 =
               {| n_critical := 1; n_warning := 1; n_alert := 1;
                  n_advisory := 1; n_normal := 1 |}).
  { rewrite C5, C4, C3, C2, C1. reflexivity. }
  assert (Ho : da_online acc5 = 5%nat).
  { rewrite O5, O4, O3, O2, O1. reflexivity. }
  rewrite Hc. cbn [MetricsService.highest_of count_of n_critical Nat.ltb Nat.leb].
  destruct (get_rainfall_level_total
              (if 0 <? da_rainfall_readings acc5
               then PyFloat (fdiv (da_total_rainfall acc5)
                                  (float_of_Z (da_rainfall_readings acc5)))
               else PyInt 0)) as [l Hl].
  { destruct (0 <? da_rainfall_readings acc5); eauto. }
  unfold MetricsService._get_rainfall_forecast. rewrite Hl. cbn [rbind].
  eexists. split; [reflexivity|]. cbn. rewrite Ho. repeat split; reflexivity.
Qed.
End MetricsFacts.

Section MetricsRuns.
#[local] Existing Instance SampleRuntime.sample_runtime.

(** The stations of test_multiple_stations, read ten minutes after their
    timestamp. *)
Lemma dashboard_five_stations_witness :
  exists m : DashboardMetrics,
    MetricsService.calculate_dashboard_metrics SiteConfig.SITES Samples.clock_0510
      [("St1", Some (Samples.station_reading "1050.0"));
       ("St2", Some (Samples.station_reading "950.0"));
       ("St3", Some (Samples.station_reading "850.0"));
       ("St4", Some (Samples.station_reading "750.0"));
       ("St5", Some (Samples.station_reading "650.0"))]
    = Ok m /\
    critical_count m = 1%nat /\ warning_count m = 1%nat /\
    alert_count m = 1%nat /\ advisory_count m = 1%nat /\
    online_sensors m = 5%nat /\
    highest_alert_level m = critical /\
    alert_level_name (highest_alert_level m) = "critical".
Proof.
  apply (dashboard_five_stations SiteConfig.SITES Samples.clock_0510
           "St1" "St2" "St3" "St4" "St5" _ _ _ _ _
           Samples.at_0500 Samples.at_0500 Samples.at_0500 Samples.at_0500 Samples.at_0500
           (Some (float_of_Z 0)) (Some (float_of_Z 0)) (Some (float_of_Z 0))
           (Some (float_of_Z 0)) (Some (float_of_Z 0)));
    try reflexivity; intros k; vm_compute; discriminate.
Defined.
End MetricsRuns.

(** ** The cache *)

Lemma record_errors_app (xs ys : list datetime) (c : WeatherCache) :
  record_errors (xs ++ ys) c = record_errors ys (record_errors xs c).
Proof. unfold record_errors. apply fold_left_app. Qed.

(** Errors only count up; the threshold and the stored data stay. *)
Lemma record_errors_counts (times : list datetime) (c : WeatherCache) :
  _fetch_errors (record_errors times c) = _fetch_errors c + Z.of_nat (length times) /\
  _max_errors_before_backoff (record_errors times c) = _max_errors_before_backoff c /\
  _last_fetch (record_errors times c) = _last_fetch c /\
  _ttl (record_errors times c) = _ttl c /\
  _data (record_errors times c) = _data c.
Proof.
  revert c. induction times as [|t times IH]; intros c.
  - simpl. repeat split; lia.
  - change (record_errors (t :: times) c)
      with (record_errors times (WeatherCache.record_error t c)).
    destruct (IH (WeatherCache.record_error t c)) as (E & M & L & T & D).
    rewrite E, M, L, T, D. simpl. repeat split; lia.
Qed.

Lemma backoff_seconds_pos (n : Z) : 3 <= n -> 0 < seconds (WeatherCache.backoff_seconds n 3).
Proof.
  intros Hn. unfold seconds, WeatherCache.backoff_seconds.
  assert (0 < 2 ^ (n - 3)) by (apply Z.pow_pos_nonneg; lia). lia.
Qed.

(** C4.  From a cache with no errors and no backoff, the n-th consecutive
    record_error(), n >= 3, sets the backoff to end min(60 * 2^(n-3), 300)
    seconds after it; should_fetch() is false from then until that instant,
    and true from that instant on unless a fetch was recorded within the
    freshness TTL. *)
Theorem backoff_after_errors (c0 : WeatherCache) (earlier : list datetime) (now : datetime) :
  _fetch_errors c0 = 0 ->
  _backoff_until c0 = None ->
  _max_errors_before_backoff c0 = 3 ->
  3 <= Z.of_nat (length (earlier ++ [now])) ->
  let n := Z.of_nat (length (earlier ++ [now])) in
  let c := record_errors (earlier ++ [now]) c0 in
  let backoff := seconds (Z.min (60 * 2 ^ (n - 3)) 300) in
  _backoff_until c = Some (now + backoff) /\
  WeatherCache.should_fetch now c = false /\
  (forall t, now <= t < now + backoff -> WeatherCache.should_fetch t c = false) /\
  (forall t, now + backoff <= t ->
             (forall last_fetch, _last_fetch c = Some last_fetch -> _ttl c <= t - last_fetch) ->
             WeatherCache.should_fetch t c = true).
Proof.
  intros E0 B0 M0 Hn n c backoff.
  assert (Hlen : n = Z.of_nat (length earlier) + 1).
  { subst n. rewrite length_app. simpl. lia. }
  destruct (record_errors_counts earlier c0) as (E & M & _).
  assert (Hb : _backoff_until c = Some (now + backoff)).
  { subst c. rewrite record_errors_app. simpl.
    rewrite M, E, M0, E0.
    replace (0 + Z.of_nat (length earlier) + 1) with n by lia.
    destruct (Z.leb_spec 3 n); [reflexivity | lia]. }
  assert (Hpos : 0 < backoff) by (apply backoff_seconds_pos; lia).
  assert (Hin : forall t, now <= t < now + backoff -> WeatherCache.should_fetch t c = false).
  { intros t Ht. unfold WeatherCache.should_fetch, WeatherCache.in_backoff. rewrite Hb.
    destruct (Z.ltb_spec t (now + backoff)); [reflexivity | lia]. }
  split; [exact Hb|]. split; [apply Hin; lia|]. split; [exact Hin|].
  intros t Ht Hfresh. unfold WeatherCache.should_fetch, WeatherCache.in_backoff. rewrite Hb.
  destruct (Z.ltb_spec t (now + backoff)); [lia|].
  destruct (_last_fetch c) as [last_fetch|] eqn:L; [|reflexivity].
  apply Z.leb_le, Hfresh. reflexivity.
Qed.

(** Three errors on a new cache, one second apart. *)
Lemma backoff_after_errors_witness :
  let c := record_errors [0; seconds 1; seconds 2] (WeatherCache.__init__ 60 300) in
  _backoff_until c = Some (seconds 2 + seconds 60) /\
  WeatherCache.should_fetch (seconds 2) c = false /\
  (forall t, seconds 2 <= t < seconds 2 + seconds 60 -> WeatherCache.should_fetch t c = false) /\
  (forall t, seconds 2 + seconds 60 <= t ->
             (forall last_fetch, _last_fetch c = Some last_fetch -> _ttl c <= t - last_fetch) ->
             WeatherCache.should_fetch t c = true).
Proof.
  apply (backoff_after_errors (WeatherCache.__init__ 60 300) [0; seconds 1] (seconds 2));
    [reflexivity | reflexivity | reflexivity | simpl; lia].
Defined.

(** get_stale_data() returns the stored data at every age. *)
Lemma get_stale_data_any_age (now : datetime) (self : WeatherCache) :
  WeatherCache.get_stale_data now self = _data self.
Proof.
  unfold WeatherCache.get_stale_data. destruct (_data self); [|reflexivity].
  destruct (match _last_success self with Some _ => _ | None => _ end); reflexivity.
Qed.

(** ** Fetching *)

Section FetchFacts.
Context `{PyRuntime}.
Variable clock : nat -> datetime.
Variable upstream : nat -> response.

Local Abbreviation fetch_weather_data := (WeatherService.fetch_weather_data clock upstream).
Local Abbreviation fetch_and_store := (WeatherService.fetch_and_store clock upstream).

(** Every exception of the try block is turned into [None]. *)
Lemma fetch_from_api_returns (w : world) :
  WeatherService._fetch_from_api upstream w =
    (Ok (api_result (upstream (requests w))),
     {| cache := cache w; ticks := ticks w; requests := S (requests w) |}).
Proof.
  unfold WeatherService._fetch_from_api, api_result.
  destruct (WeatherService.fetch_body (upstream (requests w))) as [r|[]]; reflexivity.
Qed.

Lemma some_nonempty_default (x : option (list pyval)) :
  WeatherService.some_nonempty x = false -> default [] x = [].
Proof. destruct x as [[|]|]; simpl; congruence. Qed.

Lemma some_nonempty_some (x : option (list pyval)) :
  WeatherService.some_nonempty x = true -> x = Some (default [] x) /\ default [] x <> [].
Proof. destruct x as [[|]|]; simpl; try discriminate. intros _. split; congruence. Qed.

Lemma cache_record_error_data (w : world) :
  _data (cache (WeatherService.cache_record_error clock w)) = _data (cache w) /\
  requests (WeatherService.cache_record_error clock w) = requests w.
Proof.
  unfold WeatherService.cache_record_error.
  destruct (_ <=? _); split; reflexivity.
Qed.

Lemma cache_get_stale_data_spec (w : world) :
  fst (WeatherService.cache_get_stale_data clock w) = _data (cache w) /\
  requests (snd (WeatherService.cache_get_stale_data clock w)) = requests w.
Proof.
  unfold WeatherService.cache_get_stale_data.
  destruct (_data (cache w)) eqn:D; simpl; [|auto].
  rewrite get_stale_data_any_age. auto.
Qed.

(** The upstream call and what follows it: one request, a list, and the
    stored data, or the empty list, when the answer is taken for a failure. *)
Lemma fetch_and_store_spec (w : world) :
  exists (l : list pyval) (w' : world),
    fetch_and_store w = (Ok (Some l), w') /\
    requests w' = S (requests w) /\
    (api_failed (upstream (requests w)) = true -> l = default [] (_data (cache w))) /\
    (l = [] -> _data (cache w) = None \/ _data (cache w) = Some []).
Proof.
  unfold WeatherService.fetch_and_store, api_failed.
  rewrite fetch_from_api_returns.
  destruct (WeatherService.some_nonempty (api_result (upstream (requests w)))) eqn:F.
  - destruct (some_nonempty_some _ F) as [E Hne]. rewrite E.
    eexists _, _. split; [reflexivity|]. split; [reflexivity|].
    split; [discriminate | intros El; contradiction].
  - set (w3 := {| cache := cache w; ticks := ticks w; requests := S (requests w) |}).
    destruct (cache_record_error_data w3) as [D4 R4].
    destruct (cache_get_stale_data_spec (WeatherService.cache_record_error clock w3))
      as [D5 R5].
    destruct (WeatherService.cache_get_stale_data clock
                (WeatherService.cache_record_error clock w3)) as [stale_data w5].
    simpl in D5, R5. rewrite D4 in D5. rewrite R4 in R5. simpl in D5, R5. subst stale_data.
    destruct (WeatherService.some_nonempty (_data (cache w))) eqn:S.
    + destruct (some_nonempty_some _ S) as [E Hne].
      exists (default [] (_data (cache w))), w5. split; [congruence|].
      split; [exact R5|]. split; [reflexivity | intros El; contradiction].
    + eexists _, _. split; [reflexivity|]. split; [exact R5|].
      split; [intros _; symmetry; apply some_nonempty_default, S|].
      intros _. destruct (_data (cache w)) as [[|]|]; simpl in S; auto; discriminate.
Qed.

(** C1.  fetch_weather_data returns a list on every upstream answer and
    never raises; when the upstream call was made and failed the list is the
    cached data, and it is empty only if nothing, or an empty list, is
    cached.  Timeouts, transport errors, 4xx and 5xx statuses, bodies that
    are not JSON and payloads of the wrong shape are failures. *)
Theorem fetch_weather_data_never_raises (force_refresh : bool) (w : world) :
  (exists (l : list pyval) (w' : world),
      fetch_weather_data force_refresh w = (Ok (Some l), w') /\
      (requests w' = requests w \/ requests w' = S (requests w)) /\
      (requests w' = S (requests w) -> api_failed (upstream (requests w)) = true ->
       l = default [] (_data (cache w))) /\
      (l = [] -> _data (cache w) = None \/ _data (cache w) = Some []))
  /\ api_failed ConnectTimeout = true
  /\ api_failed TransportError = true
  /\ (forall status_code json, 400 <= status_code < 600 ->
        api_failed (HttpResponse status_code json) = true)
  /\ (forall status_code, api_failed (HttpResponse status_code None) = true)
  /\ (forall status_code payload, wrong_shape payload ->
        api_failed (HttpResponse status_code (Some payload)) = true).
Proof.
  split.
  - unfold WeatherService.fetch_weather_data, WeatherService.cache_get,
      WeatherService.cache_should_fetch.
    destruct (_data (cache w)) as [d|] eqn:D.
    + unfold WeatherCache.get. rewrite D.
      match goal with
      | |- context [if ?b && negb force_refresh then _ else _] =>
          destruct (b && negb force_refresh)
      end.
      * eexists _, _. split; [reflexivity|]. simpl. split; [auto|].
        split; [intros E; exfalso; clear -E; lia|]. intros ->. auto.
      * destruct (fetch_and_store_spec (WeatherService.tick (WeatherService.tick w)))
          as (l & w' & E & R & F & Z).
        simpl in R, F, Z. rewrite D in F, Z.
        match goal with
        | |- context [if ?b then _ else _] => destruct b
        end.
        -- destruct (WeatherService.some_nonempty (Some d)) eqn:S.
           ++ eexists _, _. split; [reflexivity|]. simpl. split; [auto|].
              split; [intros E'; exfalso; clear -E'; lia|]. intros ->. auto.
           ++ rewrite E. eexists _, _. split; [reflexivity|]. auto.
        -- rewrite E. eexists _, _. split; [reflexivity|]. auto.
    + cbn [andb].
      destruct (fetch_and_store_spec (WeatherService.tick w)) as (l & w' & E & R & F & Z).
      simpl in R, F, Z. rewrite D in F, Z.
      match goal with
      | |- context [if ?b then _ else _] => destruct b
      end; cbn [WeatherService.some_nonempty]; rewrite E;
        eexists _, _; (split; [reflexivity|]); auto.
  - unfold api_failed, api_result. repeat split; try reflexivity.
    + intros status_code json Hs. simpl. unfold WeatherService.raise_for_status.
      destruct (Z.leb_spec 400 status_code); [|lia].
      destruct (Z.ltb_spec status_code 600); [|lia]. reflexivity.
    + intros status_code. simpl. destruct (WeatherService.raise_for_status status_code);
        reflexivity.
    + intros status_code payload Hw. simpl.
      destruct (WeatherService.raise_for_status status_code); [|reflexivity]. simpl.
      destruct payload as [| | | | |l|d|]; simpl in Hw; try reflexivity; try contradiction.
      destruct (dict_get "data" d) as [[| | | | |l|d'|]|]; try reflexivity; contradiction.
Qed.
End FetchFacts.

(** With non-empty data cached, no forced refresh and should_fetch() false,
    the cached data is returned and no request is made.  [should_fetch] is
    read at the second clock read, after the one of [get]. *)
Lemma backoff_serves_cached_data `{PyRuntime} (clock : nat -> datetime)
      (upstream : nat -> response) (w : world) (d : list pyval) :
  _data (cache w) = Some d -> d <> [] ->
  WeatherCache.should_fetch (clock (S (ticks w))) (cache w) = false ->
  exists w', WeatherService.fetch_weather_data clock upstream false w = (Ok (Some d), w') /\
             requests w' = requests w.
Proof.
  intros D Hne Hs.
  unfold WeatherService.fetch_weather_data, WeatherService.cache_get,
    WeatherService.cache_should_fetch, WeatherCache.get.
  rewrite D.
  match goal with
  | |- context [if ?b && negb false then _ else _] => destruct (b && negb false)
  end.
  - eexists. split; reflexivity.
  - cbn [WeatherService.tick cache ticks]. rewrite Hs. cbn [negb andb].
    destruct d as [|r d]; [contradiction|]. cbn [WeatherService.some_nonempty].
    eexists. split; reflexivity.
Qed.

(** With nothing cached, the call goes upstream although should_fetch() is
    false. *)
Lemma backoff_cold_cache_fetches `{PyRuntime} (clock : nat -> datetime)
      (upstream : nat -> response) (w : world) :
  _data (cache w) = None ->
  WeatherCache.should_fetch (clock (ticks w)) (cache w) = false ->
  requests (snd (WeatherService.fetch_weather_data clock upstream false w)) = S (requests w).
Proof.
  intros D Hs.
  unfold WeatherService.fetch_weather_data, WeatherService.cache_get,
    WeatherService.cache_should_fetch.
  rewrite D. cbn [andb]. rewrite Hs. cbn [negb andb WeatherService.some_nonempty].
  destruct (fetch_and_store_spec clock upstream (WeatherService.tick w))
    as (l & w' & E & R & _).
  rewrite E. exact R.
Qed.

(** C3, as the code has it.  With should_fetch() false and no forced
    refresh, non-empty cached data is returned without an upstream call; with
    nothing cached the upstream call is made. *)
Theorem backoff_returns_cached_when_present `{PyRuntime} (clock : nat -> datetime)
        (upstream : nat -> response) (w : world) :
  WeatherCache.should_fetch
    (clock (ticks (snd (WeatherService.cache_get clock w)))) (cache w) = false ->
  (forall d, _data (cache w) = Some d -> d <> [] ->
     exists w', WeatherService.fetch_weather_data clock upstream false w = (Ok (Some d), w') /\
                requests w' = requests w)
  /\ (_data (cache w) = None ->
      requests (snd (WeatherService.fetch_weather_data clock upstream false w))
      = S (requests w)).
Proof.
  intros Hs. split.
  - intros d D Hne. apply backoff_serves_cached_data; [exact D | exact Hne|].
    unfold WeatherService.cache_get in Hs. rewrite D in Hs. exact Hs.
  - intros D. apply backoff_cold_cache_fetches; [exact D|].
    unfold WeatherService.cache_get in Hs. rewrite D in Hs. exact Hs.
Qed.

(** ** Sanitization *)

Section SanitizeFacts.
Context `{PyRuntime}.

(** C9, at an integer water level beyond the float range: the coercion
    raises OverflowError, which the handler of _sanitize_reading does not
    take. *)
Theorem sanitize_reading_overflow :
  WeatherService._sanitize_reading (PyDict [("WaterLevel", PyInt (2 ^ 1024))])
  = Raise OverflowError.
Proof. reflexivity. Qed.

(** On a field that is present and not null: the float when the coercion
    succeeds, null or 0.0 when it raises ValueError or TypeError. *)
Lemma sanitize_field_spec (reading : dict) (field : string) (v : pyval) :
  dict_get field reading = Some v -> v <> PyNone ->
  (forall f, py_float v = Ok f ->
     WeatherService.sanitize_field reading field = Ok (dict_set field (PyFloat f) reading))
  /\ (py_float v = Raise ValueError \/ py_float v = Raise TypeError ->
      WeatherService.sanitize_field reading field
      = Ok (dict_set field
              (if WeatherService.is_critical field then PyNone else PyFloat (float_of_Z 0))
              reading)).
Proof.
  intros G Hv. unfold WeatherService.sanitize_field. rewrite G.
  assert (N : is_none v = false) by (destruct v; try reflexivity; contradiction).
  rewrite N. split.
  - intros f E. rewrite E. reflexivity.
  - intros [E|E]; rewrite E; destruct (WeatherService.is_critical field); reflexivity.
Qed.

Lemma is_critical_fields :
  WeatherService.is_critical "WaterLevel" = true /\
  WeatherService.is_critical "HourlyRain" = true /\
  WeatherService.is_critical "WindSpeed" = false /\
  WeatherService.is_critical "Temperature" = false /\
  WeatherService.is_critical "Humidity" = false /\
  WeatherService.is_critical "Pressure" = false /\
  WeatherService.is_critical "HeatIndex" = false /\
  WeatherService.is_critical "DailyRain" = false.
Proof. repeat split. Qed.
End SanitizeFacts.

Section FetchRuns.
#[local] Existing Instance SampleRuntime.sample_runtime.

(** The upstream is down and data is cached: the cached list comes back. *)
Lemma fetch_weather_data_never_raises_witness :
  exists (l : list pyval) (w' : world),
    WeatherService.fetch_weather_data (CacheSamples.clock_plus 1000)
      CacheSamples.upstream_down false CacheSamples.fetched_at_0500 = (Ok (Some l), w') /\
    l = [CacheSamples.reading].
Proof.
  destruct (proj1 (fetch_weather_data_never_raises (CacheSamples.clock_plus 1000)
                     CacheSamples.upstream_down false CacheSamples.fetched_at_0500))
    as (l & w' & E & R & F & Z).
  exists l, w'. split; [exact E|]. apply F; [|reflexivity].
  vm_compute in E. injection E as _ <-. reflexivity.
Defined.

(** C2, at data fetched 1000 seconds before a failed fetch: the data is
    served although it is older than the stale window of 300 seconds. *)
Theorem stale_data_served_beyond_window :
  Samples.at_0500 + seconds 300 < CacheSamples.clock_plus 1000 0%nat /\
  _last_success (cache CacheSamples.fetched_at_0500) = Some Samples.at_0500 /\
  _stale_ttl (cache CacheSamples.fetched_at_0500) = seconds 300 /\
  api_failed (CacheSamples.upstream_down 0%nat) = true /\
  fst (WeatherService.fetch_weather_data (CacheSamples.clock_plus 1000)
         CacheSamples.upstream_down false CacheSamples.fetched_at_0500)
  = Ok (Some [CacheSamples.reading]).
Proof. repeat split. Qed.

(** A cold cache in backoff: should_fetch() is false, no refresh is forced,
    and the call goes upstream all the same. *)
Lemma backoff_cold_cache_goes_upstream :
  WeatherCache.should_fetch (CacheSamples.clock_plus 10 0%nat)
    (cache CacheSamples.cold_in_backoff) = false /\
  requests CacheSamples.cold_in_backoff = 0%nat /\
  requests (snd (WeatherService.fetch_weather_data (CacheSamples.clock_plus 10)
                   CacheSamples.upstream_up false CacheSamples.cold_in_backoff)) = 1%nat /\
  fst (WeatherService.fetch_weather_data (CacheSamples.clock_plus 10)
         CacheSamples.upstream_up false CacheSamples.cold_in_backoff)
  = Ok (Some [CacheSamples.reading]).
Proof. repeat split. Qed.

(** In backoff with stale data cached: the data is returned without a
    request. *)
Lemma backoff_returns_cached_when_present_witness :
  exists w', WeatherService.fetch_weather_data (CacheSamples.clock_plus 130)
               CacheSamples.upstream_up false CacheSamples.stale_in_backoff
             = (Ok (Some [CacheSamples.reading]), w') /\
             requests w' = requests CacheSamples.stale_in_backoff.
Proof.
  apply (proj1 (backoff_returns_cached_when_present (CacheSamples.clock_plus 130)
                  CacheSamples.upstream_up CacheSamples.stale_in_backoff eq_refl));
    [reflexivity | discriminate].
Defined.
End FetchRuns.

(** ** Hourly aggregation *)

Lemma hours_unfold (k : Z) : hours k = 3600000000 * k.
Proof. unfold hours, minutes, seconds. lia. Qed.

Section IntervalFacts.
Context `{PyRuntime}.
Variable C : Type.
Variable metric : Reading -> pyval.
Variable valid : float -> bool.
Variable classify : pyval -> result C.
Variable ndigits : Z.

(** The slots starting at [s]: [n] of them from the [a]-th on. *)
Local Abbreviation slots_from s a n :=
  (map (fun k : nat => s + hours (Z.of_nat k)) (seq a n)).

(** The loop stops by its guard: with [n] iterations of fuel and the end
    within the [n]-th hour it lists the [n] slot starts. *)
Lemma intervals_loop_exact (n : nat) (current end_time : datetime) :
  current + hours (Z.of_nat n) - hours 1 <= end_time < current + hours (Z.of_nat n) ->
  IntervalAggregator.intervals_loop n current end_time
  = map (fun k : nat => current + hours (Z.of_nat k)) (seq 0 n).
Proof.
  revert current. induction n as [|n IH]; intros current Hb; [reflexivity|].
  rewrite !hours_unfold in Hb.
  cbn [IntervalAggregator.intervals_loop].
  destruct (Z.leb_spec current end_time); [|lia].
  rewrite IH by (unfold DATA_INTERVAL_HOURS; rewrite !hours_unfold; lia).
  cbn [seq map]. f_equal; [rewrite hours_unfold; lia|].
  rewrite <- seq_shift, map_map. apply map_ext. intros k.
  unfold DATA_INTERVAL_HOURS. rewrite !hours_unfold. lia.
Qed.

(** The fuel of [_create_hourly_intervals] is the number of iterations of
    the loop: the loop ends because its guard fails. *)
Lemma create_hourly_intervals_exact (start_time end_time : datetime) :
  start_time <= end_time ->
  let n := Z.to_nat ((end_time - start_time) / hours DATA_INTERVAL_HOURS + 1) in
  IntervalAggregator._create_hourly_intervals start_time end_time
  = map (fun k : nat => start_time + hours (Z.of_nat k)) (seq 0 n) /\
  end_time < start_time + hours (Z.of_nat n).
Proof.
  intros Hle n. unfold DATA_INTERVAL_HOURS in n.
  assert (Hh : hours 1 = 3600000000) by reflexivity.
  pose proof (Z.div_pos (end_time - start_time) (hours 1)) as Hq.
  pose proof (Z.mul_div_le (end_time - start_time) (hours 1)) as Hlo.
  pose proof (Z.mul_succ_div_gt (end_time - start_time) (hours 1)) as Hhi.
  rewrite Hh in Hq, Hlo, Hhi.
  assert (Hn : Z.of_nat n = (end_time - start_time) / 3600000000 + 1).
  { subst n. rewrite Hh. rewrite Z2Nat.id; lia. }
  split.
  - unfold IntervalAggregator._create_hourly_intervals, DATA_INTERVAL_HOURS. fold n.
    apply intervals_loop_exact. rewrite !hours_unfold, Hn. lia.
  - rewrite hours_unfold, Hn. lia.
Qed.

(** The 24 slots of the day of [display_date]. *)
Lemma create_hourly_intervals_day (display_date : datetime) :
  IntervalAggregator._create_hourly_intervals
    (replace_hour display_date START_HOUR) (replace_hour display_date END_HOUR)
  = slots_from (replace_hour display_date START_HOUR) 0 24.
Proof.
  unfold IntervalAggregator._create_hourly_intervals, replace_hour, START_HOUR, END_HOUR,
    DATA_INTERVAL_HOURS.
  replace ((date display_date * one_day + hours 23 - (date display_date * one_day + hours 0))
           / hours 1 + 1) with 24.
  - apply intervals_loop_exact. rewrite !hours_unfold. simpl. lia.
  - replace (date display_date * one_day + hours 23 - (date display_date * one_day + hours 0))
      with (hours 23) by (rewrite !hours_unfold; lia).
    reflexivity.
Qed.


(** An instant before the first slot or at or after the end of the last one
    is in no slot. *)
Lemma find_interval_outside (s t : datetime) (n a : nat) :
  t < s + hours (Z.of_nat a) \/ s + hours (Z.of_nat a + Z.of_nat n) <= t ->
  IntervalAggregator.find_interval t (slots_from s a n) = None.
Proof.
  revert a. induction n as [|n IH]; intros a Ht; [reflexivity|].
  cbn [seq map IntervalAggregator.find_interval].
  rewrite !hours_unfold in Ht |- *.
  rewrite IH by (rewrite !hours_unfold; lia).
  destruct (Z.leb_spec (s + 3600000000 * Z.of_nat a) t);
    destruct (Z.ltb_spec t (s + 3600000000 * Z.of_nat a + 3600000000 * 1));
    try reflexivity; lia.
Qed.
Local Abbreviation group_step := (IntervalAggregator.group_step metric valid).
Local Abbreviation group_loop := (IntervalAggregator.group_loop metric valid).
Local Abbreviation day_intervals d :=
  (IntervalAggregator._create_hourly_intervals
     (replace_hour d START_HOUR) (replace_hour d END_HOUR)).

Lemma replace_hour_end (d : datetime) :
  replace_hour d END_HOUR + hours 1 = replace_hour d START_HOUR + hours 24.
Proof. unfold replace_hour, START_HOUR, END_HOUR. rewrite !hours_unfold. lia. Qed.


Lemma group_loop_app (intervals : list datetime) (start_time end_time : datetime)
      (xs ys : list Reading) (station_data : gmap string (gmap Z (list float))) :
  group_loop intervals start_time end_time station_data (xs ++ ys)
  = rbind (group_loop intervals start_time end_time station_data xs)
          (fun station_data' => group_loop intervals start_time end_time station_data' ys).
Proof.
  revert station_data. induction xs as [|x xs IH]; intros station_data; [reflexivity|].
  cbn [app IntervalAggregator.group_loop].
  destruct (group_step intervals start_time end_time station_data x); [apply IH | reflexivity].
Qed.

(** A reading at the end of the last slot passes the window test, is in no
    slot and leaves the buckets as they are. *)
Lemma group_step_end_of_day (d : datetime) (station_data : gmap string (gmap Z (list float)))
      (reading : Reading) :
  IntervalAggregator._parse_timestamp (IntervalAggregator.timestamp_str reading)
  = Some (replace_hour d END_HOUR + hours 1) ->
  py_float (metric reading) <> Raise OverflowError ->
  group_step (day_intervals d) (replace_hour d START_HOUR) (replace_hour d END_HOUR)
             station_data reading
  = Ok station_data.
Proof.
  intros Hp Hno. unfold IntervalAggregator.group_step. rewrite Hp.
  rewrite create_hourly_intervals_day.
  rewrite (find_interval_outside _ _ 24 0)
    by (right; rewrite replace_hour_end; apply Z.le_refl).
  destruct (negb _); [reflexivity|].
  destruct (StationID reading) as [sid|]; [|reflexivity].
  destruct (String.eqb sid "" || is_none (metric reading)); [reflexivity|].
  destruct (py_float (metric reading)) as [f|e] eqn:E.
  - destruct (negb (valid f)); reflexivity.
  - destruct (py_float_raises _ _ E) as [->|[->| ->]]; [| |contradiction]; reflexivity.
Qed.

Lemma window_holds_end_of_day (d : datetime) :
  (replace_hour d START_HOUR <=? replace_hour d END_HOUR + hours 1)
  && (replace_hour d END_HOUR + hours 1 <=? replace_hour d END_HOUR + hours 1) = true.
Proof.
  rewrite Z.leb_refl, andb_true_r. apply Z.leb_le.
  rewrite replace_hour_end, hours_unfold. lia.
Qed.

Lemma bucket_append_same (station_data : gmap string (gmap Z (list float)))
      (sid : string) (it : datetime) (v : float) :
  bucket (bucket_append station_data sid it v) sid it
  = (bucket station_data sid it ++ [v])%list.
Proof.
  unfold bucket, bucket_append. rewrite lookup_insert_eq. simpl.
  rewrite lookup_insert_eq. reflexivity.
Qed.

Lemma bucket_append_other_slot (station_data : gmap string (gmap Z (list float)))
      (sid : string) (it it' : datetime) (v : float) :
  it <> it' ->
  bucket (bucket_append station_data sid it v) sid it' = bucket station_data sid it'.
Proof.
  intros Hne. unfold bucket, bucket_append. rewrite lookup_insert_eq. simpl.
  rewrite lookup_insert_ne by exact Hne. reflexivity.
Qed.

Lemma bucket_append_other_station (station_data : gmap string (gmap Z (list float)))
      (sid sid' : string) (it it' : datetime) (v : float) :
  sid <> sid' ->
  bucket (bucket_append station_data sid it v) sid' it' = bucket station_data sid' it'.
Proof.
  intros Hne. unfold bucket, bucket_append. rewrite lookup_insert_ne by exact Hne.
  reflexivity.
Qed.

Local Abbreviation format_interval :=
  (IntervalAggregator._format_interval_data_with_labels C classify ndigits).

(** The classifier returns on every average. *)
Hypothesis classify_total :
  forall values, exists c, classify (IntervalAggregator.average values) = Ok c.


Local Abbreviation format_sites :=
  (IntervalAggregator.format_sites C classify ndigits).



End IntervalFacts.


Section ServiceFacts.
Context `{PyRuntime}.






End ServiceFacts.

Section BoundaryFacts.
Context `{PyRuntime}.



(** Dropping a reading that changes no bucket. *)
Lemma group_skip (metric : Reading -> pyval) (valid : float -> bool)
      (intervals : list datetime) (start_time end_time : datetime) (reading : Reading) :
  (forall station_data,
      IntervalAggregator.group_step metric valid intervals start_time end_time
        station_data reading = Ok station_data) ->
  forall before after,
    IntervalAggregator._group_readings_by_station_and_interval metric valid
      (before ++ reading :: after) intervals start_time end_time
    = IntervalAggregator._group_readings_by_station_and_interval metric valid
        (before ++ after) intervals start_time end_time.
Proof.
  intros Hskip before after.
  unfold IntervalAggregator._group_readings_by_station_and_interval.
  rewrite !group_loop_app.
  destruct (IntervalAggregator.group_loop metric valid intervals start_time end_time ∅ before)
    as [station_data|e]; [|reflexivity].
  cbn [rbind IntervalAggregator.group_loop]. rewrite Hskip. reflexivity.
Qed.

(** C10.  A reading at the end of the last slot (slot 23 start plus one
    hour) passes the window test, is in no slot, and the buckets, hence the
    points computed from them, are those of the other readings. *)
Theorem end_of_day_reading_dropped (d : datetime) (reading : Reading) :
  let start_time := replace_hour d START_HOUR in
  let end_time := replace_hour d END_HOUR in
  let intervals := IntervalAggregator._create_hourly_intervals start_time end_time in
  let t := end_time + hours 1 in
  IntervalAggregator._parse_timestamp (IntervalAggregator.timestamp_str reading) = Some t ->
  (start_time <=? t) && (t <=? end_time + hours 1) = true /\
  IntervalAggregator.find_interval t intervals = None /\
  (py_float (HourlyRain reading) <> Raise OverflowError ->
   forall before after,
     PrecipitationService._group_readings_by_station_and_interval
       (before ++ reading :: after) intervals start_time end_time
     = PrecipitationService._group_readings_by_station_and_interval
         (before ++ after) intervals start_time end_time /\
     forall sites now,
       PrecipitationService.get_24hour_intervals_per_station
         (before ++ reading :: after) sites (Some d) now
       = PrecipitationService.get_24hour_intervals_per_station
           (before ++ after) sites (Some d) now) /\
  (py_float (WaterLevel reading) <> Raise OverflowError ->
   forall before after,
     WaterLevelService._group_readings_by_station_and_interval
       (before ++ reading :: after) intervals start_time end_time
     = WaterLevelService._group_readings_by_station_and_interval
         (before ++ after) intervals start_time end_time /\
     forall sites now,
       WaterLevelService.get_24hour_intervals_per_station
         (before ++ reading :: after) sites (Some d) now
       = WaterLevelService.get_24hour_intervals_per_station
           (before ++ after) sites (Some d) now).
Proof.
  intros start_time end_time intervals t Hp.
  split; [apply window_holds_end_of_day|].
  split.
  { subst intervals start_time end_time t. rewrite create_hourly_intervals_day.
    apply (find_interval_outside _ _ 24 0). right. rewrite replace_hour_end.
    apply Z.le_refl. }
  split; intros Hno before after.
  - assert (Hg : PrecipitationService._group_readings_by_station_and_interval
                   (before ++ reading :: after) intervals start_time end_time
                 = PrecipitationService._group_readings_by_station_and_interval
                     (before ++ after) intervals start_time end_time).
    { apply group_skip. intros station_data.
      apply group_step_end_of_day; assumption. }
    split; [exact Hg|]. intros sites now.
    unfold PrecipitationService.get_24hour_intervals_per_station,
      IntervalAggregator.get_24hour_intervals_per_station.
    cbn [IntervalAggregator.display_date_of].
    unfold PrecipitationService._group_readings_by_station_and_interval in Hg.
    subst intervals start_time end_time. rewrite Hg. reflexivity.
  - assert (Hg : WaterLevelService._group_readings_by_station_and_interval
                   (before ++ reading :: after) intervals start_time end_time
                 = WaterLevelService._group_readings_by_station_and_interval
                     (before ++ after) intervals start_time end_time).
    { apply group_skip. intros station_data.
      apply group_step_end_of_day; assumption. }
    split; [exact Hg|]. intros sites now.
    unfold WaterLevelService.get_24hour_intervals_per_station,
      IntervalAggregator.get_24hour_intervals_per_station.
    cbn [IntervalAggregator.display_date_of].
    unfold WaterLevelService._group_readings_by_station_and_interval in Hg.
    subst intervals start_time end_time. rewrite Hg. reflexivity.
Qed.
End BoundaryFacts.

Section AggregationRuns.
#[local] Existing Instance SampleRuntime.sample_runtime.



(** A reading at midnight of the next day changes nothing. *)
Lemma end_of_day_reading_dropped_witness :
  IntervalAggregator.find_interval (replace_hour Samples.at_0500 END_HOUR + hours 1)
    (IntervalAggregator._create_hourly_intervals
       (replace_hour Samples.at_0500 START_HOUR) (replace_hour Samples.at_0500 END_HOUR))
  = None /\
  PrecipitationService.get_24hour_intervals_per_station
    ([ReadingSamples.on_the_hour] ++ ReadingSamples.next_midnight :: [])
    SiteConfig.SITES (Some Samples.at_0500) 0
  = PrecipitationService.get_24hour_intervals_per_station
      ([ReadingSamples.on_the_hour] ++ [])
      SiteConfig.SITES (Some Samples.at_0500) 0.
Proof.
  destruct (end_of_day_reading_dropped Samples.at_0500 ReadingSamples.next_midnight)
    as (_ & Hf & HP & _); [reflexivity|].
  split; [exact Hf|].
  apply (HP ltac:(discriminate) [ReadingSamples.on_the_hour] []).
Defined.
End AggregationRuns.

(** ** Sanitization without overflow *)

Section SanitizeTotal.
Context `{PyRuntime}.

Lemma dict_get_set_ne (k k' : string) (v : pyval) (d : dict) :
  k <> k' -> dict_get k' (dict_set k v d) = dict_get k' d.
Proof.
  intros Hne. induction d as [|[k0 v0] d IH]; simpl.
  - destruct (String.eqb_spec k' k); [congruence | reflexivity].
  - destruct (String.eqb_spec k k0) as [->|Hk]; simpl.
    + destruct (String.eqb_spec k' k0); [congruence | reflexivity].
    + destruct (String.eqb_spec k' k0); [reflexivity | exact IH].
Qed.

(** One field: the step returns unless the coercion overflows, and it
    leaves the other keys alone. *)
Lemma sanitize_field_total (reading : dict) (field : string) :
  (forall v, dict_get field reading = Some v -> py_float v <> Raise OverflowError) ->
  exists reading',
    WeatherService.sanitize_field reading field = Ok reading' /\
    forall k, k <> field -> dict_get k reading' = dict_get k reading.
Proof.
  intros Hno. unfold WeatherService.sanitize_field.
  destruct (dict_get field reading) as [v|] eqn:G; [|eauto].
  destruct (is_none v); [eauto|].
  destruct (py_float v) as [f|e] eqn:E.
  - eexists. split; [reflexivity|]. intros k Hk. apply dict_get_set_ne. congruence.
  - destruct (py_float_raises _ _ E) as [->|[->| ->]].
    + destruct (WeatherService.is_critical field);
        (eexists; split; [reflexivity|]; intros k Hk; apply dict_get_set_ne; congruence).
    + destruct (WeatherService.is_critical field);
        (eexists; split; [reflexivity|]; intros k Hk; apply dict_get_set_ne; congruence).
    + exfalso. apply (Hno v); [reflexivity | exact E].
Qed.

Lemma sanitize_fields_total (fields : list string) (reading : dict) :
  NoDup fields ->
  (forall field v, In field fields -> dict_get field reading = Some v ->
                   py_float v <> Raise OverflowError) ->
  exists reading', WeatherService.sanitize_fields reading fields = Ok reading'.
Proof.
  intros Hnd. revert reading.
  induction Hnd as [|field fields Hnotin _ IH]; intros reading Hno; [simpl; eauto|].
  cbn [WeatherService.sanitize_fields].
  destruct (sanitize_field_total reading field) as (reading' & -> & Hsame).
  { intros v. apply Hno. left. reflexivity. }
  cbn [rbind]. apply IH. intros field' v Hin Hg.
  apply (Hno field' v); [right; exact Hin|].
  rewrite <- Hsame; [exact Hg|].
  intros ->. apply Hnotin. apply list_elem_of_In. exact Hin.
Qed.

(** A reading none of whose numeric fields overflows float() is sanitized
    without an exception. *)
Lemma sanitize_reading_total (reading : dict) :
  (forall field v, In field WeatherService.float_fields ->
                   dict_get field reading = Some v -> py_float v <> Raise OverflowError) ->
  exists reading', WeatherService._sanitize_reading (PyDict reading) = Ok (PyDict reading').
Proof.
  intros Hno. cbn [WeatherService._sanitize_reading]. unfold WeatherService.sanitize_dict.
  destruct (sanitize_fields_total WeatherService.float_fields reading) as [reading' ->];
    [|exact Hno|cbn [rbind]; eauto].
  unfold WeatherService.float_fields.
  repeat (apply NoDup_cons_2; [rewrite list_elem_of_In; simpl; intuition discriminate|]).
  apply NoDup_nil_2.
Qed.
End SanitizeTotal.

(** * Further properties *)

(** ** The cache between calls *)

(** X1.  After set() with non-empty data and success, from any cache state:
    get() returns that data with the instant of the call as last success,
    fresh exactly while less than the TTL has passed; the error counter and
    the backoff are cleared; should_fetch() is the negation of the freshness
    flag; get_stale_data() returns the data. *)
Theorem set_then_get (self : WeatherCache) (data : list pyval) (now later : datetime) :
  data <> [] ->
  let c := WeatherCache.set now data true self in
  WeatherCache.get later c = (Some data, later - now <? _ttl self, Some now) /\
  _fetch_errors c = 0 /\ _backoff_until c = None /\
  WeatherCache.should_fetch later c = negb (later - now <? _ttl self) /\
  WeatherCache.get_stale_data later c = Some data.
Proof.
  intros Hne c. subst c. destruct data as [|r data]; [contradiction|].
  unfold WeatherCache.set, WeatherCache.get, WeatherCache.should_fetch,
    WeatherCache.in_backoff. cbn.
  repeat split; try reflexivity.
  - destruct (Z.ltb_spec (later - now) (_ttl self));
      destruct (Z.leb_spec (_ttl self) (later - now)); try reflexivity; lia.
  - destruct (later - now <? _stale_ttl self); reflexivity.
Qed.

Lemma set_then_get_witness :
  let c := WeatherCache.set 0 [CacheSamples.reading] true
             (record_errors [0; 0; 0] (WeatherCache.__init__ 60 300)) in
  WeatherCache.get (seconds 59) c = (Some [CacheSamples.reading], true, Some 0) /\
  _fetch_errors c = 0 /\ _backoff_until c = None /\
  WeatherCache.should_fetch (seconds 59) c = false /\
  WeatherCache.get_stale_data (seconds 59) c = Some [CacheSamples.reading].
Proof.
  apply (set_then_get (record_errors [0; 0; 0] (WeatherCache.__init__ 60 300))
           [CacheSamples.reading] 0 (seconds 59)).
  discriminate.
Defined.

(** X2.  Fewer than three consecutive errors, from a cache with no errors
    and no backoff, start no backoff and leave should_fetch() as it was. *)
Theorem no_backoff_before_third_error (c0 : WeatherCache) (times : list datetime) :
  _fetch_errors c0 = 0 -> _backoff_until c0 = None ->
  _max_errors_before_backoff c0 = 3 ->
  (length times < 3)%nat ->
  _backoff_until (record_errors times c0) = None /\
  forall now, WeatherCache.should_fetch now (record_errors times c0)
              = WeatherCache.should_fetch now c0.
Proof.
  intros E0 B0 M0 Hlen.
  assert (Hb : _backoff_until (record_errors times c0) = None).
  { destruct times as [|t1 [|t2 [|t3 times]]]; simpl in Hlen; try lia;
      cbn; rewrite ?E0, ?M0, ?B0; reflexivity. }
  split; [exact Hb|]. intros now.
  destruct (record_errors_counts times c0) as (_ & _ & L & T & _).
  unfold WeatherCache.should_fetch, WeatherCache.in_backoff.
  rewrite Hb, B0, L, T. reflexivity.
Qed.

Lemma no_backoff_before_third_error_witness :
  _backoff_until (record_errors [0; seconds 5] (WeatherCache.__init__ 60 300)) = None /\
  forall now, WeatherCache.should_fetch now
                (record_errors [0; seconds 5] (WeatherCache.__init__ 60 300))
              = WeatherCache.should_fetch now (WeatherCache.__init__ 60 300).
Proof.
  apply (no_backoff_before_third_error (WeatherCache.__init__ 60 300) [0; seconds 5]);
    [reflexivity | reflexivity | reflexivity | simpl; lia].
Defined.

Lemma pow2_ge (k : Z) : 3 <= k -> 8 <= 2 ^ k.
Proof.
  intros Hk. change 8 with (2 ^ 3). apply Z.pow_le_mono_r; lia.
Qed.

(** X3.  The backoff grows with the number of consecutive errors and is
    capped: 60 s at the third error, never shorter, never longer than 300 s,
    and 300 s from the sixth error on. *)
Theorem backoff_seconds_bounds (n m : Z) :
  3 <= n <= m ->
  60 <= WeatherCache.backoff_seconds n 3 /\
  WeatherCache.backoff_seconds n 3 <= WeatherCache.backoff_seconds m 3 /\
  WeatherCache.backoff_seconds m 3 <= 300 /\
  WeatherCache.backoff_seconds 3 3 = 60 /\
  (6 <= n -> WeatherCache.backoff_seconds n 3 = 300).
Proof.
  intros Hnm. unfold WeatherCache.backoff_seconds.
  assert (0 < 2 ^ (n - 3)) by (apply Z.pow_pos_nonneg; lia).
  assert (2 ^ (n - 3) <= 2 ^ (m - 3)) by (apply Z.pow_le_mono_r; lia).
  repeat split; try lia; try reflexivity.
  intros H6. pose proof (pow2_ge (n - 3)). lia.
Qed.

Lemma backoff_seconds_bounds_witness :
  60 <= WeatherCache.backoff_seconds 4 3 /\
  WeatherCache.backoff_seconds 4 3 <= WeatherCache.backoff_seconds 7 3 /\
  WeatherCache.backoff_seconds 7 3 <= 300 /\
  WeatherCache.backoff_seconds 3 3 = 60 /\
  (6 <= 4 -> WeatherCache.backoff_seconds 4 3 = 300).
Proof. apply (backoff_seconds_bounds 4 7). lia. Defined.

(** ** One call of fetch_weather_data *)

Section FetchCases.
Context `{PyRuntime}.
Variable clock : nat -> datetime.
Variable upstream : nat -> response.

Local Abbreviation fetch_weather_data := (WeatherService.fetch_weather_data clock upstream).
Local Abbreviation fetch_and_store := (WeatherService.fetch_and_store clock upstream).

Lemma api_failed_iff (r : response) :
  api_failed r = false <-> exists l, api_result r = Some l /\ l <> [].
Proof.
  unfold api_failed. destruct (api_result r) as [[|x l]|]; simpl; split;
    try discriminate; try (intros (l' & E & Hne); congruence).
  intros _. eexists. split; [reflexivity | discriminate].
Qed.

(** The upstream call succeeded: the payload is stored with set(). *)
Lemma fetch_and_store_success (w : world) (l : list pyval) :
  api_result (upstream (requests w)) = Some l -> l <> [] ->
  fetch_and_store w =
    (Ok (Some l),
     {| cache := WeatherCache.set (clock (ticks w)) l true (cache w);
        ticks := S (ticks w); requests := S (requests w) |}).
Proof.
  intros E Hne. unfold WeatherService.fetch_and_store.
  rewrite fetch_from_api_returns, E.
  destruct l as [|x l]; [contradiction|]. reflexivity.
Qed.

(** The upstream call failed: one record_error(), then the stored data. *)
Lemma fetch_and_store_failure (w : world) :
  api_failed (upstream (requests w)) = true ->
  exists w',
    fetch_and_store w = (Ok (Some (default [] (_data (cache w)))), w') /\
    cache w' = WeatherCache.record_error (clock (ticks w)) (cache w) /\
    requests w' = S (requests w).
Proof.
  intros F. unfold WeatherService.fetch_and_store. rewrite fetch_from_api_returns.
  unfold api_failed in F. apply negb_true_iff in F. rewrite F.
  set (w3 := {| cache := cache w; ticks := ticks w; requests := S (requests w) |}).
  assert (C4 : cache (WeatherService.cache_record_error clock w3)
               = WeatherCache.record_error (clock (ticks w)) (cache w)).
  { unfold WeatherService.cache_record_error. destruct (_ <=? _); reflexivity. }
  assert (R4 : requests (WeatherService.cache_record_error clock w3) = S (requests w)).
  { unfold WeatherService.cache_record_error. destruct (_ <=? _); reflexivity. }
  set (w4 := WeatherService.cache_record_error clock w3) in *.
  assert (D4 : _data (cache w4) = _data (cache w)) by (rewrite C4; reflexivity).
  unfold WeatherService.cache_get_stale_data. rewrite D4.
  destruct (_data (cache w)) as [d|] eqn:D.
  - rewrite get_stale_data_any_age, D4.
    destruct d as [|x d]; cbn [WeatherService.some_nonempty default];
      eexists; (split; [reflexivity|]); split; assumption.
  - cbn [WeatherService.some_nonempty default].
    eexists; (split; [reflexivity|]); split; assumption.
Qed.

(** A call either serves the cached data and leaves cache and request count
    alone, or continues with the upstream call after one or two clock
    reads. *)
Lemma fetch_weather_data_cases (force_refresh : bool) (w : world) :
  (force_refresh = false /\
   exists d w', _data (cache w) = Some d /\
                fetch_weather_data force_refresh w = (Ok (Some d), w') /\
                cache w' = cache w /\ requests w' = requests w)
  \/ fetch_weather_data force_refresh w = fetch_and_store (WeatherService.tick w)
  \/ fetch_weather_data force_refresh w
     = fetch_and_store (WeatherService.tick (WeatherService.tick w)).
Proof.
  unfold WeatherService.fetch_weather_data, WeatherService.cache_get,
    WeatherService.cache_should_fetch.
  destruct (_data (cache w)) as [d|] eqn:D.
  - unfold WeatherCache.get. rewrite D.
    destruct force_refresh.
    + rewrite !andb_false_r. right. right. reflexivity.
    + rewrite !andb_true_r.
      match goal with
      | |- context [if ?b then (Ok (Some d), _) else _] => destruct b
      end.
      * left. split; [reflexivity|]. eexists _, _. split; [reflexivity|].
        split; [reflexivity|]. split; reflexivity.
      * match goal with
        | |- context [if negb ?b then _ else _] => destruct b
        end; cbn [negb].
        -- right. right. reflexivity.
        -- destruct (WeatherService.some_nonempty (Some d)).
           ++ left. split; [reflexivity|]. eexists _, _. split; [reflexivity|].
              split; [reflexivity|]. split; reflexivity.
           ++ right. right. reflexivity.
  - cbn [andb]. right. left.
    match goal with
    | |- context [if ?b then _ else _] => destruct b
    end; reflexivity.
Qed.

Lemma set_data (now : datetime) (l : list pyval) (success : bool) (c : WeatherCache) :
  _data (WeatherCache.set now l success c) = Some l.
Proof. unfold WeatherCache.set. destruct (success && _); reflexivity. Qed.

(** X4.  What fetch_weather_data returns is what the cache holds after the
    call, an empty or missing cache reading as the empty list. *)
Theorem fetch_returns_cache_content (force_refresh : bool) (w : world) :
  exists (l : list pyval) (w' : world),
    fetch_weather_data force_refresh w = (Ok (Some l), w') /\
    l = default [] (_data (cache w')).
Proof.
  assert (Hstore : forall w0, exists l w',
             fetch_and_store w0 = (Ok (Some l), w') /\ l = default [] (_data (cache w'))).
  { intros w0. destruct (api_failed (upstream (requests w0))) eqn:F.
    - destruct (fetch_and_store_failure w0 F) as (w' & E & C & _).
      eexists _, w'. split; [exact E|]. rewrite C. reflexivity.
    - apply api_failed_iff in F. destruct F as (l & E & Hne).
      eexists _, _. split; [apply (fetch_and_store_success w0 l E Hne)|].
      cbn [cache]. rewrite set_data. reflexivity. }
  destruct (fetch_weather_data_cases force_refresh w)
    as [(_ & d & w' & D & E & C & _)|[E|E]].
  - exists d, w'. split; [exact E|]. rewrite C, D. reflexivity.
  - rewrite E. apply Hstore.
  - rewrite E. apply Hstore.
Qed.

(** X5.  A call that made an upstream request: on a non-empty payload it
    returns the sanitized payload and the cache is as after set() at a clock
    read; otherwise it returns the stored data, the cache is as after one
    record_error() and the stored data is kept. *)
Theorem attempt_outcome (force_refresh : bool) (w : world) :
  requests (snd (fetch_weather_data force_refresh w)) = S (requests w) ->
  (forall l, api_result (upstream (requests w)) = Some l -> l <> [] ->
     fst (fetch_weather_data force_refresh w) = Ok (Some l) /\
     exists k, cache (snd (fetch_weather_data force_refresh w))
               = WeatherCache.set (clock k) l true (cache w))
  /\
  (api_failed (upstream (requests w)) = true ->
     fst (fetch_weather_data force_refresh w) = Ok (Some (default [] (_data (cache w)))) /\
     _data (cache (snd (fetch_weather_data force_refresh w))) = _data (cache w) /\
     _fetch_errors (cache (snd (fetch_weather_data force_refresh w)))
     = _fetch_errors (cache w) + 1 /\
     exists k, cache (snd (fetch_weather_data force_refresh w))
               = WeatherCache.record_error (clock k) (cache w)).
Proof.
  intros Hreq.
  assert (Hstore : forall w0, cache w0 = cache w -> requests w0 = requests w ->
            fetch_weather_data force_refresh w = fetch_and_store w0 ->
            (forall l, api_result (upstream (requests w)) = Some l -> l <> [] ->
               fst (fetch_weather_data force_refresh w) = Ok (Some l) /\
               exists k, cache (snd (fetch_weather_data force_refresh w))
                         = WeatherCache.set (clock k) l true (cache w))
            /\
            (api_failed (upstream (requests w)) = true ->
               fst (fetch_weather_data force_refresh w)
               = Ok (Some (default [] (_data (cache w)))) /\
               _data (cache (snd (fetch_weather_data force_refresh w))) = _data (cache w) /\
               _fetch_errors (cache (snd (fetch_weather_data force_refresh w)))
               = _fetch_errors (cache w) + 1 /\
               exists k, cache (snd (fetch_weather_data force_refresh w))
                         = WeatherCache.record_error (clock k) (cache w))).
  { intros w0 C0 R0 E. rewrite E. split.
    - intros l A Hne. rewrite <- R0 in A.
      rewrite (fetch_and_store_success w0 l A Hne). cbn [fst snd cache].
      split; [reflexivity|]. exists (ticks w0). rewrite C0. reflexivity.
    - intros F. rewrite <- R0 in F.
      destruct (fetch_and_store_failure w0 F) as (w' & -> & C & _).
      cbn [fst snd]. rewrite C, C0. split; [reflexivity|].
      split; [reflexivity|]. split; [reflexivity|]. exists (ticks w0). reflexivity. }
  destruct (fetch_weather_data_cases force_refresh w)
    as [(_ & d & w' & D & E & C & R)|[E|E]].
  - rewrite E in Hreq. cbn [snd] in Hreq. lia.
  - apply (Hstore (WeatherService.tick w)); [reflexivity | reflexivity | exact E].
  - apply (Hstore (WeatherService.tick (WeatherService.tick w)));
      [reflexivity | reflexivity | exact E].
Qed.

(** X6.  A forced refresh makes exactly one upstream request, whatever the
    freshness of the cache and whether or not a backoff is active. *)
Theorem forced_refresh_always_requests (w : world) :
  requests (snd (fetch_weather_data true w)) = S (requests w).
Proof.
  assert (Hstore : forall w0, requests (snd (fetch_and_store w0)) = S (requests w0)).
  { intros w0. destruct (fetch_and_store_spec clock upstream w0) as (l & w' & -> & R & _).
    exact R. }
  destruct (fetch_weather_data_cases true w) as [(Hf & _)|[E|E]];
    [discriminate | rewrite E, Hstore; reflexivity | rewrite E, Hstore; reflexivity].
Qed.

(** X7.  With data cached and the last fetch less than the TTL ago, a call
    that does not force a refresh returns the cached data and changes
    nothing but the count of clock reads. *)
Theorem fresh_cache_served_without_request (w : world) (d : list pyval) (t : datetime) :
  _data (cache w) = Some d -> _last_fetch (cache w) = Some t ->
  clock (ticks w) - t < _ttl (cache w) ->
  fetch_weather_data false w = (Ok (Some d), WeatherService.tick w).
Proof.
  intros D L Hfresh.
  unfold WeatherService.fetch_weather_data, WeatherService.cache_get, WeatherCache.get.
  rewrite D, L. destruct (Z.ltb_spec (clock (ticks w) - t) (_ttl (cache w))); [|lia].
  reflexivity.
Qed.
End FetchCases.

Section FetchSequences.
Context `{PyRuntime}.
Variable clock : nat -> datetime.
Variable upstream : nat -> response.

Local Abbreviation fetch_weather_data := (WeatherService.fetch_weather_data clock upstream).

(** A forced refresh on a cache that holds data reads the clock in get()
    and in should_fetch(); when the upstream fails, record_error() is called
    at the next clock read. *)
Lemma forced_refresh_failure_at (w : world) (d : list pyval) :
  _data (cache w) = Some d ->
  api_failed (upstream (requests w)) = true ->
  cache (snd (fetch_weather_data true w))
  = WeatherCache.record_error (clock (S (S (ticks w)))) (cache w) /\
  requests (snd (fetch_weather_data true w)) = S (requests w).
Proof.
  intros D F.
  assert (E : fetch_weather_data true w
              = WeatherService.fetch_and_store clock upstream
                  (WeatherService.tick (WeatherService.tick w))).
  { unfold WeatherService.fetch_weather_data, WeatherService.cache_get,
      WeatherService.cache_should_fetch, WeatherCache.get.
    rewrite D, !andb_false_r. reflexivity. }
  rewrite E.
  destruct (fetch_and_store_failure clock upstream
              (WeatherService.tick (WeatherService.tick w)) F) as (w' & -> & C & R).
  split; [exact C | exact R].
Qed.

(** X8.  Three forced refreshes in a row against an upstream that fails,
    on a cache that holds data: three requests are made, and the backoff
    ends 60 seconds after the instant that record_error() reads at the third
    failure (the third clock read of the third call, after those of get()
    and should_fetch()); while it lasts, a call that does not force a
    refresh returns the cached data and makes no request. *)
Theorem three_failures_stop_requests (w : world) (d : list pyval) :
  (forall k, api_failed (upstream k) = true) ->
  _data (cache w) = Some d -> d <> [] ->
  _fetch_errors (cache w) = 0 -> _max_errors_before_backoff (cache w) = 3 ->
  let w2 := snd (fetch_weather_data true (snd (fetch_weather_data true w))) in
  let w3 := snd (fetch_weather_data true w2) in
  let third_failure := clock (S (S (ticks w2))) in
  requests w3 = S (S (S (requests w))) /\
  _backoff_until (cache w3) = Some (third_failure + seconds 60) /\
  (clock (S (ticks w3)) < third_failure + seconds 60 ->
   exists w4, fetch_weather_data false w3 = (Ok (Some d), w4) /\
              requests w4 = requests w3).
Proof.
  intros Hdown D Hne E0 M0 w2 w3 third_failure.
  destruct (forced_refresh_failure_at w d D (Hdown _)) as (C1 & R1).
  set (w1 := snd (fetch_weather_data true w)) in *.
  assert (D1 : _data (cache w1) = Some d).
  { rewrite C1.
    destruct (record_errors_counts [clock (S (S (ticks w)))] (cache w))
      as (_ & _ & _ & _ & Hd). exact (eq_trans Hd D). }
  destruct (forced_refresh_failure_at w1 d D1 (Hdown _)) as (C2 & R2).
  fold w2 in C2, R2.
  assert (D2 : _data (cache w2) = Some d).
  { rewrite C2.
    destruct (record_errors_counts [clock (S (S (ticks w1)))] (cache w1))
      as (_ & _ & _ & _ & Hd). exact (eq_trans Hd D1). }
  destruct (forced_refresh_failure_at w2 d D2 (Hdown _)) as (C3 & R3).
  fold w3 in C3, R3. fold third_failure in C3.
  assert (Hc : cache w3
               = record_errors [clock (S (S (ticks w))); clock (S (S (ticks w1)));
                                third_failure] (cache w)).
  { rewrite C3, C2, C1. reflexivity. }
  assert (Hb : _backoff_until (cache w3) = Some (third_failure + seconds 60)).
  { rewrite Hc. cbn. rewrite E0, M0. reflexivity. }
  split; [rewrite R3, R2, R1; reflexivity|].
  split; [exact Hb|]. intros Hin.
  apply backoff_serves_cached_data; [|exact Hne|].
  - rewrite Hc.
    destruct (record_errors_counts [clock (S (S (ticks w))); clock (S (S (ticks w1)));
                                    third_failure] (cache w))
      as (_ & _ & _ & _ & ->). exact D.
  - unfold WeatherCache.should_fetch, WeatherCache.in_backoff. rewrite Hb.
    destruct (Z.ltb_spec (clock (S (ticks w3))) (third_failure + seconds 60));
      [reflexivity|lia].
Qed.

Lemma sanitize_all_raises (l : list pyval) (x : pyval) (e : exn) :
  In x l -> WeatherService._sanitize_reading x = Raise e ->
  exists e', WeatherService.sanitize_all l = Raise e'.
Proof.
  induction l as [|r l IH]; [intros []|]. intros [<-|Hin] Hx.
  - cbn [WeatherService.sanitize_all]. rewrite Hx. eauto.
  - cbn [WeatherService.sanitize_all].
    destruct (WeatherService._sanitize_reading r); [|eauto]. cbn [rbind].
    destruct (IH Hin Hx) as [e' ->]. eauto.
Qed.

(** X9.  One element of the payload on which sanitization raises makes the
    whole answer count as a failed fetch: no reading of the batch is kept. *)
Theorem malformed_element_drops_batch (status_code : Z) (l : list pyval)
        (x : pyval) (e : exn) :
  In x l -> WeatherService._sanitize_reading x = Raise e ->
  api_result (HttpResponse status_code (Some (PyList l))) = None /\
  api_failed (HttpResponse status_code (Some (PyList l))) = true.
Proof.
  intros Hin Hx. destruct (sanitize_all_raises l x e Hin Hx) as [e' He].
  unfold api_failed, api_result. cbn [WeatherService.fetch_body].
  destruct (WeatherService.raise_for_status status_code); cbn [rbind];
    [rewrite He|]; split; reflexivity.
Qed.
End FetchSequences.

(** ** What sanitization leaves behind *)

Section SanitizeShape.
Context `{PyRuntime}.

Lemma dict_get_set_eq (k : string) (v : pyval) (d : dict) :
  dict_get k (dict_set k v d) = Some v.
Proof.
  induction d as [|[k0 v0] d IH]; simpl.
  - rewrite String.eqb_refl. reflexivity.
  - destruct (String.eqb_spec k k0) as [->|Hk]; simpl.
    + rewrite String.eqb_refl. reflexivity.
    + destruct (String.eqb_spec k k0); [contradiction | exact IH].
Qed.

Lemma dict_set_keys (k : string) (v v0 : pyval) (d : dict) :
  dict_get k d = Some v0 -> map fst (dict_set k v d) = map fst d.
Proof.
  induction d as [|[k0 v1] d IH]; simpl; [discriminate|].
  destruct (String.eqb_spec k k0) as [->|Hk]; simpl; [reflexivity|].
  intros G. rewrite (IH G). reflexivity.
Qed.

Lemma sanitize_field_result (reading reading' : dict) (field : string) :
  WeatherService.sanitize_field reading field = Ok reading' ->
  clean (dict_get field reading') /\
  map fst reading' = map fst reading /\
  forall k, k <> field -> dict_get k reading' = dict_get k reading.
Proof.
  unfold WeatherService.sanitize_field, clean.
  destruct (dict_get field reading) as [v|] eqn:G.
  - destruct (is_none v) eqn:N.
    + intros [= <-]. rewrite G. destruct v; try discriminate.
      repeat split; auto.
    + destruct (py_float v) as [f|e] eqn:E.
      * intros [= <-]. rewrite dict_get_set_eq.
        split; [eauto|]. split; [apply (dict_set_keys _ _ v), G|].
        intros k Hk. apply dict_get_set_ne. congruence.
      * destruct e; try discriminate;
          destruct (WeatherService.is_critical field) eqn:Cr;
          intros [= <-]; rewrite dict_get_set_eq;
          (split; [eauto|]); (split; [apply (dict_set_keys _ _ v), G|]);
          intros k Hk; apply dict_get_set_ne; congruence.
  - intros [= <-]. rewrite G. repeat split; auto.
Qed.

Lemma sanitize_fields_result (fields : list string) (reading reading' : dict) :
  NoDup fields ->
  WeatherService.sanitize_fields reading fields = Ok reading' ->
  (forall field, In field fields -> clean (dict_get field reading')) /\
  map fst reading' = map fst reading /\
  forall k, ~ In k fields -> dict_get k reading' = dict_get k reading.
Proof.
  intros Hnd. revert reading.
  induction Hnd as [|field fields Hnotin _ IH]; intros reading.
  - intros [= <-]. split; [intros ? []|]. split; reflexivity.
  - cbn [WeatherService.sanitize_fields].
    destruct (WeatherService.sanitize_field reading field) as [r1|] eqn:E1; [|discriminate].
    cbn [rbind]. intros E2.
    destruct (sanitize_field_result _ _ _ E1) as (Hc1 & Hk1 & Ho1).
    destruct (IH r1 E2) as (Hc2 & Hk2 & Ho2).
    rewrite list_elem_of_In in Hnotin.
    split; [|split].
    + intros g [<-|Hg]; [rewrite (Ho2 _ Hnotin); exact Hc1 | apply Hc2, Hg].
    + congruence.
    + intros k Hk. rewrite Ho2 by (intros Hin; apply Hk; right; exact Hin).
      apply Ho1. intros ->. apply Hk. left. reflexivity.
Qed.

Lemma float_fields_nodup : NoDup WeatherService.float_fields.
Proof.
  unfold WeatherService.float_fields.
  repeat (apply NoDup_cons_2; [rewrite list_elem_of_In; simpl; intuition discriminate|]).
  apply NoDup_nil_2.
Qed.

Lemma sanitize_wind_result (reading : dict) :
  map fst (WeatherService.sanitize_wind reading) = map fst reading /\
  forall k, k <> "WindDirection" ->
            dict_get k (WeatherService.sanitize_wind reading) = dict_get k reading.
Proof.
  unfold WeatherService.sanitize_wind.
  destruct (dict_get "WindDirection" reading) as [v|] eqn:G; [|auto].
  destruct (is_none v); [auto|].
  split; [apply (dict_set_keys _ _ v), G|].
  intros k Hk. apply dict_get_set_ne. congruence.
Qed.

Lemma wind_not_float_field : ~ In "WindDirection" WeatherService.float_fields.
Proof. simpl. intuition discriminate. Qed.

(** X10.  Sanitization adds no key, removes none and keeps their order. *)
Theorem sanitize_keeps_keys (reading reading' : dict) :
  WeatherService.sanitize_dict reading = Ok reading' ->
  map fst reading' = map fst reading.
Proof.
  unfold WeatherService.sanitize_dict.
  destruct (WeatherService.sanitize_fields reading WeatherService.float_fields)
    as [r1|] eqn:E; [|discriminate].
  cbn [rbind]. intros [= <-].
  destruct (sanitize_fields_result _ _ _ float_fields_nodup E) as (_ & Hk & _).
  destruct (sanitize_wind_result r1) as [Hw _]. congruence.
Qed.

(** X11.  In a sanitized reading every numeric field of the allow-list is
    absent, null or a float; every key outside the allow-list other than
    WindDirection has the value it had; sanitizing again raises nothing. *)
Theorem sanitized_fields_are_floats (reading reading' : dict) :
  WeatherService.sanitize_dict reading = Ok reading' ->
  (forall field, In field WeatherService.float_fields ->
     dict_get field reading' = None \/ dict_get field reading' = Some PyNone \/
     exists f, dict_get field reading' = Some (PyFloat f)) /\
  (forall k, ~ In k WeatherService.float_fields -> k <> "WindDirection" ->
     dict_get k reading' = dict_get k reading) /\
  exists reading'', WeatherService.sanitize_dict reading' = Ok reading''.
Proof.
  unfold WeatherService.sanitize_dict at 1.
  destruct (WeatherService.sanitize_fields reading WeatherService.float_fields)
    as [r1|] eqn:E; [|discriminate].
  cbn [rbind]. intros [= <-].
  destruct (sanitize_fields_result _ _ _ float_fields_nodup E) as (Hc & _ & Ho).
  destruct (sanitize_wind_result r1) as [_ Hw].
  assert (Hclean : forall field, In field WeatherService.float_fields ->
            clean (dict_get field (WeatherService.sanitize_wind r1))).
  { intros field Hin. rewrite Hw; [apply Hc, Hin|].
    intros ->. apply wind_not_float_field, Hin. }
  split; [exact Hclean|]. split.
  - intros k Hk Hkw. rewrite Hw by exact Hkw. apply Ho, Hk.
  - unfold WeatherService.sanitize_dict.
    destruct (sanitize_fields_total WeatherService.float_fields
                (WeatherService.sanitize_wind r1) float_fields_nodup) as [r2 ->];
      [|cbn [rbind]; eauto].
    intros field v Hin G. destruct (Hclean field Hin) as [E0|[E0|[f E0]]];
      rewrite E0 in G; try discriminate; injection G as <-; discriminate.
Qed.
End SanitizeShape.

Section FetchSequenceRuns.
#[local] Existing Instance SampleRuntime.sample_runtime.

(** A forced refresh of fresh data against a working upstream. *)
Lemma attempt_outcome_witness :
  fst (WeatherService.fetch_weather_data (CacheSamples.clock_plus 10)
         CacheSamples.upstream_up true CacheSamples.fetched_at_0500)
  = Ok (Some [CacheSamples.reading]).
Proof.
  assert (Hreq : requests (snd (WeatherService.fetch_weather_data (CacheSamples.clock_plus 10)
                                  CacheSamples.upstream_up true CacheSamples.fetched_at_0500))
                 = S (requests CacheSamples.fetched_at_0500)) by reflexivity.
  apply (proj1 (attempt_outcome (CacheSamples.clock_plus 10) CacheSamples.upstream_up
                  true CacheSamples.fetched_at_0500 Hreq) [CacheSamples.reading]);
    [reflexivity | discriminate].
Defined.

(** Data fetched ten seconds ago. *)
Lemma fresh_cache_served_without_request_witness :
  WeatherService.fetch_weather_data (CacheSamples.clock_plus 10)
    CacheSamples.upstream_up false CacheSamples.fetched_at_0500
  = (Ok (Some [CacheSamples.reading]), WeatherService.tick CacheSamples.fetched_at_0500).
Proof.
  apply (fresh_cache_served_without_request (CacheSamples.clock_plus 10)
           CacheSamples.upstream_up CacheSamples.fetched_at_0500
           [CacheSamples.reading] Samples.at_0500);
    [reflexivity | reflexivity | vm_compute; reflexivity].
Defined.

(** The upstream is down and the clock stands at 05:00:10. *)
Lemma three_failures_stop_requests_witness :
  let fetch := WeatherService.fetch_weather_data (CacheSamples.clock_plus 10)
                 CacheSamples.upstream_down in
  let w2 := snd (fetch true (snd (fetch true CacheSamples.fetched_at_0500))) in
  let w3 := snd (fetch true w2) in
  let third_failure := CacheSamples.clock_plus 10 (S (S (ticks w2))) in
  requests w3 = 3%nat /\
  _backoff_until (cache w3) = Some (third_failure + seconds 60) /\
  (CacheSamples.clock_plus 10 (S (ticks w3)) < third_failure + seconds 60 ->
   exists w4, fetch false w3 = (Ok (Some [CacheSamples.reading]), w4) /\
              requests w4 = requests w3).
Proof.
  apply (three_failures_stop_requests (CacheSamples.clock_plus 10) CacheSamples.upstream_down
           CacheSamples.fetched_at_0500 [CacheSamples.reading]);
    [intros k; reflexivity | reflexivity | discriminate | reflexivity | reflexivity].
Defined.

(** A payload of one reading and one number. *)
Lemma malformed_element_drops_batch_witness :
  api_result (HttpResponse 200
                (Some (PyList [PyDict [("StationID", PyStr "St1")]; PyInt 5]))) = None /\
  api_failed (HttpResponse 200
                (Some (PyList [PyDict [("StationID", PyStr "St1")]; PyInt 5]))) = true.
Proof.
  apply (malformed_element_drops_batch 200 _ (PyInt 5) TypeError);
    [right; left; reflexivity | reflexivity].
Defined.

(** A raw reading with text in two numeric fields. *)
Lemma sanitize_keeps_keys_witness :
  map fst [("StationID", PyStr "St1"); ("WaterLevel", PyNone);
           ("Humidity", PyFloat (float_of_Z 0)); ("WindDirection", PyStr "NE")]
  = map fst [("StationID", PyStr "St1"); ("WaterLevel", PyStr "abc");
             ("Humidity", PyStr "x"); ("WindDirection", PyStr " ne ")].
Proof.
  apply (sanitize_keeps_keys
           [("StationID", PyStr "St1"); ("WaterLevel", PyStr "abc");
            ("Humidity", PyStr "x"); ("WindDirection", PyStr " ne ")]
           [("StationID", PyStr "St1"); ("WaterLevel", PyNone);
            ("Humidity", PyFloat (float_of_Z 0)); ("WindDirection", PyStr "NE")]).
  reflexivity.
Defined.

Lemma sanitized_fields_are_floats_witness :
  let reading' := [("StationID", PyStr "St1"); ("WaterLevel", PyNone);
                   ("Humidity", PyFloat (float_of_Z 0)); ("WindDirection", PyStr "NE")] in
  (forall field, In field WeatherService.float_fields ->
     dict_get field reading' = None \/ dict_get field reading' = Some PyNone \/
     exists f, dict_get field reading' = Some (PyFloat f)) /\
  (forall k, ~ In k WeatherService.float_fields -> k <> "WindDirection" ->
     dict_get k reading' = dict_get k
       [("StationID", PyStr "St1"); ("WaterLevel", PyStr "abc");
        ("Humidity", PyStr "x"); ("WindDirection", PyStr " ne ")]) /\
  exists reading'', WeatherService.sanitize_dict reading' = Ok reading''.
Proof.
  apply (sanitized_fields_are_floats
           [("StationID", PyStr "St1"); ("WaterLevel", PyStr "abc");
            ("Humidity", PyStr "x"); ("WindDirection", PyStr " ne ")]).
  reflexivity.
Defined.
End FetchSequenceRuns.

(** ** Rainfall classification *)

Section RainfallFacts.
Context `{PyRuntime}.

Lemma get_rainfall_level_float (v : pyval) (f : float) :
  _to_float v = Ok (Some f) ->
  get_rainfall_level v =
    Ok (if fgeb f WeatherThresholds.RAINFALL_HEAVY then heavy
        else if fgeb f WeatherThresholds.RAINFALL_MODERATE then moderate
        else if fgeb f WeatherThresholds.RAINFALL_LIGHT then light
        else none).
Proof.
  intros E. unfold get_rainfall_level. rewrite E. simpl.
  repeat match goal with |- context [if ?b then _ else _] => destruct b end; reflexivity.
Qed.

(** X12.  Over the inputs that float() converts (floats, integers, numeric
    strings, booleans) the rainfall level never decreases as the rainfall
    increases, and the level of an input is the level of the float that
    float() gives for it; the levels at 4.9, 5.0, 14.9, 15.0, 29.9 and 30.0
    are none, light, light, moderate, moderate and heavy; a null input, and
    an input on which float() raises ValueError or TypeError, are
    no_data. *)
Theorem get_rainfall_level_monotone :
  (forall (v1 v2 : pyval) (f1 f2 : float),
      py_float v1 = Ok f1 -> py_float v2 = Ok f2 ->
      fleb f1 f2 = true ->
      exists r1 r2 : rainfall_level,
        get_rainfall_level v1 = Ok r1 /\ get_rainfall_level v2 = Ok r2 /\
        (intensity r1 <= intensity r2)%nat)
  /\ (forall (v : pyval) (f : float),
        py_float v = Ok f -> get_rainfall_level v = get_rainfall_level (PyFloat f))
  /\ get_rainfall_level (PyFloat (tenths 49)) = Ok none
  /\ get_rainfall_level (PyFloat (float_of_Z 5)) = Ok light
  /\ get_rainfall_level (PyFloat (tenths 149)) = Ok light
  /\ get_rainfall_level (PyFloat (float_of_Z 15)) = Ok moderate
  /\ get_rainfall_level (PyFloat (tenths 299)) = Ok moderate
  /\ get_rainfall_level (PyFloat (float_of_Z 30)) = Ok heavy
  /\ get_rainfall_level PyNone = Ok no_data
  /\ (forall v : pyval,
        py_float v = Raise ValueError \/ py_float v = Raise TypeError ->
        get_rainfall_level v = Ok no_data).
Proof.
  split; [|split; [|repeat split; try reflexivity]].
  - intros v1 v2 f1 f2 E1 E2 Hle.
    apply to_float_coerced in E1, E2.
    rewrite (get_rainfall_level_float v1 f1 E1), (get_rainfall_level_float v2 f2 E2).
    eexists _, _. split; [reflexivity|]. split; [reflexivity|].
    pose proof (fgeb_mono WeatherThresholds.RAINFALL_HEAVY f1 f2 Hle) as Hh.
    pose proof (fgeb_mono WeatherThresholds.RAINFALL_MODERATE f1 f2 Hle) as Hm.
    pose proof (fgeb_mono WeatherThresholds.RAINFALL_LIGHT f1 f2 Hle) as Hl.
    destruct (fgeb f1 WeatherThresholds.RAINFALL_HEAVY);
      [rewrite Hh by reflexivity; simpl; lia|].
    destruct (fgeb f1 WeatherThresholds.RAINFALL_MODERATE);
      [rewrite Hm by reflexivity; destruct (fgeb f2 _); simpl; lia|].
    destruct (fgeb f1 WeatherThresholds.RAINFALL_LIGHT);
      [rewrite Hl by reflexivity; repeat destruct (fgeb f2 _); simpl; lia|].
    repeat destruct (fgeb f2 _); simpl; lia.
  - intros v f E.
    rewrite (get_rainfall_level_float v f (to_float_coerced v f E)),
      (get_rainfall_level_float (PyFloat f) f eq_refl).
    reflexivity.
  - intros v E. unfold get_rainfall_level. rewrite (to_float_unparseable v E). reflexivity.
Qed.
End RainfallFacts.

Section RainfallRuns.
#[local] Existing Instance SampleRuntime.sample_runtime.

(** The level of the string "4.9" is at most the level of the string
    "35.0", and that one is heavy. *)
Lemma get_rainfall_level_monotone_witness :
  get_rainfall_level (PyStr "35.0") = Ok heavy /\
  exists r1 r2 : rainfall_level,
    get_rainfall_level (PyStr "4.9") = Ok r1 /\
    get_rainfall_level (PyStr "35.0") = Ok r2 /\
    (intensity r1 <= intensity r2)%nat.
Proof.
  split; [reflexivity|].
  apply (proj1 (@get_rainfall_level_monotone SampleRuntime.sample_runtime))
    with (f1 := tenths 49) (f2 := float_of_Z 35); reflexivity.
Defined.
End RainfallRuns.

(** ** Accounting of the dashboard *)

Lemma count_of_bump (a b : alert_level) (c : AlertCounts) :
  count_of b (bump a c)
  = (count_of b c + if alert_level_eqb a b then 1 else 0)%nat.
Proof. destruct a, b; simpl; lia. Qed.

Lemma level_count_append (a : alert_level) (alerts : list StationAlert) (sa : StationAlert) :
  level_count a (py_append alerts sa)
  = (level_count a alerts + if alert_level_eqb (sa_alert_level sa) a then 1 else 0)%nat.
Proof.
  unfold level_count, py_append. rewrite List.filter_app, length_app. simpl.
  destruct (alert_level_eqb (sa_alert_level sa) a); simpl; lia.
Qed.

Section DashboardFacts.
Context `{PyRuntime}.
Variable sites : list Site.
Variable clock : nat -> datetime.

Lemma dash_init_invariant : dash_invariant MetricsService.dash_init 0.
Proof.
  unfold dash_invariant. simpl. repeat split; try reflexivity; try lia.
  intros a. destruct a; reflexivity.
Qed.

Lemma dash_step_invariant (acc acc' : DashAcc) (item : string * option dict) (n : nat) :
  dash_invariant acc n ->
  MetricsService.dash_step sites clock acc item = Ok acc' ->
  dash_invariant acc' (S n).
Proof.
  intros (Hon & Hfilt & Hcnt & Hatt & Hlen) Hstep.
  destruct item as [station_id data].
  assert (Hoff : forall acc0, acc0 =
            {| da_counts := da_counts acc; da_attention := da_attention acc;
               da_offline := py_append (da_offline acc)
                               (MetricsService._get_station_name sites station_id);
               da_alerts := da_alerts acc; da_online := da_online acc;
               da_total_rainfall := da_total_rainfall acc;
               da_rainfall_readings := da_rainfall_readings acc;
               da_tick := da_tick acc |} -> dash_invariant acc0 (S n)).
  { intros acc0 ->. unfold dash_invariant, py_append. cbn.
    rewrite length_app. simpl. repeat split; auto; lia. }
  destruct data as [[|kv d]|].
  - apply Hoff. cbn in Hstep. congruence.
  - unfold MetricsService.dash_step in Hstep.
    destruct (MetricsService._is_station_online clock (da_tick acc) (kv :: d))
      as [is_online tick].
    destruct (_to_float (get "WaterLevel" (kv :: d))) as [water_level|];
      [|discriminate].
    cbn [rbind] in Hstep.
    destruct (get_alert_level (MetricsService.opt_float water_level)) as [a|];
      [|discriminate].
    cbn [rbind] in Hstep.
    destruct (_to_float (get "HourlyRain" (kv :: d))) as [rainfall|]; [|discriminate].
    cbn [rbind] in Hstep. injection Hstep as <-.
    unfold dash_invariant.
    cbn [da_counts da_attention da_offline da_alerts da_online].
    split; [|split; [|split; [|split]]].
    + destruct is_online; unfold py_append; rewrite ?length_app; simpl; lia.
    + unfold py_append. rewrite List.filter_app, length_app. simpl.
      destruct is_online; simpl; lia.
    + intros b. rewrite count_of_bump, level_count_append, Hcnt. reflexivity.
    + unfold attention_names, py_append. rewrite List.filter_app, map_app. cbn.
      rewrite Hatt. unfold attention_names, py_append.
      destruct (MetricsService.needs_attention a); simpl;
        rewrite ?app_nil_r; reflexivity.
    + unfold py_append. rewrite length_app. simpl. lia.
  - apply Hoff. cbn in Hstep. congruence.
Qed.

Lemma dash_loop_invariant (items : list (string * option dict)) (acc acc' : DashAcc)
      (n : nat) :
  dash_invariant acc n ->
  MetricsService.dash_loop sites clock acc items = Ok acc' ->
  dash_invariant acc' (n + length items).
Proof.
  revert acc n. induction items as [|item items IH]; intros acc n Hinv.
  - intros [= <-]. simpl. rewrite Nat.add_0_r. exact Hinv.
  - cbn [MetricsService.dash_loop].
    destruct (MetricsService.dash_step sites clock acc item) as [acc1|] eqn:E;
      [|discriminate].
    cbn [rbind]. intros Hloop.
    replace (n + length (item :: items))%nat with (S n + length items)%nat by (simpl; lia).
    apply (IH acc1); [apply (dash_step_invariant acc acc1 item n Hinv E) | exact Hloop].
Qed.

(** The metrics are read off the loop state. *)
Lemma calculate_dashboard_metrics_inv (station_data : list (string * option dict))
      (m : DashboardMetrics) :
  MetricsService.calculate_dashboard_metrics sites clock station_data = Ok m ->
  exists acc,
    dash_invariant acc (length station_data) /\
    online_sensors m = da_online acc /\ offline_stations m = da_offline acc /\
    station_alerts m = da_alerts acc /\ attention_stations m = da_attention acc /\
    critical_count m = n_critical (da_counts acc) /\
    warning_count m = n_warning (da_counts acc) /\
    alert_count m = n_alert (da_counts acc) /\
    advisory_count m = n_advisory (da_counts acc) /\
    (highest_alert_level m, highest_alert_count m)
    = MetricsService.highest_of [critical; warning; alert; advisory] (da_counts acc).
Proof.
  unfold MetricsService.calculate_dashboard_metrics.
  destruct (MetricsService.dash_loop sites clock MetricsService.dash_init station_data)
    as [acc|] eqn:E; [|discriminate].
  cbn [rbind].
  destruct (MetricsService.highest_of [critical; warning; alert; advisory] (da_counts acc))
    as [hl hc] eqn:Hh.
  destruct (MetricsService._get_rainfall_forecast _) as [fc|]; [|discriminate].
  cbn [rbind]. intros [= <-]. exists acc.
  split; [apply (dash_loop_invariant station_data MetricsService.dash_init acc 0
                   dash_init_invariant E)|].
  repeat split; try reflexivity.
  cbn [highest_alert_level highest_alert_count]. symmetry. exact Hh.
Qed.

(** X13.  Whenever the dashboard is computed: every station is either
    online or listed as offline; the online count is the number of station
    alerts marked online; each level count is the number of station alerts of
    that level; the stations needing attention are, in order, those whose
    alert is alert, warning or critical. *)
Theorem dashboard_accounting (station_data : list (string * option dict))
        (m : DashboardMetrics) :
  MetricsService.calculate_dashboard_metrics sites clock station_data = Ok m ->
  (online_sensors m + length (offline_stations m) = length station_data)%nat /\
  online_sensors m = length (List.filter sa_is_online (station_alerts m)) /\
  critical_count m = level_count critical (station_alerts m) /\
  warning_count m = level_count warning (station_alerts m) /\
  alert_count m = level_count alert (station_alerts m) /\
  advisory_count m = level_count advisory (station_alerts m) /\
  attention_stations m = attention_names (station_alerts m) /\
  (length (station_alerts m) <= length station_data)%nat.
Proof.
  intros Hm.
  destruct (calculate_dashboard_metrics_inv station_data m Hm)
    as (acc & (Hon & Hf & Hc & Ha & Hl) & -> & -> & -> & -> & -> & -> & -> & -> & _).
  repeat split; try assumption;
    [apply (Hc critical) | apply (Hc warning) | apply (Hc alert) | apply (Hc advisory)].
Qed.

Lemma level_count_pos (a : alert_level) (alerts : list StationAlert) :
  (0 < level_count a alerts)%nat ->
  exists sa, In sa alerts /\ sa_alert_level sa = a.
Proof.
  unfold level_count. intros Hpos.
  destruct (List.filter _ alerts) as [|sa l] eqn:E; [simpl in Hpos; lia|].
  assert (Hin : In sa (List.filter
                         (fun sa => alert_level_eqb (sa_alert_level sa) a) alerts))
    by (rewrite E; left; reflexivity).
  apply List.filter_In in Hin. destruct Hin as [Hin Heq].
  exists sa. split; [exact Hin|].
  destruct (sa_alert_level sa), a; simpl in Heq; try discriminate; reflexivity.
Qed.

Lemma level_count_zero (a : alert_level) (alerts : list StationAlert) (sa : StationAlert) :
  level_count a alerts = 0%nat -> In sa alerts -> sa_alert_level sa <> a.
Proof.
  unfold level_count. intros Hz Hin Heq.
  assert (Hf : In sa (List.filter
                        (fun sa => alert_level_eqb (sa_alert_level sa) a) alerts)).
  { apply List.filter_In. split; [exact Hin|]. rewrite Heq.
    destruct a; reflexivity. }
  destruct (List.filter _ alerts); [destruct Hf | simpl in Hz; lia].
Qed.

(** X14.  The highest alert level of the dashboard is the most severe level
    among the station alerts, normal when there is none above normal; its
    count is the number of station alerts of that level. *)
Theorem dashboard_highest_level (station_data : list (string * option dict))
        (m : DashboardMetrics) :
  MetricsService.calculate_dashboard_metrics sites clock station_data = Ok m ->
  (forall sa, In sa (station_alerts m) ->
     (severity (sa_alert_level sa) <= severity (highest_alert_level m))%nat) /\
  (highest_alert_level m <> normal ->
   highest_alert_count m = level_count (highest_alert_level m) (station_alerts m) /\
   exists sa, In sa (station_alerts m) /\ sa_alert_level sa = highest_alert_level m) /\
  (highest_alert_level m = normal -> highest_alert_count m = 0%nat).
Proof.
  intros Hm.
  destruct (calculate_dashboard_metrics_inv station_data m Hm)
    as (acc & (_ & _ & Hc & _ & _) & _ & _ & -> & _ & _ & _ & _ & _ & Hh).
  cbn [MetricsService.highest_of] in Hh.
  rewrite !Hc in Hh.
  assert (Hz : forall a, (0 <? level_count a (da_alerts acc))%nat = false ->
                         level_count a (da_alerts acc) = 0%nat).
  { intros a Hf. apply Nat.ltb_ge in Hf. lia. }
  assert (Hp : forall a, (0 <? level_count a (da_alerts acc))%nat = true ->
                         exists sa, In sa (da_alerts acc) /\ sa_alert_level sa = a).
  { intros a Hf. apply Nat.ltb_lt in Hf. apply level_count_pos, Hf. }
  destruct (0 <? level_count critical (da_alerts acc))%nat eqn:Ec.
  { injection Hh as -> ->. split; [intros sa _; destruct (sa_alert_level sa); simpl; lia|].
    split; [intros _; split; [reflexivity | apply Hp, Ec] | discriminate]. }
  destruct (0 <? level_count warning (da_alerts acc))%nat eqn:Ew.
  { injection Hh as -> ->. split.
    - intros sa Hin. pose proof (level_count_zero critical _ sa (Hz _ Ec) Hin).
      destruct (sa_alert_level sa); simpl; try lia; congruence.
    - split; [intros _; split; [reflexivity | apply Hp, Ew] | discriminate]. }
  destruct (0 <? level_count alert (da_alerts acc))%nat eqn:Ea.
  { injection Hh as -> ->. split.
    - intros sa Hin. pose proof (level_count_zero critical _ sa (Hz _ Ec) Hin).
      pose proof (level_count_zero warning _ sa (Hz _ Ew) Hin).
      destruct (sa_alert_level sa); simpl; try lia; congruence.
    - split; [intros _; split; [reflexivity | apply Hp, Ea] | discriminate]. }
  destruct (0 <? level_count advisory (da_alerts acc))%nat eqn:Ed.
  { injection Hh as -> ->. split.
    - intros sa Hin. pose proof (level_count_zero critical _ sa (Hz _ Ec) Hin).
      pose proof (level_count_zero warning _ sa (Hz _ Ew) Hin).
      pose proof (level_count_zero alert _ sa (Hz _ Ea) Hin).
      destruct (sa_alert_level sa); simpl; try lia; congruence.
    - split; [intros _; split; [reflexivity | apply Hp, Ed] | discriminate]. }
  injection Hh as -> ->. split.
  - intros sa Hin. pose proof (level_count_zero critical _ sa (Hz _ Ec) Hin).
    pose proof (level_count_zero warning _ sa (Hz _ Ew) Hin).
    pose proof (level_count_zero alert _ sa (Hz _ Ea) Hin).
    pose proof (level_count_zero advisory _ sa (Hz _ Ed) Hin).
    destruct (sa_alert_level sa); simpl; try lia; congruence.
  - split; [intros Hn; contradiction | reflexivity].
Qed.
End DashboardFacts.

Section DashboardEdge.
Context `{PyRuntime}.
Variable sites : list Site.
Variable clock : nat -> datetime.

Lemma dash_loop_without_data (items : list (string * option dict)) (acc : DashAcc) :
  Forall (fun item => snd item = None \/ snd item = Some []) items ->
  MetricsService.dash_loop sites clock acc items
  = Ok {| da_counts := da_counts acc; da_attention := da_attention acc;
          da_offline := (da_offline acc
                         ++ map (fun item => MetricsService._get_station_name sites (fst item))
                                items)%list;
          da_alerts := da_alerts acc; da_online := da_online acc;
          da_total_rainfall := da_total_rainfall acc;
          da_rainfall_readings := da_rainfall_readings acc;
          da_tick := da_tick acc |}.
Proof.
  intros Hall. revert acc. induction Hall as [|[id data] items Hd _ IH]; intros acc.
  - cbn. rewrite app_nil_r. destruct acc; reflexivity.
  - cbn [MetricsService.dash_loop]. simpl in Hd.
    assert (E : MetricsService.dash_step sites clock acc (id, data)
                = Ok {| da_counts := da_counts acc; da_attention := da_attention acc;
                        da_offline := py_append (da_offline acc)
                                        (MetricsService._get_station_name sites id);
                        da_alerts := da_alerts acc; da_online := da_online acc;
                        da_total_rainfall := da_total_rainfall acc;
                        da_rainfall_readings := da_rainfall_readings acc;
                        da_tick := da_tick acc |}).
    { destruct Hd as [-> | ->]; reflexivity. }
    rewrite E. cbn [rbind]. rewrite IH. cbn. unfold py_append.
    rewrite <- app_assoc. reflexivity.
Qed.

(** X15.  When no station reports data (the empty mapping included) the
    dashboard is computed without an error: every count is zero, every
    station is listed as offline under its display name, in order, the
    highest level is normal and the forecast is the one of no rain. *)
Theorem dashboard_without_data (station_data : list (string * option dict)) :
  Forall (fun item => snd item = None \/ snd item = Some []) station_data ->
  MetricsService.calculate_dashboard_metrics sites clock station_data
  = Ok {| highest_alert_level := normal; highest_alert_count := 0;
          critical_count := 0; warning_count := 0; alert_count := 0; advisory_count := 0;
          attention_stations := []; online_sensors := 0; total_sensors := TOTAL_STATIONS;
          offline_stations :=
            map (fun item => MetricsService._get_station_name sites (fst item)) station_data;
          rainfall_forecast := "Clear"; alert_level_info := "Normal";
          station_alerts := [] |}.
Proof.
  intros Hall. unfold MetricsService.calculate_dashboard_metrics.
  rewrite (dash_loop_without_data station_data MetricsService.dash_init Hall).
  reflexivity.
Qed.

(** X18.  The dashboard and get_station_status classify a station the same
    way: on a station with data, read at the same clock count, the station
    alert the dashboard appends has the alert level and the online flag of
    the status, and the station is added to the attention list exactly when
    the status says it needs attention. *)
Theorem dashboard_agrees_with_station_status (acc acc' : DashAcc) (station_id : string)
        (data : dict) (s : StationStatus) (tick' : nat) :
  data <> [] ->
  StationStatusService.get_station_status clock (da_tick acc) (Some data) = (Ok s, tick') ->
  MetricsService.dash_step sites clock acc (station_id, Some data) = Ok acc' ->
  da_tick acc' = tick' /\
  exists sa, da_alerts acc' = py_append (da_alerts acc) sa /\
             sa_alert_level sa = ss_alert_level s /\
             sa_is_online sa = ss_is_online s /\
             sa_water_level sa = MetricsService.or_zero (ss_water_level s) /\
             da_attention acc'
             = (if ss_needs_attention s
                then py_append (da_attention acc) (sa_station_name sa)
                else da_attention acc).
Proof.
  intros Hne. destruct data as [|kv d]; [contradiction|].
  unfold StationStatusService.get_station_status, MetricsService.dash_step.
  destruct (_to_float (get "WaterLevel" (kv :: d))) as [water_level|]; [|discriminate].
  cbn [rbind].
  destruct (_to_float (get "HourlyRain" (kv :: d))) as [rainfall|]; [|discriminate].
  destruct (get_alert_level (MetricsService.opt_float water_level)) as [a|];
    [|discriminate].
  destruct (get_rainfall_level (MetricsService.opt_float rainfall)) as [rl|];
    [|discriminate].
  destruct (MetricsService._is_station_online clock (da_tick acc) (kv :: d))
    as [is_online tick].
  cbn [rbind]. intros [= <- <-] [= <-]. cbn.
  split; [reflexivity|]. eexists. split; [reflexivity|]. cbn.
  repeat split; reflexivity.
Qed.
End DashboardEdge.

(** ** The weather alert of the home page *)

Section AlertFacts.
Context `{PyRuntime} `{PyFormat}.

(** X16.  When both values coerce, the alert follows the water level as
    get_alert_level classifies it whenever that is above normal; only at a
    normal water level does rainfall count, heavy rain giving a warning,
    moderate rain an advisory and anything less the normal alert. *)
Theorem weather_alert_follows_water_level (latest_reading : dict) (rainfall water_level : float)
        (a : alert_level) (r : rainfall_level) :
  latest_reading <> [] ->
  py_float (py_or (get "HourlyRain" latest_reading) (PyInt 0)) = Ok rainfall ->
  py_float (py_or (get "WaterLevel" latest_reading) (PyInt 0)) = Ok water_level ->
  get_alert_level (PyFloat water_level) = Ok a ->
  get_rainfall_level (PyFloat rainfall) = Ok r ->
  exists wa,
    AlertService.generate_weather_alert (Some latest_reading) = Ok wa /\
    (a <> normal ->
     wa_level wa = alert_level_name a /\ wa_color wa = AlertLevelConfig_color a) /\
    (a = normal ->
     wa_level wa = match r with
                   | heavy => "warning"
                   | moderate => "advisory"
                   | _ => "normal"
                   end).
Proof.
  intros Hne Er Ew Ha Hr. destruct latest_reading as [|kv d]; [contradiction|].
  unfold AlertService.generate_weather_alert, AlertService.rainfall_and_water_level.
  rewrite Er, Ew. cbn [rbind].
  rewrite (get_alert_level_float (PyFloat water_level) water_level eq_refl) in Ha.
  rewrite (get_rainfall_level_float (PyFloat rainfall) rainfall eq_refl) in Hr.
  revert Ha Hr.
  destruct (fgeb water_level WeatherThresholds.WATER_CRITICAL);
    [cbv beta iota; intros [= <-] _; eexists; split; [reflexivity|]; split;
       [intros _; split; reflexivity | discriminate]|].
  destruct (fgeb water_level WeatherThresholds.WATER_WARNING);
    [cbv beta iota; intros [= <-] _; eexists; split; [reflexivity|]; split;
       [intros _; split; reflexivity | discriminate]|].
  destruct (fgeb water_level WeatherThresholds.WATER_ALERT);
    [cbv beta iota; intros [= <-] _; eexists; split; [reflexivity|]; split;
       [intros _; split; reflexivity | discriminate]|].
  destruct (fgeb water_level WeatherThresholds.WATER_ADVISORY);
    [cbv beta iota; intros [= <-] _; eexists; split; [reflexivity|]; split;
       [intros _; split; reflexivity | discriminate]|].
  cbv beta iota. intros [= <-].
  destruct (fgeb rainfall WeatherThresholds.RAINFALL_HEAVY);
    [cbv beta iota; intros [= <-]; eexists; split; [reflexivity|]; split;
       [intros Hn; contradiction | reflexivity]|].
  destruct (fgeb rainfall WeatherThresholds.RAINFALL_MODERATE);
    [cbv beta iota; intros [= <-]; eexists; split; [reflexivity|]; split;
       [intros Hn; contradiction | reflexivity]|].
  destruct (fgeb rainfall WeatherThresholds.RAINFALL_LIGHT);
    cbv beta iota; intros [= <-]; eexists; (split; [reflexivity|]); split;
      (intros Hn; contradiction) || reflexivity.
Qed.

(** X17.  When float() raises ValueError or TypeError on the rainfall, or
    on the water level, both values are taken as 0.0: the alert is the normal
    one whatever the other value is. *)
Theorem unreadable_value_gives_normal_alert (latest_reading : dict) :
  latest_reading <> [] ->
  (py_float (py_or (get "HourlyRain" latest_reading) (PyInt 0)) = Raise ValueError \/
   py_float (py_or (get "HourlyRain" latest_reading) (PyInt 0)) = Raise TypeError \/
   (exists rainfall,
      py_float (py_or (get "HourlyRain" latest_reading) (PyInt 0)) = Ok rainfall) /\
   (py_float (py_or (get "WaterLevel" latest_reading) (PyInt 0)) = Raise ValueError \/
    py_float (py_or (get "WaterLevel" latest_reading) (PyInt 0)) = Raise TypeError)) ->
  AlertService.generate_weather_alert (Some latest_reading)
  = Ok {| wa_level := "normal";
          wa_message := "Weather conditions normal - All systems operational";
          wa_color := UIColorSystem.ALERT_NORMAL |}.
Proof.
  intros Hne Hbad. destruct latest_reading as [|kv d]; [contradiction|].
  unfold AlertService.generate_weather_alert.
  assert (E : AlertService.rainfall_and_water_level (kv :: d)
              = Ok (float_of_Z 0, float_of_Z 0)).
  { unfold AlertService.rainfall_and_water_level.
    destruct Hbad as [-> |[-> |[[rainfall ->] [-> | ->]]]]; reflexivity. }
  rewrite E. reflexivity.
Qed.
End AlertFacts.

Section DashboardRuns.
#[local] Existing Instance SampleRuntime.sample_runtime.
#[local] Existing Instance SampleFormat.sample_format.

Local Abbreviation sample_dashboard :=
  (MetricsService.calculate_dashboard_metrics SiteConfig.SITES Samples.clock_0510
     DashboardSamples.three_stations).

Lemma dashboard_accounting_witness :
  exists m, sample_dashboard = Ok m /\
    (online_sensors m + length (offline_stations m)
     = length DashboardSamples.three_stations)%nat /\
    online_sensors m = length (List.filter sa_is_online (station_alerts m)) /\
    critical_count m = level_count critical (station_alerts m) /\
    warning_count m = level_count warning (station_alerts m) /\
    alert_count m = level_count alert (station_alerts m) /\
    advisory_count m = level_count advisory (station_alerts m) /\
    attention_stations m = attention_names (station_alerts m) /\
    (length (station_alerts m) <= length DashboardSamples.three_stations)%nat.
Proof.
  destruct sample_dashboard as [m|e] eqn:E; [|vm_compute in E; discriminate].
  exists m. split; [reflexivity|].
  apply (dashboard_accounting SiteConfig.SITES Samples.clock_0510
           DashboardSamples.three_stations m E).
Defined.

Lemma dashboard_highest_level_witness :
  exists m, sample_dashboard = Ok m /\
    (forall sa, In sa (station_alerts m) ->
       (severity (sa_alert_level sa) <= severity (highest_alert_level m))%nat) /\
    (highest_alert_level m <> normal ->
     highest_alert_count m = level_count (highest_alert_level m) (station_alerts m) /\
     exists sa, In sa (station_alerts m) /\ sa_alert_level sa = highest_alert_level m) /\
    (highest_alert_level m = normal -> highest_alert_count m = 0%nat).
Proof.
  destruct sample_dashboard as [m|e] eqn:E; [|vm_compute in E; discriminate].
  exists m. split; [reflexivity|].
  apply (dashboard_highest_level SiteConfig.SITES Samples.clock_0510
           DashboardSamples.three_stations m E).
Defined.

(** Two stations without data. *)
Lemma dashboard_without_data_witness :
  MetricsService.calculate_dashboard_metrics SiteConfig.SITES Samples.clock_0510
    [("St1", None); ("St9", Some [])]
  = Ok {| highest_alert_level := normal; highest_alert_count := 0;
          critical_count := 0; warning_count := 0; alert_count := 0; advisory_count := 0;
          attention_stations := []; online_sensors := 0; total_sensors := TOTAL_STATIONS;
          offline_stations := ["Binudegahan Station"; "St9"];
          rainfall_forecast := "Clear"; alert_level_info := "Normal";
          station_alerts := [] |}.
Proof.
  apply (dashboard_without_data SiteConfig.SITES Samples.clock_0510
           [("St1", None); ("St9", Some [])]).
  constructor; [left; reflexivity|]. constructor; [right; reflexivity | constructor].
Defined.

Lemma dashboard_agrees_with_station_status_witness :
  exists s tick' acc',
    StationStatusService.get_station_status Samples.clock_0510 0
      (Some (Samples.station_reading "850.0")) = (Ok s, tick') /\
    MetricsService.dash_step SiteConfig.SITES Samples.clock_0510 MetricsService.dash_init
      ("St3", Some (Samples.station_reading "850.0")) = Ok acc' /\
    ss_alert_level s = alert /\ ss_needs_attention s = true /\
    da_tick acc' = tick' /\
    exists sa, da_alerts acc' = py_append (da_alerts MetricsService.dash_init) sa /\
               sa_alert_level sa = ss_alert_level s /\
               sa_is_online sa = ss_is_online s /\
               sa_water_level sa = MetricsService.or_zero (ss_water_level s) /\
               da_attention acc'
               = (if ss_needs_attention s
                  then py_append (da_attention MetricsService.dash_init) (sa_station_name sa)
                  else da_attention MetricsService.dash_init).
Proof.
  eexists _, _, _. split; [reflexivity|]. split; [reflexivity|].
  split; [reflexivity|]. split; [reflexivity|].
  apply (dashboard_agrees_with_station_status SiteConfig.SITES Samples.clock_0510
           MetricsService.dash_init _ "St3" (Samples.station_reading "850.0"));
    [discriminate | reflexivity | reflexivity].
Defined.

(** Water level 850 and no rain. *)
Lemma weather_alert_follows_water_level_witness :
  exists wa,
    AlertService.generate_weather_alert (Some (Samples.station_reading "850.0")) = Ok wa /\
    (alert <> normal ->
     wa_level wa = alert_level_name alert /\ wa_color wa = AlertLevelConfig_color alert) /\
    (alert = normal ->
     wa_level wa = match none with
                   | heavy => "warning"
                   | moderate => "advisory"
                   | _ => "normal"
                   end).
Proof.
  apply (weather_alert_follows_water_level (Samples.station_reading "850.0")
           (float_of_Z 0) (float_of_Z 850) alert none);
    [discriminate | reflexivity | reflexivity | reflexivity | reflexivity].
Defined.

(** A critical water level is masked by rainfall that is not a number. *)
Lemma unreadable_value_gives_normal_alert_witness :
  get_alert_level (get "WaterLevel" DashboardSamples.unreadable_rain) = Ok critical /\
  AlertService.generate_weather_alert (Some DashboardSamples.unreadable_rain)
  = Ok {| wa_level := "normal";
          wa_message := "Weather conditions normal - All systems operational";
          wa_color := UIColorSystem.ALERT_NORMAL |}.
Proof.
  split; [reflexivity|].
  apply (unreadable_value_gives_normal_alert DashboardSamples.unreadable_rain);
    [discriminate | left; reflexivity].
Defined.
End DashboardRuns.

(** ** The hourly charts *)

Lemma show_Z_nonneg (z : Z) : 0 <= z -> show_Z z = show_int z.
Proof. intros Hz. unfold show_Z. destruct (Z.ltb_spec z 0); [lia | reflexivity]. Qed.

Lemma hour_range (dt : datetime) : 0 <= hour dt <= 23.
Proof.
  unfold hour. assert (Hd : one_day = 86400000000) by reflexivity.
  assert (Hh : hours 1 = 3600000000) by reflexivity. rewrite Hd, Hh.
  pose proof (Z.mod_pos_bound dt 86400000000 ltac:(lia)) as Hm.
  split; [apply Z.div_pos; lia|].
  assert (dt mod 86400000000 / 3600000000 < 24); [|lia].
  apply Z.div_lt_upper_bound; lia.
Qed.

(** The [k]-th slot of a day is on that day, at hour [k]. *)
Lemma slot_hour_date (d : datetime) (k : Z) :
  0 <= k <= 23 ->
  hour (replace_hour d START_HOUR + hours k) = k /\
  date (replace_hour d START_HOUR + hours k) = date d.
Proof.
  intros Hk. unfold replace_hour, START_HOUR. set (a := date d).
  unfold hour, date. rewrite !hours_unfold.
  assert (Hd : one_day = 86400000000) by reflexivity. rewrite Hd.
  replace (a * 86400000000 + 3600000000 * 0 + 3600000000 * k)
    with (3600000000 * k + a * 86400000000) by lia.
  split.
  - rewrite Z.mod_add by lia. rewrite Z.mod_small by lia.
    rewrite Z.mul_comm. apply Z.div_mul. lia.
  - rewrite Z.div_add by lia. rewrite Z.div_small by lia. lia.
Qed.


Lemma format_time_label_hour `{PyRuntime} (dt : datetime) :
  IntervalAggregator._format_time_label dt = format_hour_label (hour dt).
Proof.
  unfold IntervalAggregator._format_time_label, format_hour_label.
  pose proof (hour_range dt) as Hh.
  destruct (Z.eqb_spec (hour dt) 0); [reflexivity|].
  destruct (Z.ltb_spec (hour dt) 12); [rewrite show_Z_nonneg by lia; reflexivity|].
  destruct (Z.eqb_spec (hour dt) 12); [reflexivity|].
  rewrite show_Z_nonneg by lia. reflexivity.
Qed.

Lemma slots_nodup (s : datetime) (n : nat) :
  NoDup (map (fun k : nat => s + hours (Z.of_nat k)) (seq 0 n)).
Proof.
  assert (Hinj : Inj eq eq (fun k : nat => s + hours (Z.of_nat k))).
  { intros a b E. rewrite !hours_unfold in E. lia. }
  apply (NoDup_fmap_2 (fun k : nat => s + hours (Z.of_nat k))), NoDup_seq.
Qed.

Section AggregatorFacts.
Context `{PyRuntime}.
Variable C : Type.
Variable metric : Reading -> pyval.
Variable valid : float -> bool.
Variable classify : pyval -> result C.
Variable ndigits : Z.

Local Abbreviation parse r :=
  (IntervalAggregator._parse_timestamp (IntervalAggregator.timestamp_str r)).
Local Abbreviation group_step := (IntervalAggregator.group_step metric valid).
Local Abbreviation group_loop := (IntervalAggregator.group_loop metric valid).
Local Abbreviation format_interval :=
  (IntervalAggregator._format_interval_data_with_labels C classify ndigits).
Local Abbreviation format_sites := (IntervalAggregator.format_sites C classify ndigits).
Local Abbreviation get_24hour :=
  (IntervalAggregator.get_24hour_intervals_per_station C metric valid classify ndigits).
Local Abbreviation day_slots d :=
  (map (fun k : nat => replace_hour d START_HOUR + hours (Z.of_nat k)) (seq 0 24)).

(** The fields of the points, slot by slot. *)
Lemma format_interval_fields (intervals : list datetime) (interval_data : gmap Z (list float))
      (display_date : datetime) (points : list (DataPoint C)) :
  format_interval intervals interval_data display_date = Ok points ->
  map timestamp points = intervals /\
  map label points = map (fun it => format_hour_label (hour it)) intervals /\
  map day points
  = map (fun it => IntervalAggregator._get_day_label it display_date) intervals /\
  map show_label points = map (fun it => hour it mod LABEL_INTERVAL_HOURS =? 0) intervals /\
  map count points
  = map (fun it => length (default [] (interval_data !! it))) intervals.
Proof.
  revert points. induction intervals as [|it intervals IH]; intros points.
  - intros [= <-]. repeat split.
  - cbn [IntervalAggregator._format_interval_data_with_labels].
    destruct (classify _) as [c|e]; [|discriminate]. cbn [rbind].
    destruct (format_interval intervals interval_data display_date) as [rest|e];
      [|discriminate].
    cbn [rbind]. intros [= <-].
    destruct (IH rest eq_refl) as (Ht & Hl & Hd & Hs & Hc).
    cbn [map timestamp label day show_label count].
    rewrite Ht, Hl, Hd, Hs, Hc, format_time_label_hour. repeat split.
Qed.

(** What the loop over the sites stores, read off a returned result. *)
Lemma format_sites_lookup (sites : list Site) (intervals : list datetime)
      (station_interval_data : gmap string (gmap Z (list float)))
      (display_date : datetime) (acc m : gmap string (list (DataPoint C))) :
  format_sites sites intervals station_interval_data display_date acc = Ok m ->
  forall station_id,
    (In station_id (map site_id sites) ->
     exists points,
       m !! station_id = Some points /\
       format_interval intervals (default ∅ (station_interval_data !! station_id))
                       display_date = Ok points) /\
    (~ In station_id (map site_id sites) -> m !! station_id = acc !! station_id).
Proof.
  revert acc. induction sites as [|site sites IH]; intros acc.
  - intros [= <-] station_id. split; [intros [] | reflexivity].
  - cbn [IntervalAggregator.format_sites].
    destruct (format_interval intervals
                (default ∅ (station_interval_data !! site_id site)) display_date)
      as [points|e] eqn:Ef; [|discriminate].
    cbn [rbind]. intros Hm station_id.
    destruct (IH _ Hm station_id) as [Hin Hout]. cbn [map]. split.
    + intros Hs.
      destruct (in_dec string_dec station_id (map site_id sites)) as [Hlater|Hfresh];
        [apply Hin, Hlater|].
      destruct Hs as [<-|Hs]; [|contradiction].
      rewrite (Hout Hfresh), lookup_insert_eq. eauto.
    + intros Hnot. rewrite Hout by (intros Hs; apply Hnot; right; exact Hs).
      apply lookup_insert_ne. intros E. apply Hnot. left. exact E.
Qed.

(** A returned result, taken apart. *)
Lemma get_24hour_inv (weather_data : list Reading) (sites : list Site)
      (target_date : option datetime) (now : datetime)
      (m : gmap string (list (DataPoint C))) :
  get_24hour weather_data sites target_date now = Ok m ->
  let d := IntervalAggregator.display_date_of weather_data target_date now in
  exists station_data,
    group_loop (day_slots d) (replace_hour d START_HOUR) (replace_hour d END_HOUR)
               ∅ weather_data = Ok station_data /\
    forall station_id,
      (In station_id (map site_id sites) ->
       exists points,
         m !! station_id = Some points /\
         format_interval (day_slots d) (default ∅ (station_data !! station_id)) d
         = Ok points) /\
      (~ In station_id (map site_id sites) -> m !! station_id = None).
Proof.
  intros Hm d.
  unfold IntervalAggregator.get_24hour_intervals_per_station,
    IntervalAggregator._group_readings_by_station_and_interval in Hm.
  fold d in Hm. rewrite create_hourly_intervals_day in Hm.
  destruct (group_loop _ _ _ _ _) as [station_data|e]; [|discriminate].
  cbn [rbind] in Hm. exists station_data. split; [reflexivity|].
  intros station_id. destruct (format_sites_lookup _ _ _ _ _ _ Hm station_id) as [Hin Hout].
  split; [exact Hin|]. intros Hnot. rewrite (Hout Hnot). apply lookup_empty.
Qed.

(** A step adds at most one value, to the station the reading names. *)
Lemma station_total_append (station_data : gmap string (gmap Z (list float)))
      (sid sid' : string) (it : datetime) (v : float) (intervals : list datetime) :
  NoDup intervals ->
  (station_total (bucket_append station_data sid' it v) sid intervals
   <= station_total station_data sid intervals + (if String.eqb sid' sid then 1 else 0))%nat.
Proof.
  unfold station_total. destruct (String.eqb_spec sid' sid) as [->|Hne].
  - cbv iota. unfold list_sum.
    induction 1 as [|x xs Hx _ IH]; cbn [map fold_right]; [lia|].
    destruct (Z.eq_dec it x) as [->|Hit].
    + rewrite bucket_append_same, length_app. cbn [length].
      assert (E : map (fun i => length (bucket (bucket_append station_data sid x v) sid i)) xs
                  = map (fun i => length (bucket station_data sid i)) xs).
      { apply map_ext_in. intros i Hi. rewrite bucket_append_other_slot; [reflexivity|].
        intros ->. apply Hx, list_elem_of_In, Hi. }
      rewrite E. lia.
    + rewrite bucket_append_other_slot by exact Hit. lia.
  - intros _. cbv iota. rewrite Nat.add_0_r. apply Nat.eq_le_incl. f_equal.
    apply map_ext. intros i. rewrite bucket_append_other_station by exact Hne. reflexivity.
Qed.

Lemma group_step_counts (intervals : list datetime) (start_time end_time : datetime)
      (station_data station_data' : gmap string (gmap Z (list float)))
      (reading : Reading) (sid : string) :
  NoDup intervals ->
  group_step intervals start_time end_time station_data reading = Ok station_data' ->
  (station_total station_data' sid intervals
   <= station_total station_data sid intervals
      + (if names_station sid reading then 1 else 0))%nat.
Proof.
  intros Hnd. unfold IntervalAggregator.group_step, names_station.
  destruct (parse reading); [|intros [= <-]; lia].
  destruct (negb _); [intros [= <-]; lia|].
  destruct (StationID reading) as [sid'|]; [|intros [= <-]; lia].
  destruct (String.eqb sid' "" || is_none (metric reading)); [intros [= <-]; lia|].
  destruct (py_float (metric reading)) as [f|[]]; try discriminate;
    try (intros [= <-]; lia).
  destruct (negb (valid f)); [intros [= <-]; lia|].
  destruct (IntervalAggregator.find_interval _ _) as [it|]; [|intros [= <-]; lia].
  intros [= <-]. apply station_total_append, Hnd.
Qed.

Lemma group_loop_counts (intervals : list datetime) (start_time end_time : datetime)
      (weather_data : list Reading)
      (station_data station_data' : gmap string (gmap Z (list float))) (sid : string) :
  NoDup intervals ->
  group_loop intervals start_time end_time station_data weather_data = Ok station_data' ->
  (station_total station_data' sid intervals
   <= station_total station_data sid intervals
      + length (List.filter (names_station sid) weather_data))%nat.
Proof.
  intros Hnd. revert station_data.
  induction weather_data as [|r rs IH]; intros station_data.
  - intros [= <-]. cbn. lia.
  - cbn [IntervalAggregator.group_loop].
    destruct (group_step intervals start_time end_time station_data r) as [sd|e] eqn:Es;
      [|discriminate].
    cbn [rbind]. intros Hl. specialize (IH _ Hl).
    pose proof (group_step_counts _ _ _ _ _ _ sid Hnd Es) as Hs.
    revert Hs. cbn [List.filter]. destruct (names_station sid r); cbn [length]; lia.
Qed.

Lemma station_total_empty (sid : string) (intervals : list datetime) :
  station_total ∅ sid intervals = 0%nat.
Proof.
  unfold station_total, list_sum. induction intervals as [|x xs IH]; [reflexivity|].
  cbn [map fold_right]. rewrite IH. unfold bucket. rewrite lookup_empty. cbn.
  rewrite lookup_empty. reflexivity.
Qed.


Lemma fold_some_max (ts : list datetime) (t : datetime) :
  fold_left (fun a t => match a with
                        | None => Some t
                        | Some latest => Some (Z.max latest t)
                        end) ts (Some t)
  = Some (fold_left Z.max ts t).
Proof. revert t. induction ts as [|x ts IH]; intros t; [reflexivity | apply IH]. Qed.


Lemma fold_max_spec (ts : list datetime) (t : datetime) :
  In (fold_left Z.max ts t) (t :: ts) /\
  forall x, In x (t :: ts) -> x <= fold_left Z.max ts t.
Proof.
  revert t. induction ts as [|y ts IH]; intros t.
  - cbn. split; [left; reflexivity|]. intros x [<-|[]]. lia.
  - cbn [fold_left]. destruct (IH (Z.max t y)) as [Hin Hub]. split.
    + destruct Hin as [E|Hin]; [|right; right; exact Hin].
      rewrite <- E. destruct (Z.max_spec t y) as [[_ ->]|[_ ->]];
        [right; left | left]; reflexivity.
    + intros x [<-|[<-|Hx]].
      * specialize (Hub (Z.max t y) (or_introl eq_refl)). lia.
      * specialize (Hub (Z.max t y) (or_introl eq_refl)). lia.
      * apply Hub. right. exact Hx.
Qed.

Lemma fold_min_spec (ts : list datetime) (t : datetime) :
  In (fold_left Z.min ts t) (t :: ts) /\
  forall x, In x (t :: ts) -> fold_left Z.min ts t <= x.
Proof.
  revert t. induction ts as [|y ts IH]; intros t.
  - cbn. split; [left; reflexivity|]. intros x [<-|[]]. lia.
  - cbn [fold_left]. destruct (IH (Z.min t y)) as [Hin Hlb]. split.
    + destruct Hin as [E|Hin]; [|right; right; exact Hin].
      rewrite <- E. destruct (Z.min_spec t y) as [[_ ->]|[_ ->]];
        [left | right; left]; reflexivity.
    + intros x [<-|[<-|Hx]].
      * specialize (Hlb (Z.min t y) (or_introl eq_refl)). lia.
      * specialize (Hlb (Z.min t y) (or_introl eq_refl)). lia.
      * apply Hlb. right. exact Hx.
Qed.


End AggregatorFacts.

Section ChartShape.
Context `{PyRuntime}.
Variable C : Type.
Variable metric : Reading -> pyval.
Variable valid : float -> bool.
Variable classify : pyval -> result C.
Variable ndigits : Z.

Local Abbreviation parse r :=
  (IntervalAggregator._parse_timestamp (IntervalAggregator.timestamp_str r)).
Local Abbreviation get_24hour :=
  (IntervalAggregator.get_24hour_intervals_per_station C metric valid classify ndigits).
Local Abbreviation day_slots d :=
  (map (fun k : nat => replace_hour d START_HOUR + hours (Z.of_nat k)) (seq 0 24)).

Lemma day_slots_labels (d : datetime) :
  map (fun it => format_hour_label (hour it)) (day_slots d) = hour_labels /\
  map (fun it => IntervalAggregator._get_day_label it d) (day_slots d)
  = repeat "Today" 24 /\
  map (fun it => hour it mod LABEL_INTERVAL_HOURS =? 0) (day_slots d)
  = map Nat.even (seq 0 24).
Proof.
  assert (Hslot : forall k, In k (seq 0 24) ->
            hour (replace_hour d START_HOUR + hours (Z.of_nat k)) = Z.of_nat k /\
            date (replace_hour d START_HOUR + hours (Z.of_nat k)) = date d).
  { intros k Hk. apply in_seq in Hk. apply slot_hour_date. lia. }
  rewrite !map_map. split; [|split].
  - transitivity (map (fun k : nat => format_hour_label (Z.of_nat k)) (seq 0 24));
      [|reflexivity].
    apply map_ext_in. intros k Hk. rewrite (proj1 (Hslot k Hk)). reflexivity.
  - transitivity (map (fun _ : nat => "Today") (seq 0 24)); [|reflexivity].
    apply map_ext_in. intros k Hk. unfold IntervalAggregator._get_day_label.
    rewrite (proj2 (Hslot k Hk)), Z.eqb_refl. reflexivity.
  - transitivity (map (fun k : nat => Z.of_nat k mod LABEL_INTERVAL_HOURS =? 0) (seq 0 24));
      [|reflexivity].
    apply map_ext_in. intros k Hk. rewrite (proj1 (Hslot k Hk)). reflexivity.
Qed.

Lemma chart_entry (weather_data : list Reading) (sites : list Site)
      (target_date : option datetime) (now : datetime)
      (m : gmap string (list (DataPoint C))) (station_id : string)
      (points : list (DataPoint C)) :
  get_24hour weather_data sites target_date now = Ok m ->
  m !! station_id = Some points ->
  let d := IntervalAggregator.display_date_of weather_data target_date now in
  In station_id (map site_id sites) /\
  exists station_data,
    IntervalAggregator.group_loop metric valid (day_slots d) (replace_hour d START_HOUR)
      (replace_hour d END_HOUR) ∅ weather_data = Ok station_data /\
    IntervalAggregator._format_interval_data_with_labels C classify ndigits
      (day_slots d) (default ∅ (station_data !! station_id)) d = Ok points.
Proof.
  intros Hm Hp d. destruct (get_24hour_inv _ _ _ _ _ _ _ _ _ _ Hm) as (sd & Hg & Hall).
  destruct (Hall station_id) as [Hin Hout].
  destruct (in_dec string_dec station_id (map site_id sites)) as [Hs|Hs].
  - split; [exact Hs|]. exists sd. split; [exact Hg|].
    destruct (Hin Hs) as (points' & Hp' & Hf).
    rewrite Hp in Hp'. injection Hp' as <-. exact Hf.
  - rewrite (Hout Hs) in Hp. discriminate.
Qed.

Lemma chart_axis_any (weather_data : list Reading) (sites : list Site)
      (target_date : option datetime) (now : datetime)
      (m : gmap string (list (DataPoint C))) :
  get_24hour weather_data sites target_date now = Ok m ->
  forall station_id points, m !! station_id = Some points ->
    map label points = hour_labels /\
    map day points = repeat "Today" 24 /\
    map show_label points = map Nat.even (seq 0 24).
Proof.
  intros Hm station_id points Hp.
  destruct (chart_entry _ _ _ _ _ _ _ Hm Hp) as (_ & sd & _ & Hf).
  destruct (format_interval_fields _ _ _ _ _ _ _ Hf) as (_ & Hl & Hd & Hs & _).
  destruct (day_slots_labels
              (IntervalAggregator.display_date_of weather_data target_date now))
    as (El & Ed & Es).
  rewrite Hl, Hd, Hs, El, Ed, Es. repeat split.
Qed.

Lemma chart_keys_any (weather_data : list Reading) (sites : list Site)
      (target_date : option datetime) (now : datetime)
      (m : gmap string (list (DataPoint C))) :
  get_24hour weather_data sites target_date now = Ok m ->
  forall station_id, is_Some (m !! station_id) <-> In station_id (map site_id sites).
Proof.
  intros Hm station_id.
  destruct (get_24hour_inv _ _ _ _ _ _ _ _ _ _ Hm) as (sd & _ & Hall).
  destruct (Hall station_id) as [Hin Hout]. split.
  - intros [points Hp].
    destruct (in_dec string_dec station_id (map site_id sites)) as [Hs|Hs]; [exact Hs|].
    rewrite (Hout Hs) in Hp. discriminate.
  - intros Hs. destruct (Hin Hs) as (points & Hp & _). exists points. exact Hp.
Qed.

Lemma chart_counts_any (weather_data : list Reading) (sites : list Site)
      (target_date : option datetime) (now : datetime)
      (m : gmap string (list (DataPoint C))) :
  get_24hour weather_data sites target_date now = Ok m ->
  forall station_id points, m !! station_id = Some points ->
    (list_sum (map count points)
     <= length (List.filter (names_station station_id) weather_data))%nat.
Proof.
  intros Hm station_id points Hp.
  destruct (chart_entry _ _ _ _ _ _ _ Hm Hp) as (_ & sd & Hg & Hf).
  destruct (format_interval_fields _ _ _ _ _ _ _ Hf) as (_ & _ & _ & _ & Hc).
  rewrite Hc.
  pose proof (group_loop_counts metric valid _ _ _ _ _ _ station_id
                (slots_nodup _ 24) Hg) as Hle.
  rewrite station_total_empty in Hle. exact Hle.
Qed.

End ChartShape.

Section ChartTheorems.
Context `{PyRuntime}.

Local Abbreviation parse r :=
  (IntervalAggregator._parse_timestamp (IntervalAggregator.timestamp_str r)).

(** X19.  Whatever the readings, the points of every station in a returned
    chart carry the same axis: the labels "12 AM", "1 AM", ..., "11 PM" in
    this order, the day "Today" on all 24 points (the labels "Yesterday" and
    "Tomorrow" are never produced), and [show_label] set on every second
    point, starting with the first.  Both services. *)
Theorem chart_axis_is_fixed (weather_data : list Reading) (sites : list Site)
        (target_date : option datetime) (now : datetime) :
  (forall m,
      PrecipitationService.get_24hour_intervals_per_station
        weather_data sites target_date now = Ok m ->
      forall station_id points, m !! station_id = Some points ->
        map label points = hour_labels /\
        map day points = repeat "Today" 24 /\
        map show_label points = map Nat.even (seq 0 24)) /\
  (forall m,
      WaterLevelService.get_24hour_intervals_per_station
        weather_data sites target_date now = Ok m ->
      forall station_id points, m !! station_id = Some points ->
        map label points = hour_labels /\
        map day points = repeat "Today" 24 /\
        map show_label points = map Nat.even (seq 0 24)).
Proof.
  split; intros m Hm; exact (chart_axis_any _ _ _ _ _ _ _ _ _ _ Hm).
Qed.

(** X20.  A returned chart has an entry for exactly the configured sites: a
    site without readings still has its entry, and the readings of a station
    that is not configured create none.  Both services. *)
Theorem chart_keys_are_the_sites (weather_data : list Reading) (sites : list Site)
        (target_date : option datetime) (now : datetime) :
  (forall m,
      PrecipitationService.get_24hour_intervals_per_station
        weather_data sites target_date now = Ok m ->
      forall station_id,
        is_Some (m !! station_id) <-> In station_id (map site_id sites)) /\
  (forall m,
      WaterLevelService.get_24hour_intervals_per_station
        weather_data sites target_date now = Ok m ->
      forall station_id,
        is_Some (m !! station_id) <-> In station_id (map site_id sites)).
Proof.
  split; intros m Hm; exact (chart_keys_any _ _ _ _ _ _ _ _ _ _ Hm).
Qed.

(** X21.  No reading is counted twice and none is counted for another
    station: the [count] fields of the 24 points of a station add up to at
    most the number of readings that name this station.  Both services. *)
Theorem chart_counts_bounded (weather_data : list Reading) (sites : list Site)
        (target_date : option datetime) (now : datetime) :
  (forall m,
      PrecipitationService.get_24hour_intervals_per_station
        weather_data sites target_date now = Ok m ->
      forall station_id points, m !! station_id = Some points ->
        (list_sum (map count points)
         <= length (List.filter (names_station station_id) weather_data))%nat) /\
  (forall m,
      WaterLevelService.get_24hour_intervals_per_station
        weather_data sites target_date now = Ok m ->
      forall station_id points, m !! station_id = Some points ->
        (list_sum (map count points)
         <= length (List.filter (names_station station_id) weather_data))%nat).
Proof.
  split; intros m Hm; exact (chart_counts_any _ _ _ _ _ _ _ _ _ _ Hm).
Qed.


(** X26.  The label that the services give a slot is the one that
    [format_hour_label] of utils/formatters.py gives its hour, and over the
    hours 0 to 23 two different hours never get the same label. *)
Theorem slot_label_is_hour_label :
  (forall dt, IntervalAggregator._format_time_label dt = format_hour_label (hour dt)) /\
  (forall h h', 0 <= h <= 23 -> 0 <= h' <= 23 ->
                format_hour_label h = format_hour_label h' -> h = h').
Proof.
  split; [apply format_time_label_hour|].
  assert (Hnat : forall n n', (n < 24)%nat -> (n' < 24)%nat ->
             format_hour_label (Z.of_nat n) = format_hour_label (Z.of_nat n') -> n = n').
  { intros n n' Hn Hn'.
    do 24 (destruct n as [|n]; [do 24 (destruct n' as [|n'];
             [vm_compute; intros E; first [reflexivity | discriminate E]|]); lia|]).
    lia. }
  intros h h' Hh Hh' E.
  rewrite <- (Z2Nat.id h), <- (Z2Nat.id h') in E |- * by lia.
  f_equal. apply Hnat; [lia | lia | exact E].
Qed.
End ChartTheorems.

(** ** Runs of the charts on sample readings *)

Section ChartRuns.
#[local] Existing Instance SampleRuntime.sample_runtime.

(** The rainfall chart of St1 for the sample morning. *)
Lemma chart_axis_is_fixed_witness :
  exists m points,
    PrecipitationService.get_24hour_intervals_per_station
      ChartSamples.morning SiteConfig.SITES None 0 = Ok m /\
    m !! "St1" = Some points /\
    map label points = hour_labels /\
    map day points = repeat "Today" 24 /\
    map show_label points = map Nat.even (seq 0 24).
Proof.
  assert (E : exists m points,
             PrecipitationService.get_24hour_intervals_per_station
               ChartSamples.morning SiteConfig.SITES None 0 = Ok m /\
             m !! "St1" = Some points)
    by (vm_compute; do 2 eexists; split; reflexivity).
  destruct E as (m & points & Hm & Hp). exists m, points.
  split; [exact Hm|]. split; [exact Hp|].
  exact (proj1 (chart_axis_is_fixed ChartSamples.morning SiteConfig.SITES None 0)
           m Hm "St1" points Hp).
Defined.

(** St9 sends a reading and is not configured; St5 is configured and sends
    none. *)
Lemma chart_keys_are_the_sites_witness :
  exists m,
    WaterLevelService.get_24hour_intervals_per_station
      ChartSamples.morning SiteConfig.SITES None 0 = Ok m /\
    ~ is_Some (m !! "St9") /\ is_Some (m !! "St5").
Proof.
  assert (E : exists m,
             WaterLevelService.get_24hour_intervals_per_station
               ChartSamples.morning SiteConfig.SITES None 0 = Ok m)
    by (vm_compute; eexists; reflexivity).
  destruct E as (m & Hm). exists m. split; [exact Hm|].
  pose proof (proj2 (chart_keys_are_the_sites ChartSamples.morning SiteConfig.SITES None 0)
                m Hm) as Hkeys.
  split.
  - intros Hs. apply Hkeys in Hs. cbn in Hs.
    repeat (destruct Hs as [Hs|Hs]; [discriminate Hs|]). exact Hs.
  - apply Hkeys. cbn. tauto.
Defined.

(** St1 has two readings that morning. *)
Lemma chart_counts_bounded_witness :
  exists m points,
    PrecipitationService.get_24hour_intervals_per_station
      ChartSamples.morning SiteConfig.SITES None 0 = Ok m /\
    m !! "St1" = Some points /\
    (list_sum (map count points) <= 2)%nat.
Proof.
  assert (E : exists m points,
             PrecipitationService.get_24hour_intervals_per_station
               ChartSamples.morning SiteConfig.SITES None 0 = Ok m /\
             m !! "St1" = Some points)
    by (vm_compute; do 2 eexists; split; reflexivity).
  destruct E as (m & points & Hm & Hp). exists m, points.
  split; [exact Hm|]. split; [exact Hp|].
  exact (proj1 (chart_counts_bounded ChartSamples.morning SiteConfig.SITES None 0)
           m Hm "St1" points Hp).
Defined.


End ChartRuns.

(** ** The fallback after a failed fetch *)

Section StaleFallback.
Context `{PyRuntime}.
Variable clock : nat -> datetime.
Variable upstream : nat -> response.

Local Abbreviation fetch_weather_data := (WeatherService.fetch_weather_data clock upstream).

(** C2, as the code has it.  After a failed fetch, a previously cached
    dataset that is not empty is served as fallback whatever its age: the
    statement holds for every cache state, so for every instant of the last
    successful fetch, every stale window and every clock; get_stale_data()
    returns the stored data at every instant. *)
Theorem stale_data_served_at_any_age (force_refresh : bool) (w : world) (d : list pyval) :
  _data (cache w) = Some d -> d <> [] ->
  requests (snd (fetch_weather_data force_refresh w)) = S (requests w) ->
  api_failed (upstream (requests w)) = true ->
  fst (fetch_weather_data force_refresh w) = Ok (Some d) /\
  forall now, WeatherCache.get_stale_data now (cache w) = Some d.
Proof.
  intros D Hne Hreq F. split.
  - destruct (fetch_weather_data_cases clock upstream force_refresh w)
      as [(_ & d' & w' & _ & E & _ & R)|[E|E]].
    + rewrite E in Hreq. cbn [snd] in Hreq. lia.
    + rewrite E.
      destruct (fetch_and_store_failure clock upstream (WeatherService.tick w) F)
        as (w' & -> & _). cbn [fst WeatherService.tick cache]. rewrite D. reflexivity.
    + rewrite E.
      destruct (fetch_and_store_failure clock upstream
                  (WeatherService.tick (WeatherService.tick w)) F)
        as (w' & -> & _). cbn [fst WeatherService.tick cache]. rewrite D. reflexivity.
  - intros now. rewrite get_stale_data_any_age. exact D.
Qed.
End StaleFallback.

Section StaleFallbackRuns.
#[local] Existing Instance SampleRuntime.sample_runtime.

(** Data fetched at 05:00:00, a stale window of 300 seconds, and a timeout
    1000 seconds later. *)
Lemma stale_data_served_at_any_age_witness :
  _last_success (cache CacheSamples.fetched_at_0500) = Some Samples.at_0500 /\
  _stale_ttl (cache CacheSamples.fetched_at_0500) = seconds 300 /\
  CacheSamples.clock_plus 1000 0%nat - Samples.at_0500 = seconds 1000 /\
  fst (WeatherService.fetch_weather_data (CacheSamples.clock_plus 1000)
         CacheSamples.upstream_down false CacheSamples.fetched_at_0500)
  = Ok (Some [CacheSamples.reading]) /\
  forall now, WeatherCache.get_stale_data now (cache CacheSamples.fetched_at_0500)
              = Some [CacheSamples.reading].
Proof.
  split; [reflexivity|]. split; [reflexivity|]. split; [reflexivity|].
  apply (stale_data_served_at_any_age (CacheSamples.clock_plus 1000)
           CacheSamples.upstream_down false CacheSamples.fetched_at_0500
           [CacheSamples.reading]);
    [reflexivity | discriminate | reflexivity | reflexivity].
Defined.
End StaleFallbackRuns.

(** ** The charts on fetched readings *)

Lemma dt_add_ok (dt : datetime) (td : timedelta) :
  datetime_min <= dt + td <= datetime_max -> dt_add dt td = Ok (dt + td).
Proof.
  intros Hb. unfold dt_add.
  destruct (Z.leb_spec datetime_min (dt + td)); [|lia].
  destruct (Z.leb_spec (dt + td) datetime_max); [reflexivity | lia].
Qed.

Lemma dt_add_inv (dt : datetime) (td : timedelta) (r : datetime) :
  dt_add dt td = Ok r -> r = dt + td /\ datetime_min <= dt + td <= datetime_max.
Proof.
  unfold dt_add.
  destruct (Z.leb_spec datetime_min (dt + td)); [|discriminate].
  destruct (Z.leb_spec (dt + td) datetime_max); [|discriminate].
  intros [= <-]. lia.
Qed.

(** The day of an instant of the calendar starts within the range. *)
Lemma day_start_in_range (d : datetime) :
  datetime_min <= d -> datetime_min <= replace_hour d START_HOUR.
Proof.
  intros Hd. unfold replace_hour, date, START_HOUR. rewrite hours_unfold.
  assert (Hday : one_day = 86400000000) by reflexivity. rewrite Hday.
  assert (Hmin : datetime_min = 86400000000 * -719162) by reflexivity.
  rewrite Hmin in Hd |- *.
  pose proof (Z.div_le_lower_bound d 86400000000 (-719162) ltac:(lia) Hd). lia.
Qed.

Lemma within_calendar_spec (d : datetime) :
  within_calendar d = true ->
  datetime_min <= replace_hour d START_HOUR /\
  replace_hour d START_HOUR + hours 24 <= datetime_max.
Proof.
  unfold within_calendar. rewrite andb_true_iff, Z.leb_le, Z.leb_le.
  intros [Hlo Hhi]. split; [apply day_start_in_range, Hlo|].
  rewrite <- replace_hour_end. exact Hhi.
Qed.

(** The loop stops by its guard and no sum leaves the range. *)
Lemma payload_intervals_loop_exact (n : nat) (current end_time : datetime) :
  datetime_min <= current -> current + hours (Z.of_nat n) <= datetime_max ->
  current + hours (Z.of_nat n) - hours 1 <= end_time < current + hours (Z.of_nat n) ->
  PayloadAggregator.intervals_loop n current end_time
  = Ok (map (fun k : nat => current + hours (Z.of_nat k)) (seq 0 n)).
Proof.
  revert current. induction n as [|n IH]; intros current Hlo Hhi Hb; [reflexivity|].
  rewrite !hours_unfold in Hhi. rewrite !hours_unfold in Hb.
  cbn [PayloadAggregator.intervals_loop].
  destruct (Z.leb_spec current end_time); [|lia].
  unfold DATA_INTERVAL_HOURS.
  rewrite dt_add_ok by (rewrite hours_unfold; lia). cbn [rbind].
  rewrite IH by (rewrite !hours_unfold; lia). cbn [rbind seq map].
  f_equal. f_equal; [rewrite hours_unfold; lia|].
  rewrite <- seq_shift, map_map. apply map_ext. intros k. rewrite !hours_unfold. lia.
Qed.

(** What a returned loop has computed. *)
Lemma payload_intervals_loop_inv (n : nat) (current end_time : datetime)
      (intervals : list datetime) :
  current + hours (Z.of_nat n) - hours 1 <= end_time < current + hours (Z.of_nat n) ->
  PayloadAggregator.intervals_loop n current end_time = Ok intervals ->
  intervals = map (fun k : nat => current + hours (Z.of_nat k)) (seq 0 n) /\
  Forall (fun it => dt_add it (hours 1) = Ok (it + hours 1)) intervals.
Proof.
  revert current intervals. induction n as [|n IH]; intros current intervals Hb.
  - intros [= <-]. split; [reflexivity | constructor].
  - rewrite !hours_unfold in Hb. cbn [PayloadAggregator.intervals_loop].
    destruct (Z.leb_spec current end_time); [|lia].
    unfold DATA_INTERVAL_HOURS.
    destruct (dt_add current (hours 1)) as [next|e] eqn:Ea; [|discriminate].
    cbn [rbind]. destruct (dt_add_inv _ _ _ Ea) as [-> _].
    destruct (PayloadAggregator.intervals_loop n (current + hours 1) end_time)
      as [rest|e] eqn:El; [|discriminate].
    cbn [rbind]. intros [= <-].
    destruct (IH (current + hours 1) rest) as [-> Hall];
      [rewrite !hours_unfold; lia | exact El |].
    split.
    + cbn [seq map]. f_equal; [rewrite hours_unfold; lia|].
      rewrite <- seq_shift, map_map. apply map_ext. intros k. rewrite !hours_unfold. lia.
    + constructor; [exact Ea | exact Hall].
Qed.

Lemma day_fuel (d : datetime) :
  Z.to_nat ((replace_hour d END_HOUR - replace_hour d START_HOUR)
            / hours DATA_INTERVAL_HOURS + 1) = 24%nat.
Proof.
  unfold replace_hour, START_HOUR, END_HOUR, DATA_INTERVAL_HOURS.
  replace (date d * one_day + hours 23 - (date d * one_day + hours 0))
    with (hours 23) by (rewrite !hours_unfold; lia).
  reflexivity.
Qed.

Section PayloadFacts.
Context `{PyRuntime}.
Variable C : Type.
Variable metric : string.
Variable valid : float -> bool.
Variable classify : pyval -> result C.
Variable ndigits : Z.

Local Abbreviation parsed_time_of := PayloadAggregator.parsed_time_of.
Local Abbreviation group_body := (PayloadAggregator.group_body metric valid).
Local Abbreviation group_step := (PayloadAggregator.group_step metric valid).
Local Abbreviation group_loop := (PayloadAggregator.group_loop metric valid).
Local Abbreviation get_24hour :=
  (PayloadAggregator.get_24hour_intervals_per_station C metric valid classify ndigits).
Local Abbreviation day_slots d :=
  (map (fun k : nat => replace_hour d START_HOUR + hours (Z.of_nat k)) (seq 0 24)).
Local Abbreviation in_range intervals :=
  (Forall (fun it => dt_add it (hours 1) = Ok (it + hours 1)) intervals).

(** The 24 slots of a day of the calendar. *)
Lemma payload_intervals_day (d : datetime) :
  within_calendar d = true ->
  PayloadAggregator._create_hourly_intervals
    (replace_hour d START_HOUR) (replace_hour d END_HOUR) = Ok (day_slots d).
Proof.
  intros Hc. destruct (within_calendar_spec d Hc) as [Hlo Hhi].
  unfold PayloadAggregator._create_hourly_intervals. rewrite day_fuel.
  rewrite payload_intervals_loop_exact; [reflexivity | exact Hlo | exact Hhi |].
  unfold replace_hour, START_HOUR, END_HOUR. rewrite !hours_unfold. simpl. lia.
Qed.

(** Slots that were returned are the 24 slots of the day, and the end of
    each of them is within the range. *)
Lemma payload_intervals_day_inv (d : datetime) (intervals : list datetime) :
  PayloadAggregator._create_hourly_intervals
    (replace_hour d START_HOUR) (replace_hour d END_HOUR) = Ok intervals ->
  intervals = day_slots d /\ in_range intervals /\
  dt_add (replace_hour d END_HOUR) (hours 1) = Ok (replace_hour d END_HOUR + hours 1).
Proof.
  unfold PayloadAggregator._create_hourly_intervals. rewrite day_fuel.
  destruct (PayloadAggregator.intervals_loop 24 _ _) as [l|e] eqn:El; [|discriminate].
  cbn [rbind].
  destruct (payload_intervals_loop_inv 24 (replace_hour d START_HOUR)
              (replace_hour d END_HOUR) l) as [-> Hall]; [|exact El|].
  { unfold replace_hour, START_HOUR, END_HOUR. rewrite !hours_unfold. simpl. lia. }
  cbn [seq map]. intros [= <-]. split; [reflexivity|]. split; [exact Hall|].
  rewrite List.Forall_forall in Hall.
  replace (replace_hour d END_HOUR)
    with (replace_hour d START_HOUR + hours (Z.of_nat 23))
    by (unfold replace_hour, START_HOUR, END_HOUR; rewrite !hours_unfold; simpl; lia).
  apply Hall. apply in_map_iff. exists 23%nat. split; [reflexivity|].
  apply in_seq. lia.
Qed.

(** With every slot end in range the search is the one of
    [IntervalAggregator]. *)
Lemma payload_find_interval (t : datetime) (intervals : list datetime) :
  in_range intervals ->
  PayloadAggregator.find_interval t intervals
  = Ok (IntervalAggregator.find_interval t intervals).
Proof.
  induction 1 as [|it intervals Hit _ IH]; [reflexivity|].
  cbn [PayloadAggregator.find_interval IntervalAggregator.find_interval].
  rewrite Hit. cbn [rbind]. destruct (_ && _); [reflexivity | exact IH].
Qed.

(** *** Reading the timestamp *)

Lemma timestamp_str_dict (d : dict) :
  PayloadAggregator.timestamp_str (PyDict d) = Ok (timestamp_value d).
Proof.
  unfold PayloadAggregator.timestamp_str, PayloadAggregator.reading_get, timestamp_value,
    py_or, get.
  cbn [rbind]. destruct (dict_get "DateTime" d) as [v|]; cbn [default];
    destruct (truthy _); reflexivity.
Qed.

Lemma parsed_time_of_text (d : dict) :
  text_or_false (timestamp_value d) = true ->
  parsed_time_of (PyDict d) = Ok (parsed_text (timestamp_value d)).
Proof.
  unfold PayloadAggregator.parsed_time_of. rewrite timestamp_str_dict. cbn [rbind].
  unfold PayloadAggregator._parse_timestamp, parsed_text, text_or_false.
  destruct (timestamp_value d) as [|b|z|f|s|l|d'|t]; intros Ht;
    try (rewrite Ht; reflexivity); try reflexivity.
  cbn [truthy]. destruct (String.eqb_spec s "") as [->|Hs]; reflexivity.
Qed.

Lemma parsed_time_of_not_text (d : dict) :
  text_or_false (timestamp_value d) = false ->
  parsed_time_of (PyDict d) = Raise TypeError.
Proof.
  unfold PayloadAggregator.parsed_time_of. rewrite timestamp_str_dict. cbn [rbind].
  unfold PayloadAggregator._parse_timestamp, text_or_false.
  destruct (timestamp_value d) as [|b|z|f|s|l|d'|t]; intros Ht;
    try discriminate; apply negb_false_iff in Ht; rewrite Ht; reflexivity.
Qed.

Lemma parsed_time_of_not_dict (r : pyval) :
  (forall d, r <> PyDict d) -> parsed_time_of r = Raise AttributeError.
Proof. intros Hr. destruct r; try reflexivity. destruct (Hr d eq_refl). Qed.

(** The two exceptions that reading a timestamp can raise. *)
Lemma parsed_time_of_cases (r : pyval) :
  (exists d, r = PyDict d /\ text_or_false (timestamp_value d) = true /\
             parsed_time_of r = Ok (parsed_text (timestamp_value d))) \/
  (exists d, r = PyDict d /\ text_or_false (timestamp_value d) = false /\
             parsed_time_of r = Raise TypeError) \/
  ((forall d, r <> PyDict d) /\ parsed_time_of r = Raise AttributeError).
Proof.
  destruct r as [|b|z|f|s|l|d|t];
    try (right; right; split; [intros d' E; discriminate E | reflexivity]).
  destruct (text_or_false (timestamp_value d)) eqn:Et.
  - left. exists d. split; [reflexivity|]. split; [exact Et|].
    apply parsed_time_of_text, Et.
  - right. left. exists d. split; [reflexivity|]. split; [exact Et|].
    apply parsed_time_of_not_text, Et.
Qed.

(** *** The grouping loop *)

Lemma payload_group_loop_app (intervals : list datetime) (start_time end_time : datetime)
      (aware : bool) (xs ys : list pyval) (station_data : Buckets) :
  group_loop intervals start_time end_time aware station_data (xs ++ ys)
  = rbind (group_loop intervals start_time end_time aware station_data xs)
          (fun station_data' =>
             group_loop intervals start_time end_time aware station_data' ys).
Proof.
  revert station_data. induction xs as [|x xs IH]; intros station_data; [reflexivity|].
  cbn [app PayloadAggregator.group_loop].
  destruct (group_step intervals start_time end_time aware station_data x);
    [apply IH | reflexivity].
Qed.

Lemma payload_group_loop_remove (intervals : list datetime) (start_time end_time : datetime)
      (aware : bool) (before after : list pyval) (reading : pyval) (station_data : Buckets) :
  (forall sd, group_step intervals start_time end_time aware sd reading = Ok sd) ->
  group_loop intervals start_time end_time aware station_data (before ++ reading :: after)
  = group_loop intervals start_time end_time aware station_data (before ++ after).
Proof.
  intros Hskip. rewrite !payload_group_loop_app.
  destruct (group_loop intervals start_time end_time aware station_data before) as [sd|e];
    [|reflexivity].
  cbn [rbind PayloadAggregator.group_loop]. rewrite Hskip. reflexivity.
Qed.

(** A reading without a timestamp that parses leaves the buckets alone. *)
Lemma payload_group_step_no_time (intervals : list datetime) (start_time end_time : datetime)
      (aware : bool) (station_data : Buckets) (reading : pyval) :
  parsed_time_of reading = Ok None ->
  group_step intervals start_time end_time aware station_data reading = Ok station_data.
Proof.
  intros E. unfold PayloadAggregator.group_step, PayloadAggregator.group_body.
  rewrite E. reflexivity.
Qed.

Lemma get_default (k : string) (d : dict) : default PyNone (dict_get k d) = get k d.
Proof. unfold get. destruct (dict_get k d); reflexivity. Qed.

(** A reading that the services drop for its station id or its value. *)
Lemma payload_group_step_dropped (intervals : list datetime) (start_time end_time : datetime)
      (station_data : Buckets) (d : dict) :
  text_or_false (timestamp_value d) = true ->
  dt_add end_time (hours 1) = Ok (end_time + hours 1) ->
  truthy (get "StationID" d) = false \/
  get metric d = PyNone \/
  py_float (get metric d) = Raise ValueError \/
  py_float (get metric d) = Raise TypeError \/
  (exists f, py_float (get metric d) = Ok f /\ valid f = false) ->
  group_step intervals start_time end_time false station_data (PyDict d) = Ok station_data.
Proof.
  intros Ht Hend Hd. unfold PayloadAggregator.group_step, PayloadAggregator.group_body.
  rewrite (parsed_time_of_text d Ht). cbn [rbind].
  destruct (parsed_text (timestamp_value d)) as [t|]; [|reflexivity].
  destruct (negb (start_time <=? t)); [reflexivity|].
  rewrite Hend. cbn [rbind].
  destruct (negb (t <=? end_time + hours 1)); [reflexivity|].
  unfold PayloadAggregator.reading_get. cbn [rbind]. rewrite !get_default.
  destruct Hd as [Hs|[Hm|[Hf|[Hf|(f & Hf & Hv)]]]].
  - rewrite Hs. reflexivity.
  - rewrite Hm. cbn [is_none]. rewrite orb_true_r. reflexivity.
  - destruct (_ || _); [reflexivity|]. rewrite Hf. reflexivity.
  - destruct (_ || _); [reflexivity|]. rewrite Hf. reflexivity.
  - destruct (_ || _); [reflexivity|]. rewrite Hf, Hv. reflexivity.
Qed.



(** *** The display date *)

Lemma latest_loop_app (xs ys : list pyval) (acc : option datetime) :
  PayloadAggregator.latest_loop acc (xs ++ ys)
  = rbind (PayloadAggregator.latest_loop acc xs)
          (fun acc' => PayloadAggregator.latest_loop acc' ys).
Proof.
  revert acc. induction xs as [|x xs IH]; intros acc; [reflexivity|].
  cbn [app PayloadAggregator.latest_loop].
  destruct (PayloadAggregator.later acc x); [apply IH | reflexivity].
Qed.

Lemma later_no_time (acc : option datetime) (reading : pyval) :
  parsed_time_of reading = Ok None -> PayloadAggregator.later acc reading = Ok acc.
Proof. intros E. unfold PayloadAggregator.later. rewrite E. reflexivity. Qed.



(** *** The chart *)

Hypothesis classify_total :
  forall values, exists c, classify (IntervalAggregator.average values) = Ok c.

End PayloadFacts.

Section PayloadSkips.
Context `{PyRuntime}.
Variable C : Type.
Variable metric : string.
Variable valid : float -> bool.
Variable classify : pyval -> result C.
Variable ndigits : Z.

Local Abbreviation parsed_time_of := PayloadAggregator.parsed_time_of.
Local Abbreviation get_24hour :=
  (PayloadAggregator.get_24hour_intervals_per_station C metric valid classify ndigits).

(** Reading the timestamp returns exactly on the readings that [reads_as]
    describes. *)
Lemma parsed_time_of_reads_as (reading : pyval) (parsed : option datetime) :
  parsed_time_of reading = Ok parsed <-> reads_as reading parsed.
Proof.
  split.
  - intros E.
    destruct (parsed_time_of_cases reading)
      as [(d & -> & Ht & E')|[(d & -> & _ & E')|(_ & E')]];
      rewrite E' in E; [|discriminate|discriminate].
    injection E as <-. exists d. repeat split. exact Ht.
  - intros (d & -> & Ht & <-). apply parsed_time_of_text, Ht.
Qed.

Lemma latest_loop_remove (before after : list pyval) (reading : pyval)
      (acc : option datetime) :
  parsed_time_of reading = Ok None ->
  PayloadAggregator.latest_loop acc (before ++ reading :: after)
  = PayloadAggregator.latest_loop acc (before ++ after).
Proof.
  intros E. rewrite !latest_loop_app.
  destruct (PayloadAggregator.latest_loop acc before) as [acc'|e]; [|reflexivity].
  cbn [rbind PayloadAggregator.latest_loop]. rewrite (later_no_time acc' reading E).
  reflexivity.
Qed.

Lemma payload_display_date_remove (before after : list pyval) (reading : pyval)
      (target_date : option moment) (now : datetime) :
  parsed_time_of reading = Ok None ->
  PayloadAggregator.display_date_of (before ++ reading :: after) target_date now
  = PayloadAggregator.display_date_of (before ++ after) target_date now.
Proof.
  intros E. unfold PayloadAggregator.display_date_of.
  destruct target_date as [t|]; [reflexivity|].
  pose proof (latest_loop_remove before after reading None E) as Hl.
  destruct before as [|b before]; cbn [app] in Hl |- *.
  - rewrite Hl. destruct after as [|a after]; reflexivity.
  - rewrite Hl. reflexivity.
Qed.

Lemma payload_unparseable_skipped (before after : list pyval) (reading : pyval)
      (sites : list Site) (target_date : option moment) (now : datetime) :
  parsed_time_of reading = Ok None ->
  get_24hour (before ++ reading :: after) sites target_date now
  = get_24hour (before ++ after) sites target_date now.
Proof.
  intros E. unfold PayloadAggregator.get_24hour_intervals_per_station.
  rewrite (payload_display_date_remove before after reading target_date now E).
  destruct (PayloadAggregator.display_date_of (before ++ after) target_date now)
    as [d|e]; [|reflexivity].
  cbn [rbind]. destruct (PayloadAggregator._create_hourly_intervals _ _) as [intervals|e];
    [|reflexivity].
  cbn [rbind]. unfold PayloadAggregator._group_readings_by_station_and_interval.
  rewrite (payload_group_loop_remove metric valid); [reflexivity|].
  intros sd. apply payload_group_step_no_time, E.
Qed.

Lemma payload_dropped (before after : list pyval) (d : dict) (sites : list Site)
      (target_date : moment) (now : datetime) :
  dt_aware target_date = false ->
  text_or_false (timestamp_value d) = true ->
  truthy (get "StationID" d) = false \/
  get metric d = PyNone \/
  py_float (get metric d) = Raise ValueError \/
  py_float (get metric d) = Raise TypeError \/
  (exists f, py_float (get metric d) = Ok f /\ valid f = false) ->
  get_24hour (before ++ PyDict d :: after) sites (Some target_date) now
  = get_24hour (before ++ after) sites (Some target_date) now.
Proof.
  intros Hnaive Ht Hd. unfold PayloadAggregator.get_24hour_intervals_per_station.
  cbn [PayloadAggregator.display_date_of rbind].
  destruct (PayloadAggregator._create_hourly_intervals _ _) as [intervals|e] eqn:Ei;
    [|reflexivity].
  destruct (payload_intervals_day_inv _ _ Ei) as (_ & _ & Hend).
  cbn [rbind]. unfold PayloadAggregator._group_readings_by_station_and_interval.
  rewrite Hnaive.
  rewrite (payload_group_loop_remove metric valid); [reflexivity|].
  intros sd. apply payload_group_step_dropped; assumption.
Qed.

(** *** The date range *)

Lemma valid_dates_spec_payload (weather_data : list pyval) (dates : list datetime) :
  PayloadAggregator.valid_dates weather_data = Ok dates ->
  (forall r, In r weather_data -> exists parsed, parsed_time_of r = Ok parsed) /\
  (forall t, In t dates <->
             exists r, In r weather_data /\ parsed_time_of r = Ok (Some t)).
Proof.
  revert dates. induction weather_data as [|r rs IH]; intros dates.
  - intros [= <-]. split; [intros r []|]. intros t. split; [intros [] | intros (r & [] & _)].
  - cbn [PayloadAggregator.valid_dates].
    destruct (parsed_time_of r) as [o|e] eqn:Er; [|discriminate]. cbn [rbind].
    destruct (PayloadAggregator.valid_dates rs) as [ds|e]; [|discriminate]. cbn [rbind].
    destruct (IH ds eq_refl) as [Hok Hin]. intros Hd. split.
    + intros r' [<-|Hr']; [eauto | apply Hok, Hr'].
    + intros t. destruct o as [t0|]; injection Hd as <-.
      * cbn [In]. rewrite Hin. split.
        -- intros [<-|(r' & Hr' & Hp)]; [exists r; split; [left; reflexivity | exact Er]|].
           exists r'. split; [right; exact Hr' | exact Hp].
        -- intros (r' & [<-|Hr'] & Hp); [left; congruence | right; eauto].
      * rewrite Hin. split.
        -- intros (r' & Hr' & Hp). exists r'. split; [right; exact Hr' | exact Hp].
        -- intros (r' & [<-|Hr'] & Hp); [congruence | eauto].
Qed.

(** The first reading whose timestamp raises ends the loop. *)
Lemma valid_dates_raises (weather_data : list pyval) (r : pyval) (e : exn) :
  In r weather_data -> parsed_time_of r = Raise e ->
  exists r' e', In r' weather_data /\ parsed_time_of r' = Raise e' /\
                PayloadAggregator.valid_dates weather_data = Raise e'.
Proof.
  induction weather_data as [|x xs IH]; [intros []|]. intros Hin Hr.
  cbn [PayloadAggregator.valid_dates].
  destruct (parsed_time_of x) as [o|e0] eqn:Ex.
  - destruct Hin as [->|Hin]; [congruence|].
    destruct (IH Hin Hr) as (r' & e' & Hr' & Hp & ->). cbn [rbind].
    exists r', e'. split; [right; exact Hr'|]. split; [exact Hp | reflexivity].
  - exists x, e0. split; [left; reflexivity|]. split; [exact Ex | reflexivity].
Qed.

Lemma valid_dates_total (weather_data : list pyval) :
  (forall r, In r weather_data -> exists parsed, parsed_time_of r = Ok parsed) ->
  exists dates, PayloadAggregator.valid_dates weather_data = Ok dates.
Proof.
  induction weather_data as [|x xs IH]; intros Hall; [exists []; reflexivity|].
  cbn [PayloadAggregator.valid_dates].
  destruct (Hall x (or_introl eq_refl)) as [o ->]. cbn [rbind].
  destruct IH as [ds ->]; [intros r Hr; apply Hall; right; exact Hr|]. cbn [rbind].
  destruct o; eauto.
Qed.

Lemma latest_loop_valid_dates (weather_data : list pyval) (dates : list datetime)
      (acc : option datetime) :
  PayloadAggregator.valid_dates weather_data = Ok dates ->
  PayloadAggregator.latest_loop acc weather_data
  = Ok (fold_left (fun a t => match a with
                              | None => Some t
                              | Some latest => Some (Z.max latest t)
                              end) dates acc).
Proof.
  revert dates acc. induction weather_data as [|r rs IH]; intros dates acc.
  - intros [= <-]. reflexivity.
  - cbn [PayloadAggregator.valid_dates PayloadAggregator.latest_loop].
    unfold PayloadAggregator.later.
    destruct (parsed_time_of r) as [o|e]; [|discriminate]. cbn [rbind].
    destruct (PayloadAggregator.valid_dates rs) as [ds|e]; [|discriminate]. cbn [rbind].
    destruct o as [t|]; intros [= <-].
    + cbn [fold_left]. destruct acc as [l|]; cbn [rbind]; rewrite (IH ds _ eq_refl);
        [|reflexivity].
      do 2 f_equal. destruct (Z.ltb_spec l t); f_equal; lia.
    + apply (IH ds acc eq_refl).
Qed.

Lemma payload_date_range_some (weather_data : list pyval) (earliest latest : datetime) :
  PayloadAggregator.get_available_date_range weather_data = Ok (Some (earliest, latest)) ->
  exists t ts,
    PayloadAggregator.valid_dates weather_data = Ok (t :: ts) /\
    earliest = fold_left Z.min ts t /\ latest = fold_left Z.max ts t /\
    forall now, PayloadAggregator.display_date_of weather_data None now = Ok (naive latest).
Proof.
  unfold PayloadAggregator.get_available_date_range, PayloadAggregator.display_date_of.
  destruct weather_data as [|r rs]; [discriminate|].
  destruct (PayloadAggregator.valid_dates (r :: rs)) as [[|t ts]|e] eqn:Ev;
    cbn [rbind]; try discriminate.
  intros [= <- <-]. exists t, ts. repeat split.
  intros now. rewrite (latest_loop_valid_dates _ _ None Ev). cbn [rbind fold_left].
  rewrite fold_some_max. reflexivity.
Qed.
End PayloadSkips.

Section PayloadTheorems.
Context `{PyRuntime}.


(** X22.  A reading that is a dict whose timestamp is false in a condition
    (missing, null, empty) or is text that no layout parses is skipped
    before its value is looked at: with or without it both chart functions
    return the same, result or exception, for every target date and
    whatever the other readings are; its value may be one on which float()
    would raise. *)
Theorem unparseable_timestamp_is_skipped (before after : list pyval) (reading : dict)
        (sites : list Site) (target_date : option moment) (now : datetime) :
  text_or_false (timestamp_value reading) = true ->
  parsed_text (timestamp_value reading) = None ->
  PrecipitationPayload.get_24hour_intervals_per_station
    (before ++ PyDict reading :: after) sites target_date now
  = PrecipitationPayload.get_24hour_intervals_per_station
      (before ++ after) sites target_date now /\
  WaterLevelPayload.get_24hour_intervals_per_station
    (before ++ PyDict reading :: after) sites target_date now
  = WaterLevelPayload.get_24hour_intervals_per_station
      (before ++ after) sites target_date now.
Proof.
  intros Ht Hp.
  assert (E : PayloadAggregator.parsed_time_of (PyDict reading) = Ok None)
    by (rewrite parsed_time_of_text, Hp; [reflexivity | exact Ht]).
  split; apply payload_unparseable_skipped, E.
Qed.

(** X23.  For a target date without time zone, a reading that is a dict
    with a timestamp that is text (or false) and that has no station id, no
    measured value, a value that float() rejects with ValueError or
    TypeError, or a value outside the accepted range (negative rainfall;
    water level below 0 or above 15) does not change what the chart function
    returns, whatever the other readings are. *)
Theorem invalid_reading_is_dropped (before after : list pyval) (reading : dict)
        (sites : list Site) (target_date : moment) (now : datetime) :
  dt_aware target_date = false ->
  text_or_false (timestamp_value reading) = true ->
  (truthy (get "StationID" reading) = false \/
   get "HourlyRain" reading = PyNone \/
   py_float (get "HourlyRain" reading) = Raise ValueError \/
   py_float (get "HourlyRain" reading) = Raise TypeError \/
   (exists f, py_float (get "HourlyRain" reading) = Ok f /\
              fltb f (float_of_Z 0) = true) ->
   PrecipitationPayload.get_24hour_intervals_per_station
     (before ++ PyDict reading :: after) sites (Some target_date) now
   = PrecipitationPayload.get_24hour_intervals_per_station
       (before ++ after) sites (Some target_date) now) /\
  (truthy (get "StationID" reading) = false \/
   get "WaterLevel" reading = PyNone \/
   py_float (get "WaterLevel" reading) = Raise ValueError \/
   py_float (get "WaterLevel" reading) = Raise TypeError \/
   (exists f, py_float (get "WaterLevel" reading) = Ok f /\
              (fleb MIN_VALID_WATER_LEVEL f = false \/
               fleb f MAX_VALID_WATER_LEVEL = false)) ->
   WaterLevelPayload.get_24hour_intervals_per_station
     (before ++ PyDict reading :: after) sites (Some target_date) now
   = WaterLevelPayload.get_24hour_intervals_per_station
       (before ++ after) sites (Some target_date) now).
Proof.
  intros Hnaive Ht. split; intros Hd; apply payload_dropped; try assumption.
  - destruct Hd as [Hd|[Hd|[Hd|[Hd|(f & Ef & Ev)]]]]; auto 6.
    do 4 right. exists f. split; [exact Ef|].
    unfold PrecipitationService.valid. rewrite Ev. reflexivity.
  - destruct Hd as [Hd|[Hd|[Hd|[Hd|(f & Ef & Ev)]]]]; auto 6.
    do 4 right. exists f. split; [exact Ef|].
    unfold WaterLevelService.valid. destruct Ev as [-> | ->];
      [reflexivity | apply andb_false_r].
Qed.

(** X25.  get_available_date_range returns None exactly when every reading
    is a dict whose timestamp is false or text that no layout parses.  When
    it returns a range, earliest and latest are timestamps of readings,
    every parsed timestamp lies between them, and latest is the display date
    that the chart functions choose when no target date is given.  A reading
    that is no dict, or whose timestamp is true in a condition and no text
    (a JSON number), makes it raise AttributeError or TypeError. *)
Theorem date_range_bounds (weather_data : list pyval) :
  (PayloadAggregator.get_available_date_range weather_data = Ok None
   <-> Forall (fun r => reads_as r None) weather_data) /\
  (forall earliest latest,
      PayloadAggregator.get_available_date_range weather_data
      = Ok (Some (earliest, latest)) ->
      (exists r, In r weather_data /\ reads_as r (Some earliest)) /\
      (exists r, In r weather_data /\ reads_as r (Some latest)) /\
      (forall r t, In r weather_data -> reads_as r (Some t) -> earliest <= t <= latest) /\
      (forall now, PayloadAggregator.display_date_of weather_data None now
                   = Ok (naive latest))) /\
  (forall r, In r weather_data ->
      (forall d, r <> PyDict d) \/
      (exists d, r = PyDict d /\ text_or_false (timestamp_value d) = false) ->
      PayloadAggregator.get_available_date_range weather_data = Raise AttributeError \/
      PayloadAggregator.get_available_date_range weather_data = Raise TypeError).
Proof.
  split; [|split].
  - split.
    + intros Hn. apply List.Forall_forall. intros r Hr.
      apply parsed_time_of_reads_as.
      unfold PayloadAggregator.get_available_date_range in Hn.
      destruct weather_data as [|r0 rs]; [destruct Hr|].
      destruct (PayloadAggregator.valid_dates (r0 :: rs)) as [[|t ts]|e] eqn:Ev;
        cbn [rbind] in Hn; try discriminate.
      destruct (valid_dates_spec_payload _ _ Ev) as [Hok Hin].
      destruct (Hok r Hr) as [[t|] Ep]; [|exact Ep].
      destruct (proj2 (Hin t)) as []. eauto.
    + intros Hall. rewrite List.Forall_forall in Hall.
      unfold PayloadAggregator.get_available_date_range.
      destruct weather_data as [|r0 rs]; [reflexivity|].
      destruct (valid_dates_total (r0 :: rs)) as [dates Ev].
      { intros r Hr. exists None. apply parsed_time_of_reads_as, Hall, Hr. }
      rewrite Ev. cbn [rbind]. destruct dates as [|t ts]; [reflexivity|].
      destruct (valid_dates_spec_payload _ _ Ev) as [_ Hin].
      destruct (proj1 (Hin t) (or_introl eq_refl)) as (r & Hr & Ep).
      apply parsed_time_of_reads_as in Ep.
      destruct (Hall r Hr) as (d & -> & _ & En).
      destruct Ep as (d' & [= <-] & _ & Es). congruence.
  - intros earliest latest Hs.
    destruct (payload_date_range_some _ _ _ Hs) as (t & ts & Ev & -> & -> & Hd).
    destruct (valid_dates_spec_payload _ _ Ev) as [_ Hin].
    destruct (fold_min_spec ts t) as [Hmin Hlb].
    destruct (fold_max_spec ts t) as [Hmax Hub].
    split; [|split; [|split]].
    + destruct (proj1 (Hin _) Hmin) as (r & Hr & Ep). exists r. split; [exact Hr|].
      apply parsed_time_of_reads_as, Ep.
    + destruct (proj1 (Hin _) Hmax) as (r & Hr & Ep). exists r. split; [exact Hr|].
      apply parsed_time_of_reads_as, Ep.
    + intros r t' Hr Hp. apply parsed_time_of_reads_as in Hp.
      assert (Ht' : In t' (t :: ts)) by (apply Hin; eauto).
      split; [apply Hlb | apply Hub]; exact Ht'.
    + exact Hd.
  - intros r Hr Hbad.
    assert (Hraise : exists e, PayloadAggregator.parsed_time_of r = Raise e).
    { destruct Hbad as [Hnd|(d & -> & Ht)].
      - exists AttributeError. apply parsed_time_of_not_dict, Hnd.
      - exists TypeError. apply parsed_time_of_not_text, Ht. }
    destruct Hraise as [e He].
    destruct (valid_dates_raises _ _ _ Hr He) as (r' & e' & Hr' & Hp' & Ev).
    unfold PayloadAggregator.get_available_date_range.
    destruct weather_data as [|r0 rs]; [destruct Hr|].
    rewrite Ev. cbn [rbind].
    destruct (parsed_time_of_cases r')
      as [(d & _ & _ & E')|[(d & _ & _ & E')|(_ & E')]];
      rewrite E' in Hp'; [discriminate | |]; injection Hp' as <-; auto.
Qed.
End PayloadTheorems.

(** ** Runs of the charts on sample payloads *)

Section PayloadRuns.
#[local] Existing Instance SampleRuntime.sample_runtime.


(** A reading stamped "soon" with the value 10^400 before the sample
    readings. *)
Lemma unparseable_timestamp_is_skipped_witness :
  py_float (get "HourlyRain" PayloadSamples.no_timestamp) = Raise OverflowError /\
  PrecipitationPayload.get_24hour_intervals_per_station
    ([] ++ PyDict PayloadSamples.no_timestamp :: PayloadSamples.morning)
    SiteConfig.SITES None 0
  = PrecipitationPayload.get_24hour_intervals_per_station
      ([] ++ PayloadSamples.morning) SiteConfig.SITES None 0 /\
  WaterLevelPayload.get_24hour_intervals_per_station
    ([] ++ PyDict PayloadSamples.no_timestamp :: PayloadSamples.morning)
    SiteConfig.SITES None 0
  = WaterLevelPayload.get_24hour_intervals_per_station
      ([] ++ PayloadSamples.morning) SiteConfig.SITES None 0.
Proof.
  split; [reflexivity|].
  apply (unparseable_timestamp_is_skipped [] PayloadSamples.morning
           PayloadSamples.no_timestamp SiteConfig.SITES None 0);
    reflexivity.
Defined.

(** A reading of -1 at 06:00 among the sample readings. *)
Lemma invalid_reading_is_dropped_witness :
  PrecipitationPayload.get_24hour_intervals_per_station
    (PayloadSamples.morning ++ PyDict PayloadSamples.negative :: []) SiteConfig.SITES
    (Some (naive Samples.at_0500)) 0
  = PrecipitationPayload.get_24hour_intervals_per_station
      (PayloadSamples.morning ++ []) SiteConfig.SITES (Some (naive Samples.at_0500)) 0 /\
  WaterLevelPayload.get_24hour_intervals_per_station
    (PayloadSamples.morning ++ PyDict PayloadSamples.negative :: []) SiteConfig.SITES
    (Some (naive Samples.at_0500)) 0
  = WaterLevelPayload.get_24hour_intervals_per_station
      (PayloadSamples.morning ++ []) SiteConfig.SITES (Some (naive Samples.at_0500)) 0.
Proof.
  destruct (invalid_reading_is_dropped PayloadSamples.morning [] PayloadSamples.negative
              SiteConfig.SITES (naive Samples.at_0500) 0 eq_refl eq_refl) as [HP HW].
  split.
  - apply HP. do 4 right. exists (float_of_Z (-1)). split; reflexivity.
  - apply HW. do 4 right. exists (float_of_Z (-1)). split; [reflexivity|].
    left. reflexivity.
Defined.

(** The range of the sample morning with an unreadable timestamp in front,
    and what a timestamp sent as a number does. *)
Lemma date_range_bounds_witness :
  PayloadAggregator.get_available_date_range
    (PyDict PayloadSamples.no_timestamp :: PayloadSamples.morning)
  = Ok (Some (Samples.at_0500, Samples.at_0500 + hours 2 + minutes 20)) /\
  PayloadAggregator.display_date_of
    (PyDict PayloadSamples.no_timestamp :: PayloadSamples.morning) None 0
  = Ok (naive (Samples.at_0500 + hours 2 + minutes 20)) /\
  PayloadAggregator.get_available_date_range [PyDict PayloadSamples.no_timestamp] = Ok None /\
  (PayloadAggregator.get_available_date_range
     (PayloadSamples.morning ++ [PayloadSamples.numeric_timestamp]) = Raise AttributeError \/
   PayloadAggregator.get_available_date_range
     (PayloadSamples.morning ++ [PayloadSamples.numeric_timestamp]) = Raise TypeError).
Proof.
  destruct (date_range_bounds (PyDict PayloadSamples.no_timestamp :: PayloadSamples.morning))
    as (_ & Hsome & _).
  destruct (date_range_bounds [PyDict PayloadSamples.no_timestamp]) as (Hnone & _).
  destruct (date_range_bounds (PayloadSamples.morning ++ [PayloadSamples.numeric_timestamp]))
    as (_ & _ & Hraise).
  assert (Hr : PayloadAggregator.get_available_date_range
                 (PyDict PayloadSamples.no_timestamp :: PayloadSamples.morning)
               = Ok (Some (Samples.at_0500, Samples.at_0500 + hours 2 + minutes 20)))
    by reflexivity.
  split; [exact Hr|]. split; [|split].
  - destruct (Hsome _ _ Hr) as (_ & _ & _ & Hd). apply Hd.
  - apply Hnone. constructor; [|constructor].
    exists PayloadSamples.no_timestamp. repeat split.
  - apply (Hraise PayloadSamples.numeric_timestamp).
    + apply in_or_app. right. left. reflexivity.
    + right. eexists. split; [reflexivity|]. reflexivity.
Defined.
End PayloadRuns.

(** ** The two embeddings of the aggregators agree

    On the payload of a typed reading, with slots in range, the functions of
    [PayloadAggregator] compute what those of [IntervalAggregator]
    compute. *)

Section Refinement.
Context `{PyRuntime}.
Variable C : Type.
Variable key : string.
Variable metric : Reading -> pyval.
Variable valid : float -> bool.
Variable classify : pyval -> result C.
Variable ndigits : Z.

Hypothesis metric_key : forall r, get key (payload_of r) = metric r.

Local Abbreviation in_range intervals :=
  (Forall (fun it => dt_add it (hours 1) = Ok (it + hours 1)) intervals).

Lemma payload_of_timestamp (r : Reading) :
  timestamp_value (payload_of r) = PyStr (IntervalAggregator.timestamp_str r).
Proof.
  unfold timestamp_value, payload_of, IntervalAggregator.timestamp_str, py_or, get.
  destruct (DateTime r) as [[|a s]|]; destruct (DateTimeStamp r) as [s'|];
    destruct (StationID r); reflexivity.
Qed.

Lemma payload_of_station (r : Reading) :
  get "StationID" (payload_of r)
  = match StationID r with Some sid => PyStr sid | None => PyNone end.
Proof.
  unfold payload_of, get.
  destruct (DateTime r); destruct (DateTimeStamp r); destruct (StationID r); reflexivity.
Qed.

Lemma payload_of_parsed (r : Reading) :
  PayloadAggregator.parsed_time_of (PyDict (payload_of r))
  = Ok (IntervalAggregator._parse_timestamp (IntervalAggregator.timestamp_str r)).
Proof.
  rewrite parsed_time_of_text; rewrite payload_of_timestamp; reflexivity.
Qed.

Lemma refine_group_step (intervals : list datetime) (start_time end_time : datetime)
      (station_data : gmap string (gmap Z (list float))) (r : Reading) :
  in_range intervals ->
  dt_add end_time (hours 1) = Ok (end_time + hours 1) ->
  PayloadAggregator.group_step key valid intervals start_time end_time false
    (named_buckets station_data) (PyDict (payload_of r))
  = match IntervalAggregator.group_step metric valid intervals start_time end_time
            station_data r with
    | Ok station_data' => Ok (named_buckets station_data')
    | Raise e => Raise e
    end.
Proof.
  intros Hint Hend.
  unfold PayloadAggregator.group_step, PayloadAggregator.group_body,
    IntervalAggregator.group_step.
  rewrite payload_of_parsed. cbn [rbind].
  destruct (IntervalAggregator._parse_timestamp _) as [t|]; [|reflexivity].
  destruct (Z.leb_spec start_time t); cbn [negb andb]; [|reflexivity].
  rewrite Hend. cbn [rbind].
  destruct (t <=? end_time + hours 1); cbn [negb]; [|reflexivity].
  unfold PayloadAggregator.reading_get. cbn [rbind].
  rewrite !get_default, payload_of_station, metric_key.
  destruct (StationID r) as [sid|]; [|reflexivity].
  cbn [truthy]. destruct (String.eqb sid ""); cbn [negb orb]; [reflexivity|].
  destruct (is_none (metric r)); [reflexivity|].
  destruct (py_float (metric r)) as [v|e] eqn:Ef.
  - destruct (negb (valid v)); [reflexivity|].
    rewrite (payload_find_interval t intervals Hint). cbn [rbind].
    destruct (IntervalAggregator.find_interval t intervals); reflexivity.
  - destruct (py_float_raises _ _ Ef) as [->|[->| ->]]; reflexivity.
Qed.

Lemma refine_group_loop (intervals : list datetime) (start_time end_time : datetime)
      (weather_data : list Reading) (station_data : gmap string (gmap Z (list float))) :
  in_range intervals ->
  dt_add end_time (hours 1) = Ok (end_time + hours 1) ->
  PayloadAggregator.group_loop key valid intervals start_time end_time false
    (named_buckets station_data) (map (fun r => PyDict (payload_of r)) weather_data)
  = match IntervalAggregator.group_loop metric valid intervals start_time end_time
            station_data weather_data with
    | Ok station_data' => Ok (named_buckets station_data')
    | Raise e => Raise e
    end.
Proof.
  intros Hint Hend. revert station_data.
  induction weather_data as [|r rs IH]; intros station_data; [reflexivity|].
  cbn [map PayloadAggregator.group_loop IntervalAggregator.group_loop].
  rewrite (refine_group_step intervals start_time end_time station_data r Hint Hend).
  destruct (IntervalAggregator.group_step metric valid intervals start_time end_time
              station_data r) as [sd|e]; [|reflexivity].
  cbn [rbind]. apply IH.
Qed.

Lemma refine_latest_loop (weather_data : list Reading) (acc : option datetime) :
  PayloadAggregator.latest_loop acc (map (fun r => PyDict (payload_of r)) weather_data)
  = Ok (fold_left IntervalAggregator.later weather_data acc).
Proof.
  revert acc. induction weather_data as [|r rs IH]; intros acc; [reflexivity|].
  cbn [map PayloadAggregator.latest_loop fold_left].
  unfold PayloadAggregator.later. rewrite payload_of_parsed. cbn [rbind].
  unfold IntervalAggregator.later at 2.
  destruct (IntervalAggregator._parse_timestamp _) as [t|]; [|apply IH].
  destruct acc as [l|]; cbn [rbind]; apply IH.
Qed.

Lemma refine_display_date (weather_data : list Reading) (target_date : option datetime)
      (now : datetime) :
  PayloadAggregator.display_date_of (map (fun r => PyDict (payload_of r)) weather_data)
    (option_map naive target_date) now
  = Ok (naive (IntervalAggregator.display_date_of weather_data target_date now)).
Proof.
  unfold PayloadAggregator.display_date_of, IntervalAggregator.display_date_of.
  destruct target_date as [t|]; [reflexivity|]. cbn [option_map].
  destruct weather_data as [|r rs]; [reflexivity|].
  cbn [map]. change (PyDict (payload_of r) :: map (fun r => PyDict (payload_of r)) rs)
    with (map (fun r => PyDict (payload_of r)) (r :: rs)).
  rewrite refine_latest_loop. cbn [rbind].
  destruct (fold_left IntervalAggregator.later (r :: rs) None); reflexivity.
Qed.

(** The chart of typed readings, for a display day within the calendar. *)
Lemma refine_chart (weather_data : list Reading) (sites : list Site)
      (target_date : option datetime) (now : datetime) :
  within_calendar (IntervalAggregator.display_date_of weather_data target_date now) = true ->
  PayloadAggregator.get_24hour_intervals_per_station C key valid classify ndigits
    (map (fun r => PyDict (payload_of r)) weather_data) sites
    (option_map naive target_date) now
  = IntervalAggregator.get_24hour_intervals_per_station C metric valid classify ndigits
      weather_data sites target_date now.
Proof.
  intros Hcal.
  unfold PayloadAggregator.get_24hour_intervals_per_station,
    IntervalAggregator.get_24hour_intervals_per_station.
  rewrite refine_display_date. cbn [rbind dt_wall dt_aware naive].
  set (d := IntervalAggregator.display_date_of weather_data target_date now) in *.
  rewrite (payload_intervals_day d Hcal). cbn [rbind].
  destruct (payload_intervals_day_inv d _ (payload_intervals_day d Hcal))
    as (_ & Hrange & Hend).
  rewrite create_hourly_intervals_day.
  unfold PayloadAggregator._group_readings_by_station_and_interval,
    IntervalAggregator._group_readings_by_station_and_interval.
  change no_buckets with (named_buckets ∅).
  rewrite (refine_group_loop _ _ _ weather_data ∅ Hrange Hend).
  destruct (IntervalAggregator.group_loop metric valid _ _ _ ∅ weather_data);
    reflexivity.
Qed.
End Refinement.

Section RefinementOfServices.
Context `{PyRuntime}.

Lemma payload_of_rain (r : Reading) : get "HourlyRain" (payload_of r) = HourlyRain r.
Proof.
  unfold payload_of, get.
  destruct (DateTime r); destruct (DateTimeStamp r); destruct (StationID r); reflexivity.
Qed.

Lemma payload_of_water (r : Reading) : get "WaterLevel" (payload_of r) = WaterLevel r.
Proof.
  unfold payload_of, get.
  destruct (DateTime r); destruct (DateTimeStamp r); destruct (StationID r); reflexivity.
Qed.

(** The services of the typed readings are the services of their payloads,
    for a target date without time zone and a display day within the
    calendar. *)
Lemma typed_services_refine (weather_data : list Reading) (sites : list Site)
      (target_date : option datetime) (now : datetime) :
  within_calendar (IntervalAggregator.display_date_of weather_data target_date now) = true ->
  PrecipitationPayload.get_24hour_intervals_per_station
    (map (fun r => PyDict (payload_of r)) weather_data) sites
    (option_map naive target_date) now
  = PrecipitationService.get_24hour_intervals_per_station
      weather_data sites target_date now /\
  WaterLevelPayload.get_24hour_intervals_per_station
    (map (fun r => PyDict (payload_of r)) weather_data) sites
    (option_map naive target_date) now
  = WaterLevelService.get_24hour_intervals_per_station
      weather_data sites target_date now.
Proof.
  intros Hcal. split.
  - apply (refine_chart rainfall_level "HourlyRain" HourlyRain); [apply payload_of_rain|].
    exact Hcal.
  - apply (refine_chart alert_level "WaterLevel" WaterLevel); [apply payload_of_water|].
    exact Hcal.
Qed.
End RefinementOfServices.

(** ** The fuel of the slot loop

    The fuel that [_create_hourly_intervals] gives its loop is never used
    up: the loop ends by its guard or by an exception, and more fuel changes
    nothing. *)

Lemma payload_intervals_loop_fuel (n extra : nat) (current end_time : datetime) :
  end_time < current + hours (Z.of_nat n) ->
  PayloadAggregator.intervals_loop (n + extra) current end_time
  = PayloadAggregator.intervals_loop n current end_time.
Proof.
  revert current. induction n as [|n IH]; intros current Hend.
  - rewrite hours_unfold in Hend. cbn [Nat.add PayloadAggregator.intervals_loop].
    destruct extra as [|extra]; [reflexivity|].
    cbn [PayloadAggregator.intervals_loop].
    destruct (Z.leb_spec current end_time); [lia | reflexivity].
  - rewrite hours_unfold in Hend. cbn [Nat.add PayloadAggregator.intervals_loop].
    destruct (current <=? end_time); [|reflexivity].
    unfold DATA_INTERVAL_HOURS.
    destruct (dt_add current (hours 1)) as [next|e] eqn:Ea; [|reflexivity].
    cbn [rbind]. destruct (dt_add_inv _ _ _ Ea) as [-> _].
    rewrite IH by (rewrite !hours_unfold; lia). reflexivity.
Qed.

Lemma payload_intervals_fuel_suffices (extra : nat) (start_time end_time : datetime) :
  let fuel := Z.to_nat ((end_time - start_time) / hours DATA_INTERVAL_HOURS + 1) in
  PayloadAggregator.intervals_loop (fuel + extra) start_time end_time
  = PayloadAggregator.intervals_loop fuel start_time end_time.
Proof.
  intros fuel. apply payload_intervals_loop_fuel. subst fuel.
  unfold DATA_INTERVAL_HOURS. rewrite hours_unfold.
  assert (Hh : hours 1 = 3600000000) by reflexivity. rewrite Hh.
  pose proof (Z.mul_succ_div_gt (end_time - start_time) 3600000000 ltac:(lia)) as Hhi.
  destruct (Z.le_gt_cases 0 ((end_time - start_time) / 3600000000 + 1)) as [Hpos|Hneg].
  - rewrite Z2Nat.id by exact Hpos. lia.
  - rewrite Z2Nat.nonpos by lia. simpl. lia.
Qed.
